(** * adamant-tradebot: order-lifecycle engine and command router

    A shallow embedding of the parts of the trade bot that its specification
    makes checkable statements about:

    - [Js]: the JavaScript values the code computes with (numbers, strings);
    - [OrderBookBuilder]: the order-book builder module (side choice, the
      placement loop of [buildOrderBook], the re-entrancy guard of
      [iteration]);
    - [Trader]: [getOrderDetails] of the DexTrade, Bitqik and Bitkub
      adapters;
    - [Collector]: the order collector, which the command router calls;
    - [CommandTxs]: the command router ([y], [clear], [fill], [make]);
    - [CommandTxsLegacy]: the older dialect of the router ([y]);
    - [FillBudget]: what the order list of [fill] spends;
    - [Settings], [SettingsLegacy]: the commands that write the trade
      settings ([start], [stop], [enable], [disable], [buypercent],
      [amount], [interval]) in both dialects of the router;
    - [Placement]: [placeOrderBookOrder] of the builder with [setPrice],
      [setAmount] and [isEnoughCoins];
    - [ApiClient]: [handleResponse] and [protectedRequest] of the Bitqik,
      DexTrade and Bitkub API clients;
    - [Manual]: the manual orders ([buy], [sell]);
    - [Router]: the exported command processor with [aliases] and
      [commands];
    - [PairName]: [formatPairName] of the DexTrade adapter.

    JavaScript numbers are modelled as exact rationals extended with
    [Infinity], [-Infinity] and [NaN]; binary64 rounding is not modelled.
    Comparisons, which decide every branch below, are exact on doubles. *)

From Stdlib Require Import ZArith QArith Qround List String Ascii Bool Lia Lqa.
Import ListNotations.

Open Scope string_scope.
Open Scope list_scope.

Set Implicit Arguments.

(* ===================================================================== *)
(** * JavaScript values *)
(* ===================================================================== *)

Module Js.

(** A JavaScript number.  [undefined] coerces to [NaN] under unary plus and
    behaves like [NaN] under [!] and the relational operators, so a numeric
    field that may be unset is a [number] whose unset value is [NaN]. *)
Inductive number : Type :=
| Num (q : Q)
| PInf
| NInf
| NaN.

Definition Qlt_bool (x y : Q) : bool := negb (Qle_bool y x).

(** [a < b] *)
Definition lt (a b : number) : bool :=
  match a, b with
  | Num x, Num y => Qlt_bool x y
  | Num _, PInf => true
  | NInf, Num _ => true
  | NInf, PInf => true
  | _, _ => false
  end.

(** [a > b] *)
Definition gt (a b : number) : bool := lt b a.

(** [a === b] on numbers *)
Definition eq (a b : number) : bool :=
  match a, b with
  | Num x, Num y => Qeq_bool x y
  | PInf, PInf => true
  | NInf, NInf => true
  | _, _ => false
  end.

(** [a <= b] and [a >= b] *)
Definition le (a b : number) : bool := lt a b || eq a b.
Definition ge (a b : number) : bool := le b a.

(** [!a]: a number is falsy when it is [0] or [NaN]. *)
Definition falsy (a : number) : bool :=
  match a with
  | Num q => Qeq_bool q 0
  | NaN => true
  | _ => false
  end.

Definition truthy (a : number) : bool := negb (falsy a).

Definition sign_pos (q : Q) : bool := Qlt_bool 0 q.

Definition add (a b : number) : number :=
  match a, b with
  | NaN, _ | _, NaN => NaN
  | PInf, NInf | NInf, PInf => NaN
  | PInf, _ | _, PInf => PInf
  | NInf, _ | _, NInf => NInf
  | Num x, Num y => Num (x + y)
  end.

Definition neg (a : number) : number :=
  match a with
  | Num x => Num (- x)
  | PInf => NInf
  | NInf => PInf
  | NaN => NaN
  end.

Definition sub (a b : number) : number := add a (neg b).

Definition inf_of_sign (positive : bool) : number :=
  if positive then PInf else NInf.

Definition mul (a b : number) : number :=
  match a, b with
  | NaN, _ | _, NaN => NaN
  | Num x, Num y => Num (x * y)
  | Num x, PInf | PInf, Num x =>
      if Qeq_bool x 0 then NaN else inf_of_sign (sign_pos x)
  | Num x, NInf | NInf, Num x =>
      if Qeq_bool x 0 then NaN else inf_of_sign (negb (sign_pos x))
  | PInf, PInf | NInf, NInf => PInf
  | PInf, NInf | NInf, PInf => NInf
  end.

Definition div (a b : number) : number :=
  match a, b with
  | NaN, _ | _, NaN => NaN
  | Num x, Num y =>
      if Qeq_bool y 0
      then (if Qeq_bool x 0 then NaN else inf_of_sign (sign_pos x))
      else Num (x / y)
  | Num _, PInf | Num _, NInf => Num 0
  | PInf, Num y => inf_of_sign (Qle_bool 0 y)
  | NInf, Num y => inf_of_sign (negb (Qle_bool 0 y))
  | _, _ => NaN
  end.

(** ** Strings (ASCII) *)

Definition lower_ascii (c : ascii) : ascii :=
  let n := nat_of_ascii c in
  if (65 <=? n)%nat && (n <=? 90)%nat then ascii_of_nat (n + 32) else c.

Definition upper_ascii (c : ascii) : ascii :=
  let n := nat_of_ascii c in
  if (97 <=? n)%nat && (n <=? 122)%nat then ascii_of_nat (n - 32) else c.

Fixpoint map_string (f : ascii -> ascii) (s : string) : string :=
  match s with
  | EmptyString => EmptyString
  | String c r => String (f c) (map_string f r)
  end.

Definition toLowerCase : string -> string := map_string lower_ascii.
Definition toUpperCase : string -> string := map_string upper_ascii.

(** [s.startsWith(p)] *)
Fixpoint startsWith (s p : string) {struct p} : bool :=
  match p with
  | EmptyString => true
  | String c p' =>
      match s with
      | EmptyString => false
      | String d s' => Ascii.eqb d c && startsWith s' p'
      end
  end.

(** [s.substring(1)] *)
Definition substring1 (s : string) : string :=
  match s with
  | EmptyString => EmptyString
  | String _ r => r
  end.

(** [s.charAt(0)], the empty string when [s] is empty *)
Definition charAt0 (s : string) : string :=
  match s with
  | EmptyString => EmptyString
  | String c _ => String c EmptyString
  end.

(** [s.indexOf('/') === -1] is [negb (contains_char "/" s)] *)
Fixpoint contains_char (c : ascii) (s : string) : bool :=
  match s with
  | EmptyString => false
  | String d r => Ascii.eqb c d || contains_char c r
  end.

Definition is_space (c : ascii) : bool :=
  let n := nat_of_ascii c in
  (n =? 32)%nat || ((9 <=? n)%nat && (n <=? 13)%nat).

Fixpoint trim_left (s : string) : string :=
  match s with
  | String c r => if is_space c then trim_left r else s
  | EmptyString => EmptyString
  end.

Fixpoint rev_string (s acc : string) : string :=
  match s with
  | EmptyString => acc
  | String c r => rev_string r (String c acc)
  end.

(** [s.trim()] *)
Definition trim (s : string) : string :=
  rev_string (trim_left (rev_string (trim_left s) EmptyString)) EmptyString.

(** [s.split('=')]: the pieces between the separators. *)
Fixpoint split_on (sep : ascii) (s : string) (cur : string) : list string :=
  match s with
  | EmptyString => [rev_string cur EmptyString]
  | String c r =>
      if Ascii.eqb c sep
      then rev_string cur EmptyString :: split_on sep r EmptyString
      else split_on sep r (String c cur)
  end.

Definition split (sep : ascii) (s : string) : list string :=
  split_on sep s EmptyString.

(** [params.join(' ')] *)
Definition join (l : list string) : string := String.concat " " l.

(** [params.indexOf(p)] as an index into the array, [None] for [-1]. *)
Fixpoint indexOf (l : list string) (p : string) : option nat :=
  match l with
  | [] => None
  | x :: r => if String.eqb x p then Some 0%nat
              else option_map S (indexOf r p)
  end.

(** A decimal reading of unary plus on strings, [+"0.5"]: an optional
    integer part, an optional fraction; the empty string is [0]; anything
    else is [NaN].  It agrees with JavaScript on unsigned decimal literals
    without exponent, which is what the concrete runs below use; the
    theorems hold for every conversion function. *)
Definition digit_of (c : ascii) : option Z :=
  let n := nat_of_ascii c in
  if (48 <=? n)%nat && (n <=? 57)%nat then Some (Z.of_nat (n - 48)) else None.

Fixpoint read_digits (s : string) (acc : Z) (len : nat)
  : Z * nat * string :=
  match s with
  | String c r =>
      match digit_of c with
      | Some d => read_digits r (10 * acc + d)%Z (S len)
      | None => (acc, len, s)
      end
  | EmptyString => (acc, len, s)
  end.

Definition decimalToNumber (s : string) : number :=
  match trim s with
  | EmptyString => Num 0
  | t =>
      let '(ip, ilen, rest) := read_digits t 0%Z 0%nat in
      match rest with
      | EmptyString => Num (inject_Z ip)
      | String "."%char frac =>
          let '(fp, flen, rest') := read_digits frac 0%Z 0%nat in
          match rest' with
          | EmptyString =>
              if ((ilen + flen)%nat =? 0)%nat then NaN
              else Num (inject_Z ip + Qmake fp (Pos.of_nat (10 ^ flen)))
          | _ => NaN
          end
      | _ => NaN
      end
  end.

End Js.

(* ===================================================================== *)
(** * Order-book builder *)
(* ===================================================================== *)

Module OrderBookBuilder.

Import Js.

Inductive side : Type := buy | sell.

(** The part of [tradeParams] the builder reads. *)
Record TradeParams : Type := {
  mm_buyPercent : number;
  mm_isActive : bool;
  mm_isOrderBookActive : bool;
  mm_policyIsRegular : bool; (* MM_POLICIES_REGULAR.includes(mm_Policy) *)
  mm_orderBookOrdersCount : number
}.

(** The shipped settings of [tradeParams] that the builder reads. *)
Definition default_tradeParams : TradeParams := {|
  mm_buyPercent := Num (67 # 100);
  mm_isActive := false;
  mm_isOrderBookActive := true;
  mm_policyIsRegular := true; (* "optimal" *)
  mm_orderBookOrdersCount := Num 20
|}.

Definition MAX_ORDERS_PER_ITERATION : nat := 5.

(** [setType()]: [rnd] is the value of [Math.random()].  [None] is the
    [false] returned when [mm_buyPercent] is not set. *)
Definition setType (tp : TradeParams) (rnd : Q) : option side :=
  if falsy (mm_buyPercent tp) then None
  else if gt (Num rnd) (mm_buyPercent tp) then Some buy else Some sell.

(** A sub-interval of the unit interval in which [Math.random()] falls,
    with either end open or closed, and its measure. *)
Record Interval : Type := {
  lo : Q;
  hi : Q;
  lo_closed : bool;
  hi_closed : bool
}.

Definition measure (i : Interval) : Q := hi i - lo i.

Definition inside (i : Interval) (r : Q) : Prop :=
  (if lo_closed i then lo i <= r else lo i < r) /\
  (if hi_closed i then r <= hi i else r < hi i).

(** The draws on which [setType] answers [buy] are those of [i]. *)
Definition buy_region (tp : TradeParams) (i : Interval) : Prop :=
  0 <= lo i /\ lo i <= hi i /\ hi i <= 1 /\
  forall rnd : Q, 0 <= rnd -> rnd < 1 ->
    (setType tp rnd = Some buy <-> inside i rnd).

(** ** [buildOrderBook] *)

(** A ledger row of purpose [ob], as far as the builder looks at it. *)
Record ObOrder : Type := {
  ob_id : string;
  ob_dateTill : Z;
  ob_outOfPwRange : bool (* utils.isOrderOutOfPriceWatcherRange(order) *)
}.

(** What [orderCollector.clearOrderById] can do to the builder: answer with
    [isCancelRequestProcessed], or throw. *)
Inductive Cancellation : Type :=
| CancelAnswer (isCancelRequestProcessed : bool)
| CancelThrows.

(** [closeOrderBookOrders]: expired and out-of-range orders are handed to the
    collector; an order stays in the list when it needs no closing or when
    the cancel request was not processed.  An order whose cancellation throws
    is dropped from the list by the [catch]. *)
Fixpoint closeOrderBookOrders (now : Z) (clearOrderById : ObOrder -> Cancellation)
    (orderBookOrders : list ObOrder) : list ObOrder :=
  match orderBookOrders with
  | [] => []
  | order :: rest =>
      let updated := closeOrderBookOrders now clearOrderById rest in
      if (ob_dateTill order <? now)%Z || ob_outOfPwRange order then
        match clearOrderById order with
        | CancelAnswer false => order :: updated
        | CancelAnswer true => updated
        | CancelThrows => updated
        end
      else order :: updated
  end.

Definition num_of_nat (n : nat) : number := Num (inject_Z (Z.of_nat n)).

(** The [while] loop of [buildOrderBook].  [placeOrderBookOrder attempt count]
    is the outcome of the call made at the given attempt with the current
    count: [true] when an order id came back.  The result is the final
    [orderBookOrdersCount] and the calls made, in order: the count each was
    made at and its outcome. *)
Fixpoint placement_loop (tp : TradeParams)
    (placeOrderBookOrder : nat -> nat -> bool)
    (ordersToPlace orderBookOrdersCount attempt : nat) : nat * list (nat * bool) :=
  match ordersToPlace with
  | O => (orderBookOrdersCount, [])
  | S ordersToPlace' =>
      if lt (num_of_nat orderBookOrdersCount) (mm_orderBookOrdersCount tp) then
        let ok := placeOrderBookOrder attempt orderBookOrdersCount in
        let count' := if ok then S orderBookOrdersCount else orderBookOrdersCount in
        let '(final, calls) :=
          placement_loop tp placeOrderBookOrder ordersToPlace' count' (S attempt) in
        (final, (orderBookOrdersCount, ok) :: calls)
      else (orderBookOrdersCount, [])
  end.

(** [buildOrderBook]: [orderBookOrders] is the ledger's open ob-orders after
    [orderUtils.updateOrders]; [ordersToPlace] is the value drawn by
    [utils.randomValue(1, MAX_ORDERS_PER_ITERATION, true)]. *)
Definition buildOrderBook (tp : TradeParams) (now : Z)
    (clearOrderById : ObOrder -> Cancellation)
    (placeOrderBookOrder : nat -> nat -> bool)
    (ordersToPlace : nat) (orderBookOrders : list ObOrder) : nat * list (nat * bool) :=
  let survivors := closeOrderBookOrders now clearOrderById orderBookOrders in
  placement_loop tp placeOrderBookOrder ordersToPlace (List.length survivors) 0.

Definition placed (calls : list (nat * bool)) : nat :=
  List.length (filter snd calls).

(** The settings after [/enable ob 2] on the shipped ones. *)
Definition lowered_tradeParams : TradeParams := {|
  mm_buyPercent := Num (67 # 100);
  mm_isActive := true;
  mm_isOrderBookActive := true;
  mm_policyIsRegular := true;
  mm_orderBookOrdersCount := Num 2
|}.

(** Three ob-orders placed under the shipped settings, none of them due. *)
Definition three_open_orders : list ObOrder :=
  [ {| ob_id := "ob-1"; ob_dateTill := 9000; ob_outOfPwRange := false |};
    {| ob_id := "ob-2"; ob_dateTill := 9500; ob_outOfPwRange := false |};
    {| ob_id := "ob-3"; ob_dateTill := 9900; ob_outOfPwRange := false |} ].

(** ** [iteration] and its re-entrancy flag

    JavaScript runs each piece of code between two [await]s to completion, so
    the scheduler is a transition system whose steps are those pieces.  A
    chain is one self-rescheduling sequence of [iteration] calls, started by
    [run()]. *)

Inductive chain : Type :=
| Waiting   (* a timer is pending, or the chain has just been started *)
| Building. (* suspended at [await this.buildOrderBook()] *)

Record Scheduler : Type := {
  isPreviousIterationFinished : bool;
  chains : list chain
}.

Definition scheduler_init : Scheduler :=
  {| isPreviousIterationFinished := true; chains := [] |}.

Inductive event : Type :=
| Run (interval : Z) (tp : TradeParams)
    (* [run()]: a new chain enters [iteration] *)
| TimerFires (i : nat) (interval : Z) (tp : TradeParams)
    (* the timer of chain [i] fires: it enters [iteration] *)
| BuildFinished (i : nat).
    (* [buildOrderBook] of chain [i] returns *)

Fixpoint set_chain (i : nat) (c : chain) (l : list chain) : list chain :=
  match l, i with
  | [], _ => []
  | _ :: r, O => c :: r
  | x :: r, S j => x :: set_chain j c r
  end.

(** The condition of the outer [if] of [iteration]. *)
Definition gate (interval : Z) (tp : TradeParams) : bool :=
  negb (interval =? 0)%Z && mm_isActive tp && mm_isOrderBookActive tp
  && mm_policyIsRegular tp.

(** The body of [iteration] up to its [await], run by chain [i]. *)
Definition enter_iteration (i : nat) (interval : Z) (tp : TradeParams)
    (s : Scheduler) : Scheduler :=
  if gate interval tp then
    if isPreviousIterationFinished s then
      {| isPreviousIterationFinished := false;
         chains := set_chain i Building (chains s) |}
    else s (* postponed: only the next timer is set *)
  else s.

Definition step (s : Scheduler) (e : event) : option Scheduler :=
  match e with
  | Run interval tp =>
      let s0 := {| isPreviousIterationFinished := isPreviousIterationFinished s;
                   chains := chains s ++ [Waiting] |} in
      Some (enter_iteration (List.length (chains s)) interval tp s0)
  | TimerFires i interval tp =>
      match nth_error (chains s) i with
      | Some Waiting => Some (enter_iteration i interval tp s)
      | _ => None
      end
  | BuildFinished i =>
      match nth_error (chains s) i with
      | Some Building =>
          Some {| isPreviousIterationFinished := true;
                  chains := set_chain i Waiting (chains s) |}
      | _ => None
      end
  end.

Fixpoint run_events (s : Scheduler) (es : list event) : option Scheduler :=
  match es with
  | [] => Some s
  | e :: r => match step s e with
              | Some s' => run_events s' r
              | None => None
              end
  end.

Definition is_building (c : chain) : bool :=
  match c with Building => true | Waiting => false end.

Definition count_building (l : list chain) : nat :=
  List.length (filter is_building l).

(** The number of [buildOrderBook] runs in flight. *)
Definition in_flight (s : Scheduler) : nat := count_building (chains s).

(** The flag is down exactly while one run is in flight, and there is never
    more than one. *)
Definition guarded (s : Scheduler) : Prop :=
  (isPreviousIterationFinished s = true /\ in_flight s = 0%nat) \/
  (isPreviousIterationFinished s = false /\ in_flight s = 1%nat).

End OrderBookBuilder.

(* ===================================================================== *)
(** * Trading-API adapters: [getOrderDetails] *)
(* ===================================================================== *)

Module Trader.

Import Js.

(** What awaiting the API client's [getOrder] promise gives. *)
Inductive ApiResult (R : Type) : Type :=
| Rejected            (* the promise rejects: the adapter's first [catch] *)
| ResolvedNothing     (* it resolves with [undefined] *)
| Resolved (reply : R).
Arguments Rejected {R}.
Arguments ResolvedNothing {R}.
Arguments Resolved {R} reply.

(** A string is truthy when it is not empty; an absent field is falsy. *)
Definition truthy_field (f : option string) : bool :=
  match f with
  | Some s => negb (String.eqb s "")
  | None => false
  end.

(** [a == b] on numeric fields that may be absent. *)
Definition loose_eq (a b : option number) : bool :=
  match a, b with
  | None, None => true
  | Some x, Some y => Js.eq x y
  | _, _ => false
  end.

(** Unary plus on a numeric field. *)
Definition plus (a : option number) : number :=
  match a with Some x => x | None => NaN end.

(** The object [getOrderDetails] returns; the fields after [status] are
    absent from the reply for an unknown order. *)
Record Fields : Type := {
  price : number;
  side : option string;
  type : option string;
  amount : number;
  volume : number;
  amountExecuted : number;
  volumeExecuted : number;
  timestamp : number;
  updateTimestamp : number
}.

Record OrderDetails : Type := {
  orderId : option string;
  status : string;
  fields : option Fields
}.

Definition lookup_table (t : list (Z * string)) (k : option Z) : option string :=
  match k with
  | None => None
  | Some z => option_map snd (find (fun e => (fst e =? z)%Z) t)
  end.

Module DexTrade.

Definition ORDER_SIDE : list (Z * string) := [(0, "buy"); (1, "sell")]%Z.

Definition ORDER_TYPE : list (Z * string) :=
  [(0, "limit"); (1, "market"); (2, "limit"); (3, "market"); (4, "limit")]%Z.

(** [order.data] of the reply of [/private/get-order]. *)
Record OrderData : Type := {
  id : option string; (* [order.id.toString()]; reading it throws when absent *)
  o_volume : option number;
  o_volume_done : option number;
  o_rate : option number;
  o_price : option number;
  o_price_done : option number;
  o_type : option Z;
  o_type_trade : option Z;
  o_time_create : option number;
  o_time_done : option number
}.

(** The object the API client resolves with. *)
Record Reply : Type := {
  dextradeErrorInfo : option string;
  data : option OrderData
}.

(** [getOrderDetails(orderId, pair)]; [None] is the [undefined] returned from
    either [catch]. *)
Definition getOrderDetails (orderId : string) (res : ApiResult Reply)
  : option OrderDetails :=
  match res with
  | Rejected => None
  | ResolvedNothing => None (* reading [order.dextradeErrorInfo] throws *)
  | Resolved order =>
      if negb (truthy_field (dextradeErrorInfo order)) then
        match data order with
        | None => None (* reading [order.volume_done] throws *)
        | Some order =>
            let orderStatus :=
              if loose_eq (o_volume_done order) (Some (Num 0)) then "new"
              else if loose_eq (o_volume order) (o_volume_done order) then "filled"
              else "part_filled" in
            match id order with
            | None => None (* [order.id.toString()] throws *)
            | Some ident =>
                Some {| orderId := Some ident;
                        status := orderStatus;
                        fields := Some {|
                          price := plus (o_rate order);
                          side := lookup_table ORDER_SIDE (o_type order);
                          type := lookup_table ORDER_TYPE (o_type_trade order);
                          amount := plus (o_volume order);
                          volume := plus (o_price order);
                          amountExecuted := plus (o_volume_done order);
                          volumeExecuted := plus (o_price_done order);
                          timestamp := plus (o_time_create order);
                          updateTimestamp := plus (o_time_done order) |} |}
            end
        end
      else
        Some {| orderId := Some orderId; status := "unknown"; fields := None |}
  end.

(** The exchange answered the request with an error: the API client has
    attached its error information to what it resolved with. *)
Definition error_reply (res : ApiResult Reply) : Prop :=
  exists reply, res = Resolved reply /\
                truthy_field (dextradeErrorInfo reply) = true.


End DexTrade.

Module Bitqik.

Definition ORDER_TYPE : list (Z * string) := [(76, "limit"); (77, "market")]%Z.

Definition ORDER_STATUS : list (Z * string) :=
  [(2, "new"); (5, "part_filled"); (4, "filled"); (9, "new"); (6, "cancelled")]%Z.

(** The object the API client resolves with for [/api/v3.2/order]. *)
Record Reply : Type := {
  bitqikErrorInfo : option string;
  orderID : option string;
  o_price : option number;
  o_side : option string;
  o_orderType : option Z;
  o_size : option number;
  o_orderValue : option number;
  o_filledSize : option number;
  o_timestamp : option number;
  o_status : option Z
}.

(** [x || 'cancelled'] on a table lookup *)
Definition or_cancelled (x : option string) : string :=
  match x with
  | Some s => if String.eqb s "" then "cancelled" else s
  | None => "cancelled"
  end.

Definition getOrderDetails (orderId : string) (res : ApiResult Reply)
  : option OrderDetails :=
  match res with
  | Rejected => None
  | ResolvedNothing => None (* reading [order.bitqikErrorInfo] throws *)
  | Resolved order =>
      if negb (truthy_field (bitqikErrorInfo order)) then
        Some {| orderId := orderID order;
                status := or_cancelled (lookup_table ORDER_STATUS (o_status order));
                fields := Some {|
                  price := plus (o_price order);
                  side := option_map toLowerCase (o_side order);
                  type := lookup_table ORDER_TYPE (o_orderType order);
                  amount := plus (o_size order);
                  volume := plus (o_orderValue order);
                  amountExecuted := plus (o_filledSize order);
                  volumeExecuted :=
                    Js.mul (plus (o_filledSize order)) (plus (o_size order));
                  timestamp := plus (o_timestamp order);
                  updateTimestamp := plus (o_timestamp order) |} |}
      else
        Some {| orderId := Some orderId; status := "unknown"; fields := None |}
  end.

(** The exchange answered the request with an error: the API client has
    attached its error information to what it resolved with. *)
Definition error_reply (res : ApiResult Reply) : Prop :=
  exists reply, res = Resolved reply /\
                truthy_field (bitqikErrorInfo reply) = true.


End Bitqik.

Module Bitkub.

(** [order_detail.result] of the reply of the client's [getOrder]: the
    order as the exchange describes it. *)
Record OrderInfo : Type := {
  bitkubErrorInfo : option string;
  partial_filled : bool;            (* [order.partial_filled] is truthy *)
  o_status : option string;
  post_only : bool;                 (* [order.post_only === true] *)
  o_rate : option number;
  o_amount : option number;
  o_filled : option number
}.

(** The object the API client resolves with for [order-info]. *)
Record Reply : Type := {
  result : option OrderInfo
}.

(** An entry of the open orders or of the order history; [e_history] holds
    the timestamps of the entries of its [history]. *)
Record Entry : Type := {
  hash : option string;
  e_side : option string;
  e_type : option string;
  e_ts : option number;
  e_history : option (list (option number))
}.

(** A page as the adapter handles it: it compares it with the number [1]
    and hands it to the client. *)
Inductive Page : Type :=
| PageNumber (n : Z)
| PageOther.          (* [undefined], [null] or a value that is no number *)

Record Pagination : Type := {
  last : Page;
  prev : Page
}.

(** The object the API client resolves with for the open orders and for a
    page of the order history. *)
Record Listing : Type := {
  l_result : option (list Entry);
  pagination : option Pagination
}.

(** What the adapter gets from the API client besides the reply of
    [getOrder]: the open orders, and the pages of the history by the index
    of the call and the page asked for. *)
Record Client : Type := {
  getOrders : ApiResult Listing;
  getOrdersHistory : nat -> Page -> ApiResult Listing
}.

(** [oo.hash == orderId] *)
Definition matches (orderId : string) (oo : Entry) : bool :=
  match hash oo with
  | Some h => String.eqb h orderId
  | None => false
  end.

(** [list.forEach((oo) => { if (oo.hash == orderId) order_find = oo })] *)
Definition scan (orderId : string) (order_find : option Entry)
    (list : list Entry) : option Entry :=
  fold_left (fun found oo => if matches orderId oo then Some oo else found)
    list order_find.

(** [page === 1] *)
Definition is_one (page : Page) : bool :=
  match page with
  | PageNumber n => (n =? 1)%Z
  | PageOther => false
  end.

(** What the search for [order_find] comes to. *)
Inductive Search : Type :=
| Found (order_find : Entry)
| NotFound
| SearchThrows        (* the [catch] of [getOrderDetails] takes over *)
| Unfinished.         (* the loop has not come to an end *)

(** The [while (processing)] loop over the pages of the history: the first
    page, then the last one, then backwards by [pagination.prev] until the
    first page is reached again.  [fuel] bounds the turns of the loop,
    [calls] counts the requests made. *)
Fixpoint search_history (C : Client) (orderId : string) (fuel calls : nat)
    (page : Page) (start_last : bool) : Search :=
  match fuel with
  | O => Unfinished
  | S fuel =>
      match getOrdersHistory C calls page with
      | Resolved history =>
          match l_result history with
          | None => SearchThrows (* [o_history.forEach] on [undefined] *)
          | Some o_history =>
              match scan orderId None o_history with
              | Some order_find => Found order_find
              | None =>
                  if is_one page then
                    if start_last then NotFound
                    else
                      match pagination history with
                      | None => SearchThrows
                      | Some p =>
                          search_history C orderId fuel (S calls) (last p) true
                      end
                  else
                    match pagination history with
                    | None => SearchThrows
                    | Some p =>
                        search_history C orderId fuel (S calls) (prev p)
                          start_last
                    end
              end
          end
      | _ => SearchThrows
      end
  end.

(** [order_find]: the order among the open orders, or else in the
    history. *)
Definition find_order (C : Client) (orderId : string) (fuel : nat) : Search :=
  match getOrders C with
  | Resolved orders =>
      match l_result orders with
      | None => SearchThrows
      | Some open =>
          match scan orderId None open with
          | Some order_find => Found order_find
          | None => search_history C orderId fuel 0 (PageNumber 1) false
          end
      end
  | _ => SearchThrows
  end.

(** [a == 'text'] on a field that may be absent *)
Definition is_text (a : option string) (text : string) : bool :=
  match a with
  | Some s => String.eqb s text
  | None => false
  end.

(** The chain of [if]s on [order.partial_filled] and [order.status]. *)
Definition orderStatus (order : OrderInfo) : string :=
  if partial_filled order then "part_filled"
  else if is_text (o_status order) "unfilled" then "new"
  else if is_text (o_status order) "filled" then "filled"
  else if is_text (o_status order) "cancelled" then "cancelled"
  else "unknown".

(** [Math.max(...list)] *)
Definition Math_max (list : list number) : number :=
  fold_left (fun a b =>
               match a, b with
               | NaN, _ | _, NaN => NaN
               | _, _ => if lt a b then b else a
               end) list NInf.

(** [order_find.history?.length ? Math.max(...timestamps) : order_find.ts] *)
Definition updateTimestamp_of (order_find : Entry) : number :=
  match e_history order_find with
  | Some (entry :: entries) => Math_max (map plus (entry :: entries))
  | _ => plus (e_ts order_find)
  end.

Definition unknown_order (orderId : string) : OrderDetails :=
  {| orderId := Some orderId; status := "unknown"; fields := None |}.

(** [getOrderDetails(orderId, pair)] on the reply of the client's
    [getOrder].  The inner [None] is the [undefined] returned from either
    [catch]; the outer [None] says that the search of the history has not
    come to an end within [fuel] turns. *)
Definition getOrderDetails (C : Client) (fuel : nat) (orderId : string)
    (res : ApiResult Reply) : option (option OrderDetails) :=
  match res with
  | Rejected => Some None
  | ResolvedNothing => Some None (* reading [order.bitkubErrorInfo] throws *)
  | Resolved order_detail =>
      match result order_detail with
      | None => Some None (* reading [order.bitkubErrorInfo] throws *)
      | Some order =>
          if negb (truthy_field (bitkubErrorInfo order)) then
            match find_order C orderId fuel with
            | Unfinished => None
            | SearchThrows => Some None
            | NotFound => Some (Some (unknown_order orderId))
            | Found order_find =>
                let orderSide := option_map toLowerCase (e_side order_find) in
                let isBuy := is_text orderSide "buy" in
                let orderType :=
                  if post_only order then Some "post_only"
                  else option_map toLowerCase (e_type order_find) in
                match orderType with
                | None => Some None (* [order_find.type.toLowerCase()] throws *)
                | Some orderType =>
                    Some (Some {|
                      orderId := Some orderId;
                      status := orderStatus order;
                      fields := Some {|
                        price := plus (o_rate order);
                        side := orderSide;
                        type := Some orderType;
                        amount :=
                          if isBuy
                          then Js.div (plus (o_amount order)) (plus (o_rate order))
                          else plus (o_amount order);
                        volume :=
                          if isBuy then plus (o_amount order)
                          else Js.mul (plus (o_amount order)) (plus (o_rate order));
                        amountExecuted :=
                          if isBuy
                          then Js.div (plus (o_filled order)) (plus (o_rate order))
                          else plus (o_filled order);
                        volumeExecuted :=
                          if isBuy then plus (o_filled order)
                          else Js.mul (plus (o_filled order)) (plus (o_rate order));
                        timestamp := plus (e_ts order_find);
                        updateTimestamp := updateTimestamp_of order_find |} |})
                end
            end
          else Some (Some (unknown_order orderId))
      end
  end.






End Bitkub.


End Trader.

(* ===================================================================== *)
(** * Order collector *)
(* ===================================================================== *)

Module Collector.

Import Js.
Import OrderBookBuilder.

(** A ledger row. *)
Record Order : Type := {
  _id : string;
  purpose : string;
  pair : string;
  type : side;
  price : number;
  isProcessed : bool
}.

(** The price condition [clear] builds: [{ price: { $lt: P } }] or
    [{ price: { $gt: P } }]. *)
Inductive PriceFilter : Type :=
| PriceLt (p : number)
| PriceGt (p : number).

(** The database's reading of the condition: both operators are strict. *)
Definition satisfies (f : option PriceFilter) (o : Order) : bool :=
  match f with
  | None => true
  | Some (PriceLt p) => Js.lt (price o) p
  | Some (PriceGt p) => Js.gt (price o) p
  end.

Definition side_eqb (a b : side) : bool :=
  match a, b with
  | buy, buy | sell, sell => true
  | _, _ => false
  end.

Definition side_matches (t : option side) (o : Order) : bool :=
  match t with
  | None => true
  | Some s => side_eqb s (type o)
  end.

Definition purpose_in (purposes : list string) (o : Order) : bool :=
  existsb (String.eqb (purpose o)) purposes.

(** The answers of the adapter's [cancelOrder]. *)
Inductive CancelOutcome : Type :=
| Cancelled
| AlreadyClosed
| TransientFailure.

Record ClearedInfo : Type := {
  attempted : list string; (* ids of the orders [cancelOrder] was issued for *)
  cancelled : nat;
  failed : nat;
  alreadyClosed : nat
}.

Definition no_info : ClearedInfo :=
  {| attempted := []; cancelled := 0; failed := 0; alreadyClosed := 0 |}.

Definition close_row (o : Order) : Order :=
  {| _id := _id o; purpose := purpose o; pair := pair o; type := type o;
     price := price o; isProcessed := true |}.

(** Modelled from the spec: the order collector ([trade/orderCollector]) is
    not among the sources.  Section 4.D: for each matching ledger order it
    issues [cancelOrder]; on [alreadyClosed] it marks the row closed; on a
    transient failure it leaves the row for retry, unless [force], which
    marks it closed all the same.  Rows that do not match are passed over. *)
Fixpoint sweep (selected : Order -> bool) (cancelOrder : Order -> CancelOutcome)
    (doForce : bool) (ledger : list Order) : ClearedInfo * list Order :=
  match ledger with
  | [] => (no_info, [])
  | o :: rest =>
      let '(info, rest') := sweep selected cancelOrder doForce rest in
      if selected o then
        match cancelOrder o with
        | Cancelled =>
            ({| attempted := _id o :: attempted info;
                cancelled := S (cancelled info);
                failed := failed info;
                alreadyClosed := alreadyClosed info |}, close_row o :: rest')
        | AlreadyClosed =>
            ({| attempted := _id o :: attempted info;
                cancelled := cancelled info;
                failed := failed info;
                alreadyClosed := S (alreadyClosed info) |}, close_row o :: rest')
        | TransientFailure =>
            ({| attempted := _id o :: attempted info;
                cancelled := cancelled info;
                failed := S (failed info);
                alreadyClosed := alreadyClosed info |},
             (if doForce then close_row o else o) :: rest')
        end
      else (info, o :: rest')
  end.

(** Modelled from the spec: the selector [{purposes, pair, side?,
    priceFilter?}] of section 4.D picks the open ledger rows of the given
    purposes, pair and side that satisfy the price condition. *)
Definition local_selector (purposes : list string) (p : string)
    (t : option side) (f : option PriceFilter) (o : Order) : bool :=
  negb (isProcessed o) && purpose_in purposes o && String.eqb (pair o) p
  && side_matches t o && satisfies f o.

Definition clearLocalOrders (cancelOrder : Order -> CancelOutcome)
    (purposes : list string) (p : string) (doForce : bool) (t : option side)
    (f : option PriceFilter) (ledger : list Order) : ClearedInfo * list Order :=
  sweep (local_selector purposes p t f) cancelOrder doForce ledger.

(** Modelled from the spec: clearing all orders takes every open ledger row
    of the pair and side, whatever its purpose or price. *)
Definition all_selector (p : string) (t : option side) (o : Order) : bool :=
  negb (isProcessed o) && String.eqb (pair o) p && side_matches t o.

Definition clearAllOrders (cancelOrder : Order -> CancelOutcome)
    (p : string) (doForce : bool) (t : option side)
    (ledger : list Order) : ClearedInfo * list Order :=
  sweep (all_selector p t) cancelOrder doForce ledger.

(** Modelled from the spec: unknown orders are exchange-live orders whose id
    is not in the ledger; [cancelOrder] is issued for each of them (of the
    given side), and no ledger row is touched. *)
Definition in_ledger (ledger : list Order) (ident : string) : bool :=
  existsb (fun o => String.eqb (_id o) ident) ledger.

Definition clearUnknownOrders (exchangeOrders : list (string * side))
    (p : string) (doForce : bool) (t : option side)
    (ledger : list Order) : ClearedInfo * list Order :=
  let unknown :=
    filter (fun e => negb (in_ledger ledger (fst e))
                     && match t with
                        | None => true
                        | Some s => side_eqb s (snd e)
                        end) exchangeOrders in
  ({| attempted := map fst unknown; cancelled := List.length unknown;
      failed := 0; alreadyClosed := 0 |}, ledger).

End Collector.

(* ===================================================================== *)
(** * Command router *)
(* ===================================================================== *)

Module CommandTxs.

Import Js.
Import OrderBookBuilder.

Definition timeToConfirm : Z := 1000 * 60 * 10. (* 10 minutes to confirm *)

Record PendingConfirmation : Type := {
  command : string;
  timestamp : Z
}.

Record CommandResult : Type := {
  msgNotify : string;
  msgSendBack : string;
  notifyType : string
}.

Definition reply (msg : string) : CommandResult :=
  {| msgNotify := ""; msgSendBack := msg; notifyType := "log" |}.

(** A call of [orderUtils.addGeneralOrder]. *)
Record PlaceRequest : Type := {
  r_type : string;
  r_pair : string;
  r_price : number;
  r_coin1Amount : number;
  r_limit : Z;
  r_coin2Amount : option number;
  r_purpose : string
}.

(** The state the commands share: the module-level [pendingConfirmation],
    the orders database, and the placement requests issued so far (oldest
    first). *)
Record World : Type := {
  pendingConfirmation : PendingConfirmation;
  ledger : list Collector.Order;
  placements : list PlaceRequest
}.

Definition set_pending (pc : PendingConfirmation) (w : World) : World :=
  {| pendingConfirmation := pc; ledger := ledger w; placements := placements w |}.

Definition set_ledger (l : list Collector.Order) (w : World) : World :=
  {| pendingConfirmation := pendingConfirmation w; ledger := l;
     placements := placements w |}.

(** A call of [orderUtils.addGeneralOrder] is kept as a placement request.
    The module is not among the sources; the row it writes to the orders
    database is not added to [ledger], which holds the rows the commands
    read. *)
Definition add_placement (r : PlaceRequest) (w : World) : World :=
  {| pendingConfirmation := pendingConfirmation w; ledger := ledger w;
     placements := placements w ++ [r] |}.

(** [orderUtils.parseMarket(pair)] *)
Record Market : Type := {
  m_pair : string;
  m_coin1 : string;
  m_coin2 : string;
  m_coin1Decimals : nat;
  m_coin2Decimals : nat
}.

Record Balance : Type := {
  code : string;
  free : number
}.

(** [getRatesInfo(pair)] *)
Record RatesInfo : Type := {
  success : bool;
  ask : number;
  bid : number;
  ratesString : string
}.

(** [utils.getOrderBookInfo(orderBook, spreadPercent, targetPrice)] *)
Record OrderBookInfo : Type := {
  typeTargetPrice : string; (* 'buy', 'sell' or 'inSpread' *)
  amountTargetPrice : number;
  amountTargetPriceQuote : number
}.

(** The collaborators of the router that are not part of it: the
    configuration, the language's string-to-number conversion and number
    formatting, and the helper, exchange and rate services it calls. *)
Record Env : Type := {
  config_pair : string;
  config_coin1 : string;
  config_coin2 : string;
  config_exchangeName : string;
  config_notifyName : string;
  amount_to_confirm_usd : number;
  toNumber : string -> number;                 (* unary plus on a string *)
  fmt : number -> string;                      (* a number inside a template *)
  toFixed : number -> nat -> string;           (* x.toFixed(digits) *)
  formatNumber : string -> bool -> string;     (* utils.formatNumber *)
  numbersDifferencePercent : number -> number -> number;
  coin1Rates : string;
    (* the global rates of the base coin, from exchangerUtils.currencies *)
  pwWarning : number -> string;
    (* the price watcher's warning on a target price, a blank when none *)
  isPositiveNumber : number -> bool;           (* utils.isPositiveNumber *)
  isPositiveOrZeroNumber : number -> bool;     (* utils.isPositiveOrZeroNumber *)
  parseMarket : string -> Market;              (* orderUtils.parseMarket *)
  orderPurposes : list (string * string);      (* orderCollector.orderPurposes *)
  logMessage : Collector.ClearedInfo -> string;(* clearedInfo.logMessage *)
  cancelOrder : Collector.Order -> Collector.CancelOutcome;
  exchangeOrders : list (string * side);       (* orders live on the exchange *)
  getBalancesCached : option (list Balance);   (* orderUtils.getBalancesCached *)
  convertCryptos : string -> string -> number -> number; (* .outAmount *)
  randomDeviation : nat -> number -> number -> number;
    (* utils.randomDeviation, by the index of the call *)
  addGeneralOrder : PlaceRequest -> bool;      (* the order came back with an _id *)
  getRatesInfo : string -> RatesInfo;
  getOrderBookInfo : number -> option OrderBookInfo
    (* for a target price; [None] when nothing usable comes back *)
}.

(** ** Confirmation *)

(** [setPendingConfirmation(command)]; [now] is [Date.now()]. *)
Definition setPendingConfirmation (now : Z) (cmd : string) (w : World) : World :=
  set_pending {| command := cmd; timestamp := now |} w.

Definition clear_pending_command (w : World) : World :=
  set_pending {| command := ""; timestamp := timestamp (pendingConfirmation w) |} w.

Definition expired_message (cmd : string) : string :=
  ("I will not confirm command " ++ cmd ++ " as it is expired. Try again.")%string.

Definition no_pending_message : string :=
  "There is no pending command to confirm.".

(** [y(params, tx)].  [router] is the module's exported command processor,
    through which [y] re-enters the router; [now] is [Date.now()].  The last
    component lists the commands [y] handed to the router. *)
Definition y (router : string -> string -> World -> CommandResult * World)
    (now : Z) (tx : string) (w : World) : CommandResult * World * list string :=
  let pc := pendingConfirmation w in
  if negb (String.eqb (command pc) "") then
    if (now - timestamp pc >? timeToConfirm)%Z then
      (reply (expired_message (command pc)), clear_pending_command w, [])
    else
      let cmd := (command pc ++ " -y")%string in
      let '(commandResult, w') := router cmd tx w in
      ({| msgNotify := "";
          msgSendBack := msgSendBack commandResult;
          notifyType := notifyType commandResult |},
       clear_pending_command w', [cmd])
  else
    (reply no_pending_message, w, []).

(** A world in which [/fill] has asked for confirmation at time 0, and a
    router that answers every command without touching the world. *)
Definition pending_fill_world : World :=
  {| pendingConfirmation :=
       {| command := "/fill ADM/USDT buy quote=100 low=1 high=2 count=5";
          timestamp := 0 |};
     ledger := [];
     placements := [] |}.

Definition answering_router (cmd tx : string) (w : World) : CommandResult * World :=
  (reply ("Done: " ++ cmd)%string, w).

(** A router that leaves a trace of each run in the world: it notifies,
    answers, and asks for an order that names the command it ran and the
    initiator. *)
Definition trace (cmd tx : string) : PlaceRequest :=
  {| r_type := cmd; r_pair := tx; r_price := NaN; r_coin1Amount := NaN;
     r_limit := 1; r_coin2Amount := None; r_purpose := "man" |}.

Definition tracing_router (cmd tx : string) (w : World) : CommandResult * World :=
  ({| msgNotify := "Ran."; msgSendBack := ("Done: " ++ cmd)%string;
      notifyType := "log" |},
   add_placement (trace cmd tx) w).

(** The commands two invocations of a [y] in a row hand to the router. *)
Definition twice (y : Z -> string -> World -> CommandResult * World * list string)
    (now1 now2 : Z) (tx : string) (w : World) : list string :=
  let '(_, w1, calls1) := y now1 tx w in
  let '(_, _, calls2) := y now2 tx w1 in
  calls1 ++ calls2.

(** ** [clear] *)

Import Collector.

Inductive Purposes : Type :=
| PurposesAll                       (* 'all' *)
| PurposesUnk                       (* 'unk' *)
| PurposesList (l : list string).   (* [purpose] *)

(** The variables of [clear] its loop over the parameters assigns. *)
Record ClearVars : Type := {
  doForce : bool;
  purposes : option Purposes;
  purposeString : option string;
  c_type : option side;
  c_filter : option PriceFilter;
  filerPriceString : option string
}.

Definition clear_vars_init : ClearVars :=
  {| doForce := false; purposes := None; purposeString := None;
     c_type := None; c_filter := None; filerPriceString := None |}.

Definition set_type (t : side) (v : ClearVars) : ClearVars :=
  {| doForce := doForce v; purposes := purposes v;
     purposeString := purposeString v; c_type := Some t;
     c_filter := c_filter v; filerPriceString := filerPriceString v |}.

Definition set_force (v : ClearVars) : ClearVars :=
  {| doForce := true; purposes := purposes v;
     purposeString := purposeString v; c_type := c_type v;
     c_filter := c_filter v; filerPriceString := filerPriceString v |}.

Definition set_purposes (p : Purposes) (name : option string) (v : ClearVars)
  : ClearVars :=
  {| doForce := doForce v; purposes := Some p;
     purposeString := name; c_type := c_type v;
     c_filter := c_filter v; filerPriceString := filerPriceString v |}.

Definition set_filter (f : PriceFilter) (text : string) (v : ClearVars)
  : ClearVars :=
  {| doForce := doForce v; purposes := purposes v;
     purposeString := purposeString v; c_type := c_type v;
     c_filter := Some f; filerPriceString := Some text |}.

(** [orderPurposes] after [delete orderPurposes['all']] *)
Definition purposes_without_all (E : Env) : list (string * string) :=
  filter (fun e => negb (String.eqb (fst e) "all")) (orderPurposes E).

Definition is_all_or_unk (p : option Purposes) : bool :=
  match p with
  | Some PurposesAll | Some PurposesUnk => true
  | _ => false
  end.

Definition price_filter_rejected (E : Env) : CommandResult :=
  reply ("Price filter doesn't work with **all** and **unk** orders. Try: */clear mm sell >0.5 "
         ++ config_coin2 E ++ "*.")%string.

(** The keyword part of the loop body: side, force and purposes. *)
Definition clear_keywords (E : Env) (param : string) (v : ClearVars) : ClearVars :=
  let l := toLowerCase param in
  let v := if String.eqb l "buy" then set_type buy v else v in
  let v := if String.eqb l "sell" then set_type sell v else v in
  let v := if String.eqb l "force" then set_force v else v in
  let v := if String.eqb l "all"
           then set_purposes PurposesAll (purposeString v) v else v in
  let v := if String.eqb l "unk"
           then set_purposes PurposesUnk (Some "unknown") v else v in
  fold_left
    (fun v e => if String.eqb l (fst e)
                then set_purposes (PurposesList [fst e])
                                  (Some (toLowerCase (snd e))) v
                else v)
    (purposes_without_all E) v.

(** One turn of the loop over [params]: the left injection is an early
    [return] from [clear]. *)
Definition clear_param (E : Env) (params : list string) (pairObj : Market)
    (v : ClearVars) (param : string) : CommandResult + ClearVars :=
  let v := clear_keywords E param v in
  if startsWith param ">" || startsWith param "<" then
    if is_all_or_unk (purposes v) then inl (price_filter_rejected E)
    else
      let operator := charAt0 param in
      let price := toNumber E (substring1 param) in
      if negb (isPositiveOrZeroNumber E price) then
        inl (reply ("Indicate price after '" ++ operator
                    ++ "'. Example: */clear mm sell >0.5 " ++ config_coin2 E ++ "*.")%string)
      else
        let priceCoin :=
          match indexOf params param with
          | Some paramIndex => option_map toUpperCase (nth_error params (S paramIndex))
          | None => None
          end in
        if match priceCoin with
           | Some c => String.eqb c (m_coin2 pairObj)
           | None => false
           end
        then inr (set_filter (if String.eqb operator "<"
                              then PriceLt price else PriceGt price) param v)
        else
          inl (reply ("Price should be in " ++ m_coin2 pairObj ++ " for "
                      ++ m_pair pairObj ++ ". Example: */clear " ++ m_pair pairObj
                      ++ " mm sell >0.5 " ++ m_coin2 pairObj ++ "*.")%string)
  else inr v.

Fixpoint clear_loop (E : Env) (params : list string) (pairObj : Market)
    (v : ClearVars) (todo : list string) : CommandResult + ClearVars :=
  match todo with
  | [] => inr v
  | param :: rest =>
      match clear_param E params pairObj v param with
      | inl r => inl r
      | inr v' => clear_loop E params pairObj v' rest
      end
  end.

(** The pair [clear] works on. *)
Definition clear_pair (E : Env) (params : list string) : Market :=
  let pair :=
    match params with
    | p :: _ => if String.eqb p "" || negb (contains_char "/" p)
                then config_pair E else p
    | [] => config_pair E
    end in
  parseMarket E pair.

(** The collector call [clear] ends in. *)
Inductive CollectorCall : Type :=
| CallClearAllOrders (pair : string) (doForce : bool) (type : option side)
| CallClearUnknownOrders (pair : string) (doForce : bool) (type : option side)
| CallClearLocalOrders (purposes : list string) (pair : string) (doForce : bool)
    (type : option side) (filter : option PriceFilter).

(** [clear] up to its collector call. *)
Definition clear_decide (E : Env) (params : list string)
  : CommandResult + CollectorCall :=
  let pairObj := clear_pair E params in
  match clear_loop E params pairObj clear_vars_init params with
  | inl r => inl r
  | inr v =>
      match purposes v with
      | None => inl (reply "Specify type of orders to clear. F. e., */clear mm sell*.")
      | Some PurposesAll =>
          inr (CallClearAllOrders (m_pair pairObj) (doForce v) (c_type v))
      | Some PurposesUnk =>
          inr (CallClearUnknownOrders (m_pair pairObj) (doForce v) (c_type v))
      | Some (PurposesList l) =>
          inr (CallClearLocalOrders l (m_pair pairObj) (doForce v) (c_type v)
                                    (c_filter v))
      end
  end.

Definition run_collector (E : Env) (c : CollectorCall) (l : list Order)
  : ClearedInfo * list Order :=
  match c with
  | CallClearAllOrders p f t => clearAllOrders (cancelOrder E) p f t l
  | CallClearUnknownOrders p f t => clearUnknownOrders (exchangeOrders E) p f t l
  | CallClearLocalOrders ps p f t flt =>
      clearLocalOrders (cancelOrder E) ps p f t flt l
  end.

(** [clear(params)]: the reply, the world afterwards, and the ids
    cancellation was attempted for. *)
Definition clear (E : Env) (params : list string) (w : World)
  : CommandResult * World * list string :=
  match clear_decide E params with
  | inl r => (r, w, [])
  | inr c =>
      let '(clearedInfo, l') := run_collector E c (ledger w) in
      (reply (logMessage E clearedInfo), set_ledger l' w, attempted clearedInfo)
  end.

(** *** The documented form of the command

    [clear [pair] <purpose|all|unk> [buy|sell] [>P c2|<P c2] [force]]: what the
    loop takes each kind of parameter for. *)

Definition has_filter_prefix (param : string) : bool :=
  startsWith param ">" || startsWith param "<".

Definition is_keyword (l : string) : bool :=
  String.eqb l "buy" || String.eqb l "sell" || String.eqb l "force"
  || String.eqb l "all" || String.eqb l "unk".

Definition is_purpose_key (E : Env) (l : string) : bool :=
  existsb (fun e => String.eqb l (fst e)) (purposes_without_all E).

(** A purpose tag: it names a purpose of the collector and nothing else. *)
Definition is_purpose_tag (E : Env) (param : string) : bool :=
  is_purpose_key E (toLowerCase param)
  && negb (is_keyword (toLowerCase param))
  && negb (has_filter_prefix param)
  && negb (contains_char "/" param).

(** A parameter that reads [all], or [unk] where [unk] is no purpose of the
    collector's table. *)
Definition all_or_unk_tag (E : Env) (param : string) : Prop :=
  toLowerCase param = "all" \/
  (toLowerCase param = "unk" /\ is_purpose_key E "unk" = false).

(** A side: [buy] or [sell] in any case. *)
Definition side_of_tag (E : Env) (param : string) : option side :=
  if is_purpose_key E (toLowerCase param) || has_filter_prefix param then None
  else if String.eqb (toLowerCase param) "buy" then Some buy
  else if String.eqb (toLowerCase param) "sell" then Some sell
  else None.

(** A price filter: [>P] or [<P] with [P] a number that is not negative. *)
Definition filter_of_tag (E : Env) (param : string) : option PriceFilter :=
  if has_filter_prefix param
     && negb (is_keyword (toLowerCase param))
     && negb (is_purpose_key E (toLowerCase param))
     && isPositiveOrZeroNumber E (toNumber E (substring1 param))
  then Some (if String.eqb (charAt0 param) "<"
             then PriceLt (toNumber E (substring1 param))
             else PriceGt (toNumber E (substring1 param)))
  else None.

(** The quote coin of the pair, in any case. *)
Definition is_quote_coin (E : Env) (param : string) : bool :=
  String.eqb (toUpperCase param) (m_coin2 (parseMarket E (config_pair E)))
  && negb (is_keyword (toLowerCase param))
  && negb (is_purpose_key E (toLowerCase param))
  && negb (has_filter_prefix param).

Definition optional (tag : option string) : list string :=
  match tag with
  | Some t => [t]
  | None => []
  end.

Definition optional_side (E : Env) (tag : option string) : option (option side) :=
  match tag with
  | None => Some None
  | Some t => option_map Some (side_of_tag E t)
  end.

(** *** A concrete setting *)

Definition adm_usdt : Market :=
  {| m_pair := "ADM/USDT"; m_coin1 := "ADM"; m_coin2 := "USDT";
     m_coin1Decimals := 2; m_coin2Decimals := 6 |}.

(** Modelled from the spec: the purpose tags of section 3, with the [all]
    entry [clear] deletes from its copy; [orderCollector.orderPurposes] is
    not among the sources. *)
Definition spec_purposes : list (string * string) :=
  [ ("mm", "Market making"); ("ob", "Dynamic order book"); ("liq", "Liquidity");
    ("pw", "Price watcher"); ("pm", "Price maker"); ("cl", "Closer");
    ("qh", "Quote hold"); ("ld", "Ladder"); ("man", "Manual");
    ("all", "All types") ].

Definition positive (n : number) : bool :=
  match n with
  | Num q => Qlt_bool 0 q
  | _ => false
  end.

Definition positive_or_zero (n : number) : bool :=
  match n with
  | Num q => Qle_bool 0 q
  | _ => false
  end.

(** An exchange trading ADM/USDT that accepts every order and cancellation,
    with rates of one USD a coin and no random deviation. *)
Definition example_env (balances : option (list Balance))
    (info : option OrderBookInfo) : Env :=
  {| config_pair := "ADM/USDT";
     config_coin1 := "ADM";
     config_coin2 := "USDT";
     config_exchangeName := "Exchange";
     config_notifyName := "Bot";
     amount_to_confirm_usd := Num 1000;
     toNumber := decimalToNumber;
     fmt := fun _ => "#";
     toFixed := fun _ _ => "#";
     formatNumber := fun s _ => s;
     numbersDifferencePercent := fun _ _ => Num 0;
     coin1Rates := "";
     pwWarning := fun _ => " ";
     isPositiveNumber := positive;
     isPositiveOrZeroNumber := positive_or_zero;
     parseMarket := fun _ => adm_usdt;
     orderPurposes := spec_purposes;
     logMessage := fun _ => "Cleared.";
     cancelOrder := fun _ => Cancelled;
     exchangeOrders := [];
     getBalancesCached := balances;
     convertCryptos := fun _ _ x => x;
     randomDeviation := fun _ x _ => x;
     addGeneralOrder := fun _ => true;
     getRatesInfo := fun _ =>
       {| success := true; ask := Num 1; bid := Num (99 # 100);
          ratesString := "Rates." |};
     getOrderBookInfo := fun _ => info |}.

Definition mm_sell (ident : string) (p : Q) : Order :=
  {| _id := ident; purpose := "mm"; pair := "ADM/USDT"; type := sell;
     price := Num p; isProcessed := false |}.

(** Four sell mm-orders priced 0.3, 0.4, 0.6 and 0.7. *)
Definition four_sell_orders : World :=
  {| pendingConfirmation := {| command := ""; timestamp := 0 |};
     ledger := [ mm_sell "o1" (3 # 10); mm_sell "o2" (4 # 10);
                 mm_sell "o3" (6 # 10); mm_sell "o4" (7 # 10) ];
     placements := [] |}.

(** ** [fill] *)

(** The variables the first loop of [fill] assigns; [NaN] is "not set". *)
Record FillVars : Type := {
  f_count : number;
  f_amount : number;
  f_low : number;
  f_high : number;
  f_amountName : option string
}.

Definition fill_vars_init : FillVars :=
  {| f_count := NaN; f_amount := NaN; f_low := NaN; f_high := NaN;
     f_amountName := None |}.

(** [+param.split('=')[1].trim()]; [None] when [trim] is called on
    [undefined] and throws. *)
Definition fill_value (E : Env) (param : string) : option number :=
  match split "="%char param with
  | _ :: v :: _ => Some (toNumber E (trim v))
  | _ => None
  end.

(** One [if] of the callback's [try] block; the flag says an earlier
    statement of the block has thrown. *)
Definition fill_if (E : Env) (param prefix : string)
    (assign : number -> FillVars -> FillVars) (acc : FillVars * bool)
  : FillVars * bool :=
  let '(v, thrown) := acc in
  if thrown then acc
  else if startsWith param prefix then
    match fill_value E param with
    | Some x => (assign x v, false)
    | None => (v, true)
    end
  else acc.

Definition fill_param (E : Env) (v : FillVars) (param : string) : FillVars :=
  let acc := (v, false) in
  let acc := fill_if E param "count"
    (fun x v => {| f_count := x; f_amount := f_amount v; f_low := f_low v;
                   f_high := f_high v; f_amountName := f_amountName v |}) acc in
  let acc := fill_if E param "amount"
    (fun x v => {| f_count := f_count v; f_amount := x; f_low := f_low v;
                   f_high := f_high v; f_amountName := Some "amount" |}) acc in
  let acc := fill_if E param "quote"
    (fun x v => {| f_count := f_count v; f_amount := x; f_low := f_low v;
                   f_high := f_high v; f_amountName := Some "quote" |}) acc in
  let acc := fill_if E param "low"
    (fun x v => {| f_count := f_count v; f_amount := f_amount v; f_low := x;
                   f_high := f_high v; f_amountName := f_amountName v |}) acc in
  let acc := fill_if E param "high"
    (fun x v => {| f_count := f_count v; f_amount := f_amount v; f_low := f_low v;
                   f_high := x; f_amountName := f_amountName v |}) acc in
  fst acc.

Definition fill_vars (E : Env) (params : list string) : FillVars :=
  fold_left (fill_param E) params fill_vars_init.

(** [pair] and [type] as [fill] reads them off the first parameters. *)
Definition fill_pair_type (E : Env) (params : list string)
  : string * option string :=
  let lowered (o : option string) := option_map (fun s => toLowerCase (trim s)) o in
  match params with
  | p :: _ =>
      if String.eqb p "" || negb (contains_char "/" p)
      then (config_pair E, lowered (nth_error params 0))
      else (p, lowered (nth_error params 1))
  | [] => (config_pair E, None)
  end.

Definition is_buy_or_sell (t : option string) : bool :=
  match t with
  | Some s => String.eqb s "buy" || String.eqb s "sell"
  | None => false
  end.

Definition opt_eqb (o : option string) (s : string) : bool :=
  match o with
  | Some x => String.eqb x s
  | None => false
  end.

(** [balances.filter((crypto) => crypto.code === coin)?.[0]?.free || 0] *)
Definition free_balance (balances : list Balance) (coin : string) : number :=
  match filter (fun crypto => String.eqb (code crypto) coin) balances with
  | b :: _ => if falsy (free b) then Num 0 else free b
  | [] => Num 0
  end.

Definition not_enough_message (coin : string) : string :=
  ("Not enough " ++ coin ++ " to fill orders. Check balances.")%string.

(** The coin [fill] checks the balance of: quote for buy, base for sell. *)
Definition fill_coin (pairObj : Market) (type : option string) : string :=
  if opt_eqb type "buy" then m_coin2 pairObj else m_coin1 pairObj.

Record FillOrder : Type := {
  fo_price : number;
  fo_amount : number;
  fo_altAmount : number
}.

(** The loop that makes the order list.  [i] counts the turns; the turns
    left bound the recursion and are at least the turns [i < count] allows. *)
Fixpoint fill_order_list (E : Env) (isBuy : bool) (count amount high step
    orderAmount : number) (turns i : nat) (price total : number)
  : list FillOrder :=
  match turns with
  | O => []
  | S turns' =>
      if lt (num_of_nat i) count then
        let price := add price (randomDeviation E (2 * i) step (Num (9 # 10))) in
        let coin1Amount := randomDeviation E (2 * i + 1) orderAmount (Num (9 # 10)) in
        let total := add total coin1Amount in
        let single := Js.eq count (Num 1) in
        if gt total amount && negb single then []
        else
          let coin1Amount := if gt total amount then amount else coin1Amount in
          if gt price high && negb single then []
          else
            let price := if gt price high then high else price in
            let order :=
              if isBuy
              then {| fo_price := price; fo_amount := div coin1Amount price;
                      fo_altAmount := coin1Amount |}
              else {| fo_price := price; fo_amount := coin1Amount;
                      fo_altAmount := mul coin1Amount price |} in
            order :: fill_order_list E isBuy count amount high step orderAmount
                       turns' (S i) price total
      else []
  end.

Definition turns_of (count : number) : nat :=
  match count with
  | Num q => Z.to_nat (Qceiling q)
  | _ => 0
  end.

Definition fill_request (type : string) (pairObj : Market) (o : FillOrder)
  : PlaceRequest :=
  {| r_type := type; r_pair := m_pair pairObj; r_price := fo_price o;
     r_coin1Amount := fo_amount o; r_limit := 1; r_coin2Amount := None;
     r_purpose := "man" |}.

(** The loop that places the orders: the world afterwards, the number of
    orders placed and not placed, and the two totals. *)
Fixpoint fill_place (E : Env) (type : string) (pairObj : Market)
    (orderList : list FillOrder) (w : World) (placedOrders notPlacedOrders : nat)
    (total1 total2 : number) : World * nat * nat * number * number :=
  match orderList with
  | [] => (w, placedOrders, notPlacedOrders, total1, total2)
  | o :: rest =>
      let req := fill_request type pairObj o in
      let w := add_placement req w in
      if addGeneralOrder E req
      then fill_place E type pairObj rest w (S placedOrders) notPlacedOrders
             (add total1 (fo_amount o)) (add total2 (fo_altAmount o))
      else fill_place E type pairObj rest w placedOrders (S notPlacedOrders)
             total1 total2
  end.

Definition fill_usage : string :=
  "Wrong arguments. It works like this: */fill ADM/BTC buy quote=0.00002000 low=0.00000100 high=0.00000132 count=7*.".

(** The checks of [fill] on its arguments, in the order of the code: the
    reply of the first one that fails, [None] when all pass. *)
Definition fill_validate (E : Env) (params : list string) : option CommandResult :=
  let v := fill_vars E params in
  let count := f_count v in
  let amount := f_amount v in
  let low := f_low v in
  let high := f_high v in
  if (List.length params <? 4)%nat then Some (reply fill_usage) else
  let type := snd (fill_pair_type E params) in
  if negb (is_buy_or_sell type) then
    Some (reply "Specify _buy_ or _sell_ orders to fill. Example: */fill ADM/BTC buy quote=0.00002000 low=0.00000100 high=0.00000132 count=7*.")
  else
  if falsy amount
     || match f_amountName v with None => true | Some _ => false end
     || (opt_eqb type "buy" && opt_eqb (f_amountName v) "amount")
     || (opt_eqb type "sell" && opt_eqb (f_amountName v) "quote")
  then Some (reply "Buy should follow with _quote_, sell with _amount_.") else
  if falsy count || Js.eq count PInf || lt count (Num 1)
  then Some (reply "Specify order count.") else
  if falsy high || Js.eq high PInf || falsy low || Js.eq low PInf
  then Some (reply "Specify _low_ and _high_ prices to fill orders.") else
  if gt low high
  then Some (reply "To fill orders _high_ should be greater than _low_.") else
  None.

(** [fill] from the request for the balances on. *)
Definition fill_checked (E : Env) (now : Z) (params : list string) (w : World)
  : CommandResult * World :=
  let isConfirmed := existsb (fun p => String.eqb (toLowerCase p) "-y") params in
  let v := fill_vars E params in
  let count := f_count v in
  let amount := f_amount v in
  let low := f_low v in
  let high := f_high v in
  let '(pair, type) := fill_pair_type E params in
  let pairObj := parseMarket E pair in
  match getBalancesCached E with
  | None =>
      (reply ("Unable to get " ++ config_exchangeName E ++ " balances. Try again.")%string, w)
  | Some balances =>
      let coin := fill_coin pairObj type in
      let balance := free_balance balances coin in
      let output := not_enough_message coin in
      let isBalanceEnough := ge balance amount in
      if negb isBalanceEnough then (reply output, w) else
      let totalUSD :=
        if opt_eqb (f_amountName v) "quote"
        then convertCryptos E (m_coin2 pairObj) "USD" amount
        else convertCryptos E (m_coin1 pairObj) "USD" amount in
      let typeString := match type with Some s => s | None => "" end in
      if truthy (amount_to_confirm_usd E) && truthy totalUSD
         && ge totalUSD (amount_to_confirm_usd E) && negb isConfirmed
      then
        let w := setPendingConfirmation now ("/fill " ++ join params)%string w in
        let totalUSDstring := formatNumber E (toFixed E totalUSD 0) true in
        let worth :=
          if opt_eqb (f_amountName v) "quote"
          then (m_coin1 pairObj ++ " worth ~" ++ totalUSDstring ++ " USD")%string
          else (fmt E amount ++ " " ++ m_coin1 pairObj ++ " (worth ~"
                ++ totalUSDstring ++ " USD)")%string in
        (reply ("Are you sure to fill " ++ fmt E count ++ " orders to "
                ++ typeString ++ " " ++ worth ++ " priced from " ++ fmt E low
                ++ " to " ++ fmt E high ++ " " ++ m_coin2 pairObj
                ++ "? Confirm with **/y** command or ignore.")%string, w)
      else
        let step := div (sub high low) count in
        let orderAmount := div amount count in
        let orderList :=
          fill_order_list E (opt_eqb type "buy") count amount high step
            orderAmount (turns_of count) 0 low (Num 0) in
        let '(w, placedOrders, notPlacedOrders, total1, total2) :=
          fill_place E typeString pairObj orderList w 0 0 (Num 0) (Num 0) in
        if (0 <? placedOrders)%nat then
          let notPlacedString :=
            if (0 <? notPlacedOrders)%nat
            then (" " ++ fmt E (num_of_nat notPlacedOrders)
                  ++ " orders missed because of errors, check log file for details.")%string
            else "" in
          let rounded (x : number) (decimals : nat) :=
            formatNumber E (fmt E (toNumber E (toFixed E x decimals))) false in
          let output :=
            (fmt E (num_of_nat placedOrders) ++ " orders to " ++ typeString ++ " "
             ++ rounded total1 (m_coin1Decimals pairObj) ++ " " ++ m_coin1 pairObj
             ++ " for " ++ rounded total2 (m_coin2Decimals pairObj)
             ++ " " ++ m_coin2 pairObj ++ "." ++ notPlacedString)%string in
          ({| msgNotify := (config_notifyName E ++ " placed " ++ output)%string;
              msgSendBack := ("Placed " ++ output)%string;
              notifyType := "log" |}, w)
        else
          (reply "No orders were placed. Check log file for details.", w)
  end.

(** [fill(params)]; [now] is [Date.now()]. *)
Definition fill (E : Env) (now : Z) (params : list string) (w : World)
  : CommandResult * World :=
  match fill_validate E params with
  | Some rejected => (rejected, w)
  | None => fill_checked E now params w
  end.

(** The coin and the amount the balance check of [fill] compares. *)
Definition fill_needs (E : Env) (params : list string) : string * number :=
  let '(pair, type) := fill_pair_type E params in
  (fill_coin (parseMarket E pair) type, f_amount (fill_vars E params)).

(** A quote balance of 0.005 USDT. *)
Definition poor_balances : list Balance :=
  [ {| code := "ADM"; free := Num 1000 |};
    {| code := "USDT"; free := Num (5 # 1000) |} ].

Definition idle_world : World :=
  {| pendingConfirmation := {| command := ""; timestamp := 0 |};
     ledger := [];
     placements := [] |}.

(** ** [make] *)

(** Modelled from the spec: [utils.randomValue(low, high)] of
    [helpers/utils], which is not among the sources, draws uniformly between
    its bounds (sections 4.F and 4.H); [rnd] is the value of
    [Math.random()]. *)
Definition randomValue (low high : number) (rnd : Q) : number :=
  add (mul (Num rnd) (sub high low)) low.

(** The bounds [make] hands to [randomValue]: 1.05 and 1.1. *)
Definition reliability_low : Q := 105 # 100.
Definition reliability_high : Q := 11 # 10.

Definition is_marker (s : string) : bool :=
  String.eqb s "-y" || String.eqb s "-Y".

(** [params[params.length-1]] is one of ['-y', '-Y'] *)
Definition make_isConfirmed (params : list string) : bool :=
  match last (map Some params) None with
  | Some s => is_marker s
  | None => false
  end.

(** The single order [make] asks for. *)
Definition make_request (E : Env) (targetPrice : number) (info : OrderBookInfo)
    (reliabilityKoef : number) : PlaceRequest :=
  {| r_type := typeTargetPrice info;
     r_pair := config_pair E;
     r_price := targetPrice;
     r_coin1Amount := mul (amountTargetPrice info) reliabilityKoef;
     r_limit := 1;
     r_coin2Amount := Some (mul (amountTargetPriceQuote info) reliabilityKoef);
     r_purpose := "pm" |}.

(** The answer when neither message is assigned before [make] returns: when
    the order went through (the messages are sent seven seconds later), and
    when the inner [catch] took over. *)
Definition no_message : CommandResult :=
  {| msgNotify := ""; msgSendBack := ""; notifyType := "log" |}.

Definition nl : string := String "010" "".

(** [make(params, tx)] for a command that came in as a message ([isWebApi]
    is [false]); [now] is [Date.now()], [rnd] is [Math.random()]. *)
Definition make (E : Env) (now : Z) (rnd : Q) (params : list string) (w : World)
  : CommandResult * World :=
  let param := trim (nth 0 params "") in
  if negb (String.eqb param "price") then
    (reply ("Indicate option:" ++ nl ++ nl
            ++ "_price_ to buy/sell to achieve target price: */make price 1.1 "
            ++ config_coin2 E ++ ".")%string, w)
  else
    let pairObj := parseMarket E (config_pair E) in
    let pair := m_pair pairObj in
    let coin1 := m_coin1 pairObj in
    let coin2 := m_coin2 pairObj in
    let coin1Decimals := m_coin1Decimals pairObj in
    let coin2Decimals := m_coin2Decimals pairObj in
    let globalInfo :=
      if String.eqb (coin1Rates E) "" then
        if String.eqb pair ""
        then ("I can’t get rates for *" ++ coin1 ++ " from Infoservice*.")%string
        else ""
      else ("Global market rates for " ++ coin1 ++ ":" ++ nl ++ coin1Rates E
            ++ ".")%string in
    let globalInfo :=
      if String.eqb globalInfo "" then "" else (globalInfo ++ nl ++ nl)%string in
    let before := getRatesInfo E pair in
    if negb (success before) then
      (reply (ratesString before ++ " Try again.")%string, w)
    else
      let priceInfoString := (globalInfo ++ ratesString before)%string in
      let example :=
        (" Example: */make price 1.1 " ++ config_coin2 E ++ " now*." ++ nl ++ nl
         ++ priceInfoString)%string in
      let targetPrice :=
        match nth_error params 1 with
        | Some s => toNumber E s
        | None => NaN
        end in
      if negb (isPositiveNumber E targetPrice) then
        (reply ("Incorrect " ++ config_coin2 E ++ " target price: "
                ++ fmt E targetPrice ++ "." ++ example)%string, w)
      else if negb (opt_eqb (option_map toUpperCase (nth_error params 2))
                            (config_coin2 E))
              || String.eqb (config_coin2 E) ""
      then
        (reply ("You must set a price in " ++ config_coin2 E ++ "."
                ++ example)%string, w)
      else if negb (opt_eqb (option_map toUpperCase (nth_error params 3)) "NOW")
      then
        (reply ("Specify when to achieve target price of "
                ++ toFixed E targetPrice coin2Decimals ++ " " ++ coin2 ++ "."
                ++ example)%string, w)
      else
        let isConfirmed := make_isConfirmed params in
        let reliabilityKoef :=
          randomValue (Num reliability_low) (Num reliability_high) rnd in
        match getOrderBookInfo E targetPrice with
        | None => (no_message, w) (* the inner [catch] *)
        | Some orderBookInfo =>
            let req := make_request E targetPrice orderBookInfo reliabilityKoef in
            let isBuy := String.eqb (typeTargetPrice orderBookInfo) "buy" in
            let priceBefore := if isBuy then ask before else bid before in
            let priceChangeSign := if isBuy then "+" else "–" in
            let priceChange := numbersDifferencePercent E priceBefore targetPrice in
            let priceString :=
              (config_pair E ++ " price of " ++ toFixed E targetPrice coin2Decimals
               ++ " " ++ config_coin2 E ++ " from "
               ++ toFixed E priceBefore coin2Decimals ++ " " ++ config_coin2 E
               ++ " (" ++ priceChangeSign ++ toFixed E priceChange 2 ++ "%)"
               ++ " now")%string in
            if String.eqb (typeTargetPrice orderBookInfo) "inSpread" then
              (reply (priceString ++ " is already in spread. **No action needed**."
                      ++ nl ++ nl ++ priceInfoString)%string, w)
            else
              let actionString :=
                (typeTargetPrice orderBookInfo ++ " "
                 ++ toFixed E (r_coin1Amount req) coin1Decimals ++ " "
                 ++ config_coin1 E ++ (if isBuy then " with " else " for ")
                 ++ toFixed E (mul (amountTargetPriceQuote orderBookInfo)
                                   reliabilityKoef) coin2Decimals
                 ++ " " ++ config_coin2 E)%string in
              let pending := ("/make " ++ join params)%string in
              if isConfirmed then
                let w := add_placement req w in
                let res :=
                  if addGeneralOrder E req then no_message
                  else reply ("Unable to make " ++ priceString ++ ". The order to "
                              ++ actionString
                              ++ " failed: it's likely not enough funds or a temporary API error. Check balances and try again."
                              ++ nl ++ nl ++ priceInfoString)%string in
                (res, setPendingConfirmation now pending w)
              else
                (reply ("Are you sure to make " ++ priceString
                        ++ "? I am going to **" ++ actionString ++ "**."
                        ++ pwWarning E targetPrice
                        ++ "Confirm with **/y** command or ignore."
                        ++ nl ++ nl ++ priceInfoString)%string,
                 setPendingConfirmation now pending w)
        end.

(** The factor [randomValue] gives on the draw [rnd] between 1.05 and 1.1. *)
Definition reliabilityKoef (rnd : Q) : Q :=
  rnd * (reliability_high + - reliability_low) + reliability_low.

(** The order book of scenario 6: a buy of 50 base coins reaches the target. *)
Definition depth_fifty : OrderBookInfo :=
  {| typeTargetPrice := "buy";
     amountTargetPrice := Num 50;
     amountTargetPriceQuote := Num (105 # 2) |}.

End CommandTxs.

(* ===================================================================== *)
(** * The older dialect of the command router *)
(* ===================================================================== *)

Module CommandTxsLegacy.

Import Js.
Import OrderBookBuilder.
Import CommandTxs.

(** [y(params, tx)] of the older router.  Every path of its [try] block
    returns, so the assignment [pendingConfirmation.command = ''] that
    follows the block is not run; the router is called without [await], and
    its effects on the world are taken as done when [y] returns. *)
Definition y (router : string -> string -> World -> CommandResult * World)
    (now : Z) (tx : string) (w : World) : CommandResult * World * list string :=
  let pc := pendingConfirmation w in
  if negb (String.eqb (command pc) "") then
    if (now - timestamp pc >? timeToConfirm)%Z then
      (reply (expired_message (command pc)), w, [])
    else
      let cmd := (command pc ++ " -y")%string in
      let '(_, w') := router cmd tx w in
      (reply "", w', [cmd])
  else
    (reply no_pending_message, w, []).

(** ** [fill] of the older router *)

(** [$u.getPairObj(params[0])] *)
Record PairObj : Type := {
  po_market : Market;
  isPairFromParam : bool
}.

(** What the older router has around it: what it shares with the current
    one, and the helper and adapter calls of its own. *)
Record LegacyEnv : Type := {
  shared : Env;
  getPairObj : option string -> PairObj;      (* $u.getPairObj *)
  getRates : string -> option (number * number); (* bid and ask *)
  getBalances : option (list Balance);        (* traderapi.getBalances(false) *)
  placeOrder : PlaceRequest -> bool           (* an orderid came back *)
}.

(** The first loop of the older [fill]: it knows [count], [amount], [low] and
    [high]. *)
Definition fill_param (L : LegacyEnv) (v : FillVars) (param : string) : FillVars :=
  let E := shared L in
  let acc := (v, false) in
  let acc := fill_if E param "count"
    (fun x v => {| f_count := x; f_amount := f_amount v; f_low := f_low v;
                   f_high := f_high v; f_amountName := f_amountName v |}) acc in
  let acc := fill_if E param "amount"
    (fun x v => {| f_count := f_count v; f_amount := x; f_low := f_low v;
                   f_high := f_high v; f_amountName := f_amountName v |}) acc in
  let acc := fill_if E param "low"
    (fun x v => {| f_count := f_count v; f_amount := f_amount v; f_low := x;
                   f_high := f_high v; f_amountName := f_amountName v |}) acc in
  let acc := fill_if E param "high"
    (fun x v => {| f_count := f_count v; f_amount := f_amount v; f_low := f_low v;
                   f_high := x; f_amountName := f_amountName v |}) acc in
  fst acc.

Definition fill_vars (L : LegacyEnv) (params : list string) : FillVars :=
  fold_left (fill_param L) params fill_vars_init.

Definition unset (x : number) : bool := falsy x || Js.eq x PInf.

(** The values the older [fill] works with once its defaults are in, and
    the side it reads off the parameters. *)
Record FillPlan : Type := {
  p_pairObj : PairObj;
  p_type : string;
  p_count : number;
  p_amount : number;
  p_low : number;
  p_high : number
}.

(** The older [fill] up to its request for the balances: the reply of the
    first check that fails, or the plan. *)
Definition fill_validate (L : LegacyEnv) (params : list string)
  : CommandResult + FillPlan :=
  let v := fill_vars L params in
  if (List.length params <? 3)%nat then
    inl (reply "Wrong arguments. Command works like this: */fill ADM/BTC buy amount=0.00002000 low=0.00000100 high=0.00000132 count=7*.")
  else
    let pairObj := getPairObj L (nth_error params 0) in
    let pair := m_pair (po_market pairObj) in
    let type :=
      trim (if isPairFromParam pairObj then nth 1 params "" else nth 0 params "") in
    if String.eqb pair "" then inl (reply "Please specify market to fill orders in.")
    else
      let count :=
        if unset (f_count v) || lt (f_count v) (Num 1) then Num 5 else f_count v in
      let plan (low high : number) : CommandResult + FillPlan :=
        if gt low high
        then inl (reply "To fill orders _high_ should be greater than _low_.")
        else inr {| p_pairObj := pairObj; p_type := type; p_count := count;
                    p_amount := f_amount v; p_low := low; p_high := high |} in
      if unset (f_high v) || unset (f_low v) then
        match getRates L pair with
        | Some (bid, ask) =>
            plan (if unset (f_low v) then bid else f_low v)
                 (if unset (f_high v) then ask else f_high v)
        | None =>
            inl (reply ("Unable to get " ++ config_exchangeName (shared L)
                        ++ " rates for " ++ pair ++ " to fill orders.")%string)
        end
      else plan (f_low v) (f_high v).

(** The coin the older [fill] checks the balance of. *)
Definition fill_coin (plan : FillPlan) : string :=
  if String.eqb (p_type plan) "buy"
  then m_coin2 (po_market (p_pairObj plan))
  else m_coin1 (po_market (p_pairObj plan)).

(** [balances.filter(crypto => crypto.code === coin)[0].free]; reading it
    throws when the coin is not among the balances. *)
Definition listed_balance (balances : list Balance) (coin : string) : option number :=
  match filter (fun crypto => String.eqb (code crypto) coin) balances with
  | b :: _ => Some (free b)
  | [] => None
  end.

(** A call of [traderapi.placeOrder], which takes no purpose. *)
Definition place_request (plan : FillPlan) (o : FillOrder) : PlaceRequest :=
  {| r_type := p_type plan; r_pair := m_pair (po_market (p_pairObj plan));
     r_price := fo_price o; r_coin1Amount := fo_amount o; r_limit := 1;
     r_coin2Amount := None; r_purpose := "" |}.

Fixpoint fill_place (L : LegacyEnv) (plan : FillPlan) (orderList : list FillOrder)
    (w : World) (items : nat) (total1 total2 : number)
  : World * nat * number * number :=
  match orderList with
  | [] => (w, items, total1, total2)
  | o :: rest =>
      let req := place_request plan o in
      let w := add_placement req w in
      if placeOrder L req
      then fill_place L plan rest w (S items)
             (add total1 (fo_amount o)) (add total2 (fo_altAmount o))
      else fill_place L plan rest w items total1 total2
  end.

(** The older [fill] from the request for the balances on. *)
Definition fill_checked (L : LegacyEnv) (plan : FillPlan) (w : World)
  : CommandResult * World :=
  let E := shared L in
  let market := po_market (p_pairObj plan) in
  match getBalances L with
  | None =>
      (reply ("Unable to get " ++ config_exchangeName E
              ++ " balances. Try again.")%string, w)
  | Some balances =>
      let coin := fill_coin plan in
      match listed_balance balances coin with
      | None => (reply "Unable to process balances. Check parameters.", w)
      | Some balance =>
          let isBalanceEnough := ge balance (p_amount plan) in
          if negb isBalanceEnough then (reply (not_enough_message coin), w)
          else
            let step := div (sub (p_high plan) (p_low plan)) (p_count plan) in
            let orderAmount := div (p_amount plan) (p_count plan) in
            let orderList :=
              fill_order_list E (String.eqb (p_type plan) "buy") (p_count plan)
                (p_amount plan) (p_high plan) step orderAmount
                (turns_of (p_count plan)) 0 (p_low plan) (Num 0) in
            let '(w, items, total1, total2) :=
              fill_place L plan orderList w 0 (Num 0) (Num 0) in
            if (0 <? items)%nat then
              let rounded (x : number) (decimals : nat) :=
                formatNumber E (fmt E (toNumber E (toFixed E x decimals))) false in
              let output :=
                (fmt E (num_of_nat items) ++ " orders to " ++ p_type plan ++ " "
                 ++ rounded total1 (m_coin1Decimals market) ++ " " ++ m_coin1 market
                 ++ " for " ++ rounded total2 (m_coin2Decimals market) ++ " "
                 ++ m_coin2 market ++ ".")%string in
              ({| msgNotify := (config_notifyName E ++ " placed " ++ output)%string;
                  msgSendBack := ("Placed " ++ output)%string;
                  notifyType := "log" |}, w)
            else (reply "No orders were placed. Check log file for details.", w)
      end
  end.

(** [fill(params)] of the older router. *)
Definition fill (L : LegacyEnv) (params : list string) (w : World)
  : CommandResult * World :=
  match fill_validate L params with
  | inl rejected => (rejected, w)
  | inr plan => fill_checked L plan w
  end.

(** The older router on the exchange of [example_env]. *)
Definition example_legacy (balances : option (list Balance)) : LegacyEnv :=
  {| shared := example_env balances None;
     getPairObj := fun p =>
       {| po_market := adm_usdt;
          isPairFromParam :=
            match p with
            | Some s => contains_char "/" s
            | None => false
            end |};
     getRates := fun _ => Some (Num (99 # 100), Num 1);
     getBalances := balances;
     placeOrder := fun _ => true |}.

End CommandTxsLegacy.

(** What the loop of [fill] takes from its budget for an order: the quote
    amount of a buy order, the base amount of a sell order. *)
Module FillBudget.

Import Js.
Import CommandTxs.

Definition spent (isBuy : bool) (o : FillOrder) : number :=
  if isBuy then fo_altAmount o else fo_amount o.

Fixpoint spent_total (isBuy : bool) (orderList : list FillOrder) : number :=
  match orderList with
  | [] => Num 0
  | o :: rest => add (spent isBuy o) (spent_total isBuy rest)
  end.

(** The order list of [fill] for the given count, amount and prices. *)
Definition orderList (E : Env) (isBuy : bool) (count amount low high : number)
  : list FillOrder :=
  fill_order_list E isBuy count amount high (div (sub high low) count)
    (div amount count) (turns_of count) 0 low (Num 0).

End FillBudget.

(* ===================================================================== *)
(** * The commands that change the trade settings *)
(* ===================================================================== *)

Module Settings.

Import Js.
Import CommandTxs.

(** [tradeParams], as far as the setting commands write it and the builder
    reads it.  The fields are those of the shipped settings file, so each is
    present; [mm_orderBookMaxOrderPercent], which the file lacks, is [NaN]
    until [/enable ob] sets it. *)
Record TradeParams : Type := {
  mm_isActive : bool;
  mm_Policy : string;
  mm_isPriceMakerActive : bool;
  mm_buyPercent : number;
  mm_minAmount : number;
  mm_maxAmount : number;
  mm_minInterval : number;
  mm_maxInterval : number;
  mm_isOrderBookActive : bool;
  mm_orderBookOrdersCount : number;
  mm_orderBookMaxOrderPercent : number;
  mm_isLiquidityActive : bool;
  mm_isPriceWatcherActive : bool
}.

(** The shipped settings. *)
Definition shipped : TradeParams := {|
  mm_isActive := false;
  mm_Policy := "optimal";
  mm_isPriceMakerActive := false;
  mm_buyPercent := Num (67 # 100);
  mm_minAmount := Num 14;
  mm_maxAmount := Num 1600;
  mm_minInterval := Num 3000;
  mm_maxInterval := Num 350000;
  mm_isOrderBookActive := true;
  mm_orderBookOrdersCount := Num 20;
  mm_orderBookMaxOrderPercent := NaN;
  mm_isLiquidityActive := false;
  mm_isPriceWatcherActive := false
|}.

Definition set_active (b : bool) (policy : string) (tp : TradeParams)
  : TradeParams :=
  {| mm_isActive := b; mm_Policy := policy;
     mm_isPriceMakerActive := mm_isPriceMakerActive tp;
     mm_buyPercent := mm_buyPercent tp;
     mm_minAmount := mm_minAmount tp; mm_maxAmount := mm_maxAmount tp;
     mm_minInterval := mm_minInterval tp; mm_maxInterval := mm_maxInterval tp;
     mm_isOrderBookActive := mm_isOrderBookActive tp;
     mm_orderBookOrdersCount := mm_orderBookOrdersCount tp;
     mm_orderBookMaxOrderPercent := mm_orderBookMaxOrderPercent tp;
     mm_isLiquidityActive := mm_isLiquidityActive tp;
     mm_isPriceWatcherActive := mm_isPriceWatcherActive tp |}.

Definition set_buyPercent (v : number) (tp : TradeParams) : TradeParams :=
  {| mm_isActive := mm_isActive tp; mm_Policy := mm_Policy tp;
     mm_isPriceMakerActive := mm_isPriceMakerActive tp;
     mm_buyPercent := v;
     mm_minAmount := mm_minAmount tp; mm_maxAmount := mm_maxAmount tp;
     mm_minInterval := mm_minInterval tp; mm_maxInterval := mm_maxInterval tp;
     mm_isOrderBookActive := mm_isOrderBookActive tp;
     mm_orderBookOrdersCount := mm_orderBookOrdersCount tp;
     mm_orderBookMaxOrderPercent := mm_orderBookMaxOrderPercent tp;
     mm_isLiquidityActive := mm_isLiquidityActive tp;
     mm_isPriceWatcherActive := mm_isPriceWatcherActive tp |}.

Definition set_amounts (lo hi : number) (tp : TradeParams) : TradeParams :=
  {| mm_isActive := mm_isActive tp; mm_Policy := mm_Policy tp;
     mm_isPriceMakerActive := mm_isPriceMakerActive tp;
     mm_buyPercent := mm_buyPercent tp;
     mm_minAmount := lo; mm_maxAmount := hi;
     mm_minInterval := mm_minInterval tp; mm_maxInterval := mm_maxInterval tp;
     mm_isOrderBookActive := mm_isOrderBookActive tp;
     mm_orderBookOrdersCount := mm_orderBookOrdersCount tp;
     mm_orderBookMaxOrderPercent := mm_orderBookMaxOrderPercent tp;
     mm_isLiquidityActive := mm_isLiquidityActive tp;
     mm_isPriceWatcherActive := mm_isPriceWatcherActive tp |}.

Definition set_intervals (lo hi : number) (tp : TradeParams) : TradeParams :=
  {| mm_isActive := mm_isActive tp; mm_Policy := mm_Policy tp;
     mm_isPriceMakerActive := mm_isPriceMakerActive tp;
     mm_buyPercent := mm_buyPercent tp;
     mm_minAmount := mm_minAmount tp; mm_maxAmount := mm_maxAmount tp;
     mm_minInterval := lo; mm_maxInterval := hi;
     mm_isOrderBookActive := mm_isOrderBookActive tp;
     mm_orderBookOrdersCount := mm_orderBookOrdersCount tp;
     mm_orderBookMaxOrderPercent := mm_orderBookMaxOrderPercent tp;
     mm_isLiquidityActive := mm_isLiquidityActive tp;
     mm_isPriceWatcherActive := mm_isPriceWatcherActive tp |}.

Definition set_orderBookActive (b : bool) (tp : TradeParams) : TradeParams :=
  {| mm_isActive := mm_isActive tp; mm_Policy := mm_Policy tp;
     mm_isPriceMakerActive := mm_isPriceMakerActive tp;
     mm_buyPercent := mm_buyPercent tp;
     mm_minAmount := mm_minAmount tp; mm_maxAmount := mm_maxAmount tp;
     mm_minInterval := mm_minInterval tp; mm_maxInterval := mm_maxInterval tp;
     mm_isOrderBookActive := b;
     mm_orderBookOrdersCount := mm_orderBookOrdersCount tp;
     mm_orderBookMaxOrderPercent := mm_orderBookMaxOrderPercent tp;
     mm_isLiquidityActive := mm_isLiquidityActive tp;
     mm_isPriceWatcherActive := mm_isPriceWatcherActive tp |}.

Definition set_orderBookOrdersCount (n : number) (tp : TradeParams)
  : TradeParams :=
  {| mm_isActive := mm_isActive tp; mm_Policy := mm_Policy tp;
     mm_isPriceMakerActive := mm_isPriceMakerActive tp;
     mm_buyPercent := mm_buyPercent tp;
     mm_minAmount := mm_minAmount tp; mm_maxAmount := mm_maxAmount tp;
     mm_minInterval := mm_minInterval tp; mm_maxInterval := mm_maxInterval tp;
     mm_isOrderBookActive := mm_isOrderBookActive tp;
     mm_orderBookOrdersCount := n;
     mm_orderBookMaxOrderPercent := mm_orderBookMaxOrderPercent tp;
     mm_isLiquidityActive := mm_isLiquidityActive tp;
     mm_isPriceWatcherActive := mm_isPriceWatcherActive tp |}.

Definition set_orderBookMaxOrderPercent (n : number) (tp : TradeParams)
  : TradeParams :=
  {| mm_isActive := mm_isActive tp; mm_Policy := mm_Policy tp;
     mm_isPriceMakerActive := mm_isPriceMakerActive tp;
     mm_buyPercent := mm_buyPercent tp;
     mm_minAmount := mm_minAmount tp; mm_maxAmount := mm_maxAmount tp;
     mm_minInterval := mm_minInterval tp; mm_maxInterval := mm_maxInterval tp;
     mm_isOrderBookActive := mm_isOrderBookActive tp;
     mm_orderBookOrdersCount := mm_orderBookOrdersCount tp;
     mm_orderBookMaxOrderPercent := n;
     mm_isLiquidityActive := mm_isLiquidityActive tp;
     mm_isPriceWatcherActive := mm_isPriceWatcherActive tp |}.

Definition set_liquidityActive (b : bool) (tp : TradeParams) : TradeParams :=
  {| mm_isActive := mm_isActive tp; mm_Policy := mm_Policy tp;
     mm_isPriceMakerActive := mm_isPriceMakerActive tp;
     mm_buyPercent := mm_buyPercent tp;
     mm_minAmount := mm_minAmount tp; mm_maxAmount := mm_maxAmount tp;
     mm_minInterval := mm_minInterval tp; mm_maxInterval := mm_maxInterval tp;
     mm_isOrderBookActive := mm_isOrderBookActive tp;
     mm_orderBookOrdersCount := mm_orderBookOrdersCount tp;
     mm_orderBookMaxOrderPercent := mm_orderBookMaxOrderPercent tp;
     mm_isLiquidityActive := b;
     mm_isPriceWatcherActive := mm_isPriceWatcherActive tp |}.

Definition set_priceWatcherActive (b : bool) (tp : TradeParams) : TradeParams :=
  {| mm_isActive := mm_isActive tp; mm_Policy := mm_Policy tp;
     mm_isPriceMakerActive := mm_isPriceMakerActive tp;
     mm_buyPercent := mm_buyPercent tp;
     mm_minAmount := mm_minAmount tp; mm_maxAmount := mm_maxAmount tp;
     mm_minInterval := mm_minInterval tp; mm_maxInterval := mm_maxInterval tp;
     mm_isOrderBookActive := mm_isOrderBookActive tp;
     mm_orderBookOrdersCount := mm_orderBookOrdersCount tp;
     mm_orderBookMaxOrderPercent := mm_orderBookMaxOrderPercent tp;
     mm_isLiquidityActive := mm_isLiquidityActive tp;
     mm_isPriceWatcherActive := b |}.

(** What the commands take from [helpers/const] and
    [helpers/cryptos/exchanger], which are not part of the router. *)
Record Consts : Type := {
  MM_POLICIES : list string;
  MM_POLICIES_REGULAR : list string;
  volumeCoin1 : TradeParams -> number;
    (* exchangerUtils.estimateCurrentDailyTradeVolume().coin1 *)
  numbersDifferencePercentDirect : number -> number -> number;
  getVolumeChangeInfoString : TradeParams -> TradeParams -> string
    (* of the estimates under the settings before and after *)
}.

(** [list.includes(s)] *)
Definition includes (l : list string) (s : string) : bool :=
  existsb (String.eqb s) l.

(** The part of the settings the order-book builder reads. *)
Definition builder_view (K : Consts) (tp : TradeParams)
  : OrderBookBuilder.TradeParams :=
  {| OrderBookBuilder.mm_buyPercent := mm_buyPercent tp;
     OrderBookBuilder.mm_isActive := mm_isActive tp;
     OrderBookBuilder.mm_isOrderBookActive := mm_isOrderBookActive tp;
     OrderBookBuilder.mm_policyIsRegular :=
       includes (MM_POLICIES_REGULAR K) (mm_Policy tp);
     OrderBookBuilder.mm_orderBookOrdersCount := mm_orderBookOrdersCount tp |}.

(** [params[i]?.toLowerCase()] *)
Definition lower_param (params : list string) (i : nat) : option string :=
  option_map toLowerCase (nth_error params i).

(** [(param[i] || '').trim()] *)
Definition trimmed_param (param : list string) (i : nat) : string :=
  trim (nth i param "").

Definition nonempty (s : string) : bool := negb (String.eqb s "").

(** ** [start] and [stop] *)

(** [start(params)].  The last component lists the calls of
    [pw.restorePw], by their reason. *)
Definition start (E : Env) (K : Consts) (params : list string)
    (tp : TradeParams) : CommandResult * TradeParams * list string :=
  let type := lower_param params 0 in
  if negb (opt_eqb type "mm") then
    (reply "Indicate trade type, _mm_ for market making. Example: */start mm*.",
     tp, [])
  else
    let param1 :=
      match nth_error params 1 with
      | Some s => if is_marker s then "" else s
      | None => ""
      end in
    let newPolicy :=
      toLowerCase (if nonempty param1 then param1
                   else if nonempty (mm_Policy tp) then mm_Policy tp
                   else "optimal") in
    if negb (includes (MM_POLICIES K) newPolicy) then
      (reply ("Wrong market making policy. It may be "
              ++ String.concat ", " (MM_POLICIES K)
              ++ ". Example: */start mm spread*.")%string, tp, [])
    else
      let restorePw :=
        if mm_isPriceMakerActive tp && String.eqb (mm_Policy tp) "depth"
           && negb (String.eqb newPolicy "depth")
        then [("User> Market making policy changed from depth to "
               ++ newPolicy)%string]
        else [] in
      ({| msgNotify :=
            (config_notifyName E ++ " set to start market making with "
             ++ newPolicy ++ " policy for " ++ config_pair E ++ ".")%string;
          msgSendBack :=
            ("Starting market making with " ++ newPolicy ++ " policy for "
             ++ config_pair E
             ++ " pair. Check enabled options with */params* command.")%string;
          notifyType := "log" |},
       set_active true newPolicy tp, restorePw).

Definition stop_options : string :=
  ", order book building, liquidity and spread maintenance, price watching and other options".

(** [stop(params)] *)
Definition stop (E : Env) (params : list string) (tp : TradeParams)
  : CommandResult * TradeParams :=
  let type := lower_param params 0 in
  if negb (opt_eqb type "mm") then
    (reply "Indicate trade type, _mm_ for market making. Example: */stop mm*.",
     tp)
  else
    (if mm_isActive tp then
       {| msgNotify :=
            (config_notifyName E ++ " stopped Market making" ++ stop_options
             ++ " for " ++ config_pair E ++ " pair.")%string;
          msgSendBack :=
            ("Market making" ++ stop_options ++ " for " ++ config_pair E
             ++ " pair are disabled now.")%string;
          notifyType := "log" |}
     else
       reply ("Market making for " ++ config_pair E
              ++ " pair is not active.")%string,
     set_active false (mm_Policy tp) tp).

(** ** [enable] and [disable] *)

(** [validateFeature(feature, action)]: the message lists the entries of
    [botFeatures], from which [utils.trimAny] has nothing to trim. *)
Definition botFeatures : list (string * string) :=
  [ ("ob", "dynamic order book building");
    ("liq", "liquidity and spread maintenance");
    ("pw", "price watching") ].

Definition validateFeature (feature : option string) (action : string)
  : bool * string :=
  let featureDescription :=
    (String.concat ", "
       (map (fun e => (nl ++ "_" ++ fst e ++ "_ for " ++ snd e)%string)
            botFeatures) ++ ".")%string in
  let msgSendBack :=
    ("Indicate option:" ++ nl ++ featureDescription
     ++ (if String.eqb action "enable"
         then nl ++ nl ++ "Example: */enable ob 15*."
         else nl ++ nl ++ "Example: */disable ob*."))%string in
  let validated :=
    match feature with
    | Some f => includes (map fst botFeatures) f
    | None => false
    end in
  (validated, msgSendBack).

(** [disable(params)].  The last component lists the calls of [pw.savePw],
    by their reason. *)
Definition disable (E : Env) (params : list string) (tp : TradeParams)
  : CommandResult * TradeParams * list string :=
  let type := lower_param params 0 in
  let typeValidation := validateFeature type "disable" in
  if negb (fst typeValidation) then (reply (snd typeValidation), tp, [])
  else
    let '(tp, optionsString, savePw) :=
      if opt_eqb type "ob"
      then (set_orderBookActive false tp, "Order book building", [])
      else if opt_eqb type "liq"
      then (set_liquidityActive false tp, "Liquidity and spread maintenance", [])
      else (set_priceWatcherActive false tp, "Price watching",
            ["User /disable pw command"]) in
    let still (text : string) : string :=
      if mm_isActive tp then text else "" in
    ({| msgNotify :=
          (config_notifyName E ++ " disabled " ++ optionsString ++ " for "
           ++ config_pair E ++ " pair on " ++ config_exchangeName E ++ "."
           ++ still " Market making is still active.")%string;
        msgSendBack :=
          (optionsString ++ " is disabled for " ++ config_pair E ++ " pair on "
           ++ config_exchangeName E ++ "."
           ++ still " Market making is still active—to stop it, type */stop mm*.")%string;
        notifyType := "log" |}, tp, savePw).

(** [s.slice(-1)] and [s.slice(0, -1)] *)
Fixpoint last_char (s : string) : string :=
  match s with
  | EmptyString => EmptyString
  | String c r =>
      match r with
      | EmptyString => String c EmptyString
      | _ => last_char r
      end
  end.

Fixpoint but_last (s : string) : string :=
  match s with
  | EmptyString => EmptyString
  | String c r =>
      match r with
      | EmptyString => EmptyString
      | _ => String c (but_last r)
      end
  end.

(** The [ob] branch of [enable] and the code after the branches. *)
Definition enable_ob (E : Env) (params : list string) (tp : TradeParams)
  : CommandResult * TradeParams :=
  let pairObj := parseMarket E (config_pair E) in
  let param1 := nth_error params 1 in
  let orderBookOrdersCount :=
    match param1 with
    | Some s => toNumber E s
    | None => NaN
    end in
  let maxAmountString :=
    ("_" ++ toFixed E (mm_maxAmount tp) (m_coin1Decimals pairObj) ++ " "
     ++ m_coin1 pairObj ++ "_")%string in
  if match param1 with Some s => nonempty s | None => false end
     && negb (isPositiveNumber E orderBookOrdersCount)
  then (reply "Set correct ob-order count. Example: */enable ob 15 20%*.", tp)
  else
    let tp :=
      if isPositiveNumber E orderBookOrdersCount
      then set_orderBookOrdersCount orderBookOrdersCount tp
      else tp in
    let maxOrderPercentParam :=
      match nth_error params 2 with
      | Some s => if nonempty s then Some s else None
      | None => None
      end in
    let checked : option number :=
      match maxOrderPercentParam with
      | Some s =>
          let percentSign := last_char s in
          let maxOrderPercent := toNumber E (but_last s) in
          if negb (isPositiveNumber E maxOrderPercent)
             || negb (String.eqb percentSign "%")
          then None else Some maxOrderPercent
      | None => Some (Num 100)
      end in
    match checked with
    | None =>
        (reply ("Set correct max ob-order amount percent from market-making max order (currently "
                ++ maxAmountString ++ "). Example: */enable ob 15 20%*.")%string,
         tp)
    | Some maxOrderPercent =>
        let tp :=
          set_orderBookMaxOrderPercent maxOrderPercent
            (set_orderBookActive true tp) in
        let optionsString := "Order book building" in
        let infoStringPercent :=
          if Js.eq (mm_orderBookMaxOrderPercent tp) (Num 100) then
            (" and same max order amount as market-making (currently "
             ++ maxAmountString ++ ")")%string
          else
            let maxAgOrderAmount :=
              div (mul (mm_orderBookMaxOrderPercent tp) (mm_maxAmount tp))
                  (Num 100) in
            (" and max order amount of _"
             ++ fmt E (mm_orderBookMaxOrderPercent tp)
             ++ "%_ from market-making max order, _~"
             ++ toFixed E maxAgOrderAmount (m_coin1Decimals pairObj) ++ " "
             ++ m_coin1 pairObj ++ "_ currently")%string in
        let infoString :=
          (" with _" ++ fmt E (mm_orderBookOrdersCount tp)
           ++ "_ maximum number of orders" ++ infoStringPercent)%string in
        let unless_active (text : string) : string :=
          if mm_isActive tp then "" else text in
        ({| msgNotify :=
              (config_notifyName E ++ " enabled " ++ optionsString ++ " for "
               ++ config_pair E ++ " pair" ++ infoString ++ "."
               ++ unless_active (" Market making and " ++ optionsString
                                 ++ " are not started yet."))%string;
            msgSendBack :=
              (optionsString ++ " is enabled for " ++ config_pair E ++ " pair"
               ++ infoString ++ "."
               ++ unless_active (" To start Market making and " ++ optionsString
                                 ++ ", type */start mm*."))%string;
            notifyType := "log" |}, tp)
    end.

(** [enable(params)]; the branches for [liq] and [pw], which reach into the
    liquidity provider and the price watcher, are taken as [others]. *)
Definition enable (E : Env)
    (others : list string -> TradeParams -> CommandResult * TradeParams)
    (params : list string) (tp : TradeParams) : CommandResult * TradeParams :=
  let type := lower_param params 0 in
  let typeValidation := validateFeature type "enable" in
  if negb (fst typeValidation) then (reply (snd typeValidation), tp)
  else if opt_eqb type "ob" then enable_ob E params tp
  else others params tp.

(** ** [buypercent], [amount] and [interval] *)

(** [buypercent(param)].  The share is the exact hundredth here; the engine
    rounds the quotient, for a tiny percentage to 0. *)
Definition buypercent (E : Env) (param : list string) (tp : TradeParams)
  : CommandResult * TradeParams :=
  let val := toNumber E (trimmed_param param 0) in
  if falsy val || Js.eq val PInf || lt val (Num 0) || gt val (Num 100) then
    (reply "Invalid percentage of buy orders. Example: */buyPercent 85*.", tp)
  else
    let text :=
      ("et to make market with " ++ fmt E val ++ "% of buy orders for "
       ++ config_pair E ++ " pair. Order book building is set to "
       ++ fmt E (sub (Num 100) val) ++ "% of buy orders.")%string in
    ({| msgNotify := (config_notifyName E ++ " is s" ++ text)%string;
        msgSendBack := ("S" ++ text)%string;
        notifyType := "log" |},
     set_buyPercent (div val (Num 100)) tp).

(** Unary plus gives no negative number on a string without a minus sign;
    the conversion is otherwise left open. *)
Definition unsigned_conversion (E : Env) : Prop :=
  forall s, contains_char "-" s = false -> lt (toNumber E s) (Num 0) = false.

(** [+maxStr] of [const [minStr, maxStr] = val.split('-')] *)
Definition piece (E : Env) (pieces : list string) (i : nat) : number :=
  match nth_error pieces i with
  | Some s => toNumber E s
  | None => NaN
  end.

(** The text on the change of the estimated trade volume that [amount] and
    [interval] add to their answers. *)
Definition volumeChange (E : Env) (K : Consts) (old new : TradeParams)
  : string :=
  let volumeChangePercent :=
    numbersDifferencePercentDirect K (volumeCoin1 K old) (volumeCoin1 K new) in
  let operator := if gt (volumeCoin1 K old) (volumeCoin1 K new) then "–" else "+" in
  ("Estimate mm trade volume changed " ++ operator
   ++ toFixed E volumeChangePercent 2 ++ "%: "
   ++ getVolumeChangeInfoString K old new ++ ".")%string.

Definition set_reply (E : Env) (infoString : string) : CommandResult :=
  {| msgNotify := (config_notifyName E ++ " is set " ++ infoString)%string;
     msgSendBack := ("Set " ++ infoString)%string;
     notifyType := "log" |}.

(** [amount(param)] *)
Definition amount (E : Env) (K : Consts) (param : list string)
    (tp : TradeParams) : CommandResult * TradeParams :=
  let val := trimmed_param param 0 in
  let invalid :=
    ("Invalid values for market making of " ++ config_pair E)%string in
  if negb (nonempty val) || negb (contains_char "-" val) then
    (reply (invalid ++ ". Example: */amount 0.01-20*.")%string, tp)
  else
    let pieces := split "-" val in
    let min := piece E pieces 0 in
    let max := piece E pieces 1 in
    if falsy min || Js.eq min PInf || falsy max || Js.eq max PInf then
      (reply (invalid ++ ". Example: */amount 0.01-20*.")%string, tp)
    else if gt min max then
      (reply (invalid ++ ". Value _to_ must be greater or equal, than _from_. Example: */amount 0.01-20*.")%string,
       tp)
    else
      let tp' := set_amounts min max tp in
      (set_reply E
         ("to make market amounts from " ++ fmt E min ++ " to " ++ fmt E max
          ++ " " ++ config_coin1 E ++ " for " ++ config_pair E ++ " pair. "
          ++ volumeChange E K tp tp')%string, tp').

(** [Math.round(x)]: the nearest integer, a half going up. *)
Definition Math_round (x : number) : number :=
  match x with
  | Num q => Num (inject_Z (Qfloor (q + (1 # 2))))
  | other => other
  end.

(** The [switch] of [interval] over the time unit; [None] when no case
    matches and [multiplier] stays unset. *)
Definition multiplier_of (time : string) : option number :=
  if String.eqb time "sec" then Some (Num 1000)
  else if String.eqb time "min" then Some (Num (1000 * 60))
  else if String.eqb time "hour" then Some (Num (1000 * 60 * 60))
  else None.

(** [interval(param)].  The products are exact here; the engine rounds
    them before [Math.round], and to [Infinity] beyond its range. *)
Definition interval (E : Env) (K : Consts) (param : list string)
    (tp : TradeParams) : CommandResult * TradeParams :=
  let val := trimmed_param param 0 in
  let invalid :=
    ("Invalid intervals for market making of " ++ config_pair E)%string in
  if negb (nonempty val) || negb (contains_char "-" val) then
    (reply (invalid ++ ". Example: */interval 1-5 min*.")%string, tp)
  else
    let time := toLowerCase (trimmed_param param 1) in
    match multiplier_of time with
    | None =>
        (reply "Invalid time unit for interval. Set _sec_, _min_, or _hour_. Example: */interval 1-5 min*.",
         tp)
    | Some multiplier =>
        let pieces := split "-" val in
        let min := piece E pieces 0 in
        let max := piece E pieces 1 in
        if falsy min || Js.eq min PInf || falsy max || Js.eq max PInf then
          (reply (invalid ++ ". Example: */interval 1-5 min*.")%string, tp)
        else if gt min max then
          (reply (invalid ++ ". Value _to_ must be greater or equal, than _from_. Example: */interval 1-5 min*.")%string,
           tp)
        else
          let tp' :=
            set_intervals (Math_round (mul min multiplier))
                          (Math_round (mul max multiplier)) tp in
          (set_reply E
             ("to make market in intervals from " ++ fmt E min ++ " to "
              ++ fmt E max ++ " " ++ time ++ " for " ++ config_pair E
              ++ " pair. " ++ volumeChange E K tp tp')%string, tp')
    end.

(** An example of the constants: the policies the messages of the two
    dialects name, the regular ones being those of the older dialect. *)
Definition example_consts : Consts :=
  {| MM_POLICIES := ["optimal"; "spread"; "orderbook"; "depth"; "wash"];
     MM_POLICIES_REGULAR := ["optimal"; "spread"; "orderbook"];
     volumeCoin1 := fun tp => mm_maxAmount tp;
     numbersDifferencePercentDirect := fun _ _ => Num 0;
     getVolumeChangeInfoString := fun _ _ => "#" |}.

End Settings.

(** The same commands in the older dialect of the router, on the fields the
    two dialects share. *)
Module SettingsLegacy.

Import Js.
Import CommandTxs.
Import Settings.

(** [amount(param)] *)
Definition amount (E : Env) (param : list string) (tp : TradeParams)
  : CommandResult * TradeParams :=
  let val := trimmed_param param 0 in
  let invalid :=
    ("Invalid values for market making of " ++ config_pair E
     ++ ". Example: */amount 0.01-20*.")%string in
  if negb (nonempty val) || negb (contains_char "-" val) then (reply invalid, tp)
  else
    let pieces := split "-" val in
    let min := piece E pieces 0 in
    let max := piece E pieces 1 in
    if falsy min || Js.eq min PInf || falsy max || Js.eq max PInf then
      (reply invalid, tp)
    else
      let text :=
        ("et to make market with amounts from " ++ fmt E min ++ " to "
         ++ fmt E max ++ " " ++ config_coin1 E ++ " for " ++ config_pair E
         ++ " pair.")%string in
      ({| msgNotify := (config_notifyName E ++ " is s" ++ text)%string;
          msgSendBack := ("S" ++ text)%string;
          notifyType := "log" |},
       set_amounts min max tp).

(** The [switch] of [interval]: an unlisted unit counts as minutes. *)
Definition multiplier_of (time : string) : number * string :=
  if String.eqb time "sec" then (Num 1000, time)
  else if String.eqb time "min" then (Num (1000 * 60), time)
  else if String.eqb time "hour" then (Num (1000 * 60 * 60), time)
  else (Num (1000 * 60), "min").

(** [interval(param)] *)
Definition interval (E : Env) (param : list string) (tp : TradeParams)
  : CommandResult * TradeParams :=
  let val := trimmed_param param 0 in
  let invalid :=
    ("Invalid intervals for market making of " ++ config_pair E
     ++ ". Example: */interval 1-5 min*.")%string in
  if negb (nonempty val) || negb (contains_char "-" val) then (reply invalid, tp)
  else
    let '(multiplier, time) := multiplier_of (trimmed_param param 1) in
    let pieces := split "-" val in
    let min := piece E pieces 0 in
    let max := piece E pieces 1 in
    if falsy min || Js.eq min PInf || falsy max || Js.eq max PInf then
      (reply invalid, tp)
    else
      let text :=
        ("et to make market in intervals from " ++ fmt E min ++ " to "
         ++ fmt E max ++ " " ++ time ++ " for " ++ config_pair E
         ++ " pair.")%string in
      ({| msgNotify := (config_notifyName E ++ " is s" ++ text)%string;
          msgSendBack := ("S" ++ text)%string;
          notifyType := "log" |},
       set_intervals (mul min multiplier) (mul max multiplier) tp).

End SettingsLegacy.

(* ===================================================================== *)
(** * Order-book builder: placing one ob-order *)
(* ===================================================================== *)

Module Placement.

Import Js.
Import OrderBookBuilder.

(** An entry of one side of the order book. *)
Record Entry : Type := {
  price : number;
  amount : number
}.

Record OrderBook : Type := {
  bids : list Entry;
  asks : list Entry
}.

(** [self.findIndex(f)], [None] for [-1] *)
Fixpoint findIndex (f : Entry -> bool) (self : list Entry) : option nat :=
  match self with
  | [] => None
  | o :: r => if f o then Some 0%nat else option_map S (findIndex f r)
  end.

(** [list.filter((order, index) => keep index order)] on the part of the
    list that starts at [index] *)
Fixpoint filter_from (keep : nat -> Entry -> bool) (index : nat)
    (l : list Entry) : list Entry :=
  match l with
  | [] => []
  | order :: r =>
      if keep index order then order :: filter_from keep (S index) r
      else filter_from keep (S index) r
  end.

(** [index === self.findIndex((o) => o.price === order.price)] *)
Definition first_with_price (self : list Entry) (index : nat) (order : Entry)
  : bool :=
  match findIndex (fun o => Js.eq (price o) (price order)) self with
  | Some i => (index =? i)%nat
  | None => false
  end.

(** The removal of duplicates by price in [placeOrderBookOrder] *)
Definition dedupe (orderList : list Entry) : list Entry :=
  filter_from (first_with_price orderList) 0 orderList.

(** [Math.min(a, b)] *)
Definition Math_min (a b : number) : number :=
  match a, b with
  | NaN, _ | _, NaN => NaN
  | _, _ => if lt b a then b else a
  end.

(** [list[i]] for a number [i]: an entry when [i] is a whole number within
    the list, [undefined] otherwise. *)
Definition at_index (l : list Entry) (i : number) : option Entry :=
  match i with
  | Num q =>
      if Qeq_bool q (inject_Z (Qfloor q)) && (0 <=? Qfloor q)%Z
      then nth_error l (Z.to_nat (Qfloor q))
      else None
  | _ => None
  end.

(** [list[i]?.price] *)
Definition price_at (l : list Entry) (i : number) : number :=
  match at_index l i with
  | Some e => price e
  | None => NaN
  end.

(** The state of the price watcher, as its getters report it. *)
Record PriceWatcher : Type := {
  getIsPriceWatcherEnabled : bool;
  getIsPriceAnomaly : bool;
  getIsPriceActual : bool;
  getIgnorePriceNotActual : bool;
  getLowPrice : number;
  getHighPrice : number
}.

(** An entry of the balances: [code], [free] and [freezed]. *)
Record Funds : Type := {
  code : string;
  free : number;
  freezed : number
}.

(** What the builder takes from outside its module.  [randomValue] stands
    for [utils.randomValue(low, high, doRound)], by the index of the call
    within one placement. *)
Record Builder : Type := {
  getOrderBookCached : option OrderBook;
  randomValue : nat -> number -> number -> bool -> number;
  precision : number;             (* utils.getPrecision(coin2Decimals) *)
  pw : PriceWatcher;
  mm_orderBookHeight : number;    (* tradeParams.mm_orderBookHeight *)
  getBalancesCached : option (list Funds);
  placeOrder : side -> number -> number -> option string;
    (* traderapi.placeOrder(type, pair, price, coin1Amount, 1, null): the
       order id when one came back *)
  setLifeTime : number -> Z;
  unixTimeStampMs : Z
}.

(** [setPosition(orderCount)] *)
Definition setPosition (B : Builder) (orderCount : nat) : number :=
  let maxPosition := Math_min (num_of_nat orderCount) (mm_orderBookHeight B) in
  randomValue B 0 (Num 2) maxPosition true.

(** What [setPrice] gives its caller: an object with a price, which may be
    unset, or nothing when its [catch] took over. *)
Inductive PriceReq : Type :=
| Thrown
| Req (price : number).

(** The prices [low] and [high] that [setPrice] reads from the neighbours
    at [position]; [None] when reading [.price] of [undefined] throws. *)
Definition neighbours (type : option side) (position : number)
    (orderList : list Entry) : option (number * number) :=
  let position :=
    if lt (num_of_nat (List.length orderList)) position
    then num_of_nat (List.length orderList) else position in
  match at_index orderList (sub position (Num 2)),
        at_index orderList (sub position (Num 1)) with
  | Some near, Some far =>
      match type with
      | Some sell => Some (price near, price far)
      | _ => Some (price far, price near)
      end
  | _, _ => None
  end.

(** The two [if]s that move [low] and [high] towards each other by the
    precision where there is room.  The sum and the difference are exact
    here; the engine rounds them, and a precision that is small against the
    prices may leave a bound where it was. *)
Definition adjust (precision low high : number) : number * number :=
  let low := if lt (add low precision) high then add low precision else low in
  let high := if gt (sub high precision) low then sub high precision else high in
  (low, high).

(** The bounds between which [setPrice] first draws the price. *)
Definition price_bounds (B : Builder) (type : option side) (position : number)
    (orderList : list Entry) : option (number * number) :=
  match neighbours type position orderList with
  | Some (low, high) => Some (adjust (precision B) low high)
  | None => None
  end.

(** [setPrice(type, position, orderList)] *)
Definition setPrice (B : Builder) (type : option side) (position : number)
    (orderList : list Entry) : PriceReq :=
  match price_bounds B type position orderList with
  | None => Thrown
  | Some (low, high) =>
      let price := randomValue B 1 low high false in
      let w := pw B in
      let skip :=
        getIsPriceWatcherEnabled w
        && (getIsPriceAnomaly w
            || (negb (getIsPriceActual w) && negb (getIgnorePriceNotActual w))) in
      if skip then Req NaN
      else
        let actual :=
          getIsPriceWatcherEnabled w && negb (getIsPriceAnomaly w)
          && getIsPriceActual w in
        let pwLowPrice := if actual then getLowPrice w else NaN in
        let pwHighPrice := if actual then getHighPrice w else NaN in
        let visible := price_at orderList (mm_orderBookHeight B) in
        match type with
        | Some sell =>
            if truthy pwLowPrice && lt price pwLowPrice then
              if lt pwLowPrice visible
              then Req (randomValue B 2 pwLowPrice visible false)
              else Req (randomValue B 2 pwLowPrice
                          (mul visible (Num (105 # 100))) false)
            else Req price
        | _ =>
            if truthy pwHighPrice && gt price pwHighPrice then
              if lt visible pwHighPrice
              then Req (randomValue B 2 visible pwHighPrice false)
              else Req (randomValue B 2 (mul pwHighPrice (Num (95 # 100)))
                          pwHighPrice false)
            else Req price
        end
  end.

(** The bounds between which [setAmount] draws the amount; [None] is the
    [false] it returns when a bound is unset.  The products and the
    quotient are exact here; the engine rounds them. *)
Definition amount_bounds (tp : Settings.TradeParams) : option (number * number) :=
  if falsy (Settings.mm_maxAmount tp) || falsy (Settings.mm_minAmount tp)
  then None
  else
    let min := Settings.mm_minAmount tp in
    let max := Settings.mm_maxAmount tp in
    let max :=
      if truthy (Settings.mm_orderBookMaxOrderPercent tp) then
        let max :=
          div (mul max (Settings.mm_orderBookMaxOrderPercent tp)) (Num 100) in
        if le max min then mul min (Num (11 # 10)) else max
      else max in
    Some (min, max).

(** [setAmount()] *)
Definition setAmount (B : Builder) (tp : Settings.TradeParams) : option number :=
  match amount_bounds tp with
  | None => None
  | Some (min, max) => Some (randomValue B 3 min max false)
  end.

(** [balances.filter((crypto) => crypto.code === coin)[0]?.field || 0] *)
Definition funds_of (field : Funds -> number) (balances : list Funds)
    (coin : string) : number :=
  match filter (fun crypto => String.eqb (code crypto) coin) balances with
  | b :: _ => if falsy (field b) then Num 0 else field b
  | [] => Num 0
  end.

Definition is_side (s : side) (type : option side) : bool :=
  match type with
  | Some t => Collector.side_eqb t s
  | None => false
  end.

Definition side_name (type : option side) : string :=
  match type with
  | Some buy => "buy"
  | Some sell => "sell"
  | None => "false"
  end.

(** [isEnoughCoins(coin1, coin2, amount1, amount2, type)]: [result] and
    [message]; an unset message is the empty string, which is falsy as
    well. *)
Definition isEnoughCoins (E : CommandTxs.Env) (B : Builder)
    (coin1 coin2 : string) (amount1 amount2 : number) (type : option side)
  : bool * string :=
  match getBalancesCached B with
  | Some balances =>
      let balance1free := funds_of free balances coin1 in
      let balance2free := funds_of free balances coin2 in
      let balance1freezed := funds_of freezed balances coin1 in
      let balance2freezed := funds_of freezed balances coin2 in
      let pairObj := CommandTxs.parseMarket E (CommandTxs.config_pair E) in
      let text (amount balance frozen : number) (coin : string) (decimals : nat) :=
        ("Not enough balance to place " ++ CommandTxs.toFixed E amount decimals
         ++ " " ++ coin ++ " " ++ side_name type ++ " ob-order. Free: "
         ++ CommandTxs.toFixed E balance decimals ++ " " ++ coin ++ ", frozen: "
         ++ CommandTxs.toFixed E frozen decimals ++ " " ++ coin ++ ".")%string in
      let short1 :=
        (falsy balance1free || lt balance1free amount1) && is_side sell type in
      let short2 :=
        (falsy balance2free || lt balance2free amount2) && is_side buy type in
      let output :=
        if short2
        then text amount2 balance2free balance2freezed coin2
               (CommandTxs.m_coin2Decimals pairObj)
        else if short1
        then text amount1 balance1free balance1freezed coin1
               (CommandTxs.m_coin1Decimals pairObj)
        else "" in
      (negb (short1 || short2), output)
  | None => (false, "")
  end.

(** The row [placeOrderBookOrder] saves to the orders database. *)
Record SavedOrder : Type := {
  row : Collector.Order;
  date : Z;
  dateTill : Z;
  coin1Amount : number;
  coin2Amount : number
}.

(** What one call of [placeOrderBookOrder] did: the order it sent to the
    exchange, if it came that far, and the row it saved, if an order id came
    back.  It returns [true] exactly when it saved a row. *)
Record Attempt : Type := {
  sent : option (side * number * number); (* type, price, coin1Amount *)
  saved : option SavedOrder
}.

Definition nothing_done : Attempt := {| sent := None; saved := None |}.

Definition returned_true (a : Attempt) : bool :=
  match saved a with Some _ => true | None => false end.

(** [placeOrderBookOrder(orderBookOrdersCount)]; [rnd] is the value of
    [Math.random()] in [setType]. *)
Definition placeOrderBookOrder (E : CommandTxs.Env) (K : Settings.Consts)
    (B : Builder) (tp : Settings.TradeParams) (rnd : Q) : Attempt :=
  let type := setType (Settings.builder_view K tp) rnd in
  match getOrderBookCached B with
  | None => nothing_done
  | Some orderBook =>
      match asks orderBook, bids orderBook with
      | [], _ | _, [] => nothing_done
      | _, _ =>
          let orderList :=
            dedupe (if is_side buy type then bids orderBook
                    else asks orderBook) in
          match orderList with
          | [] | [_] => nothing_done
          | _ =>
              let position := setPosition B (List.length orderList) in
              match setPrice B type position orderList with
              | Thrown => nothing_done (* reading [priceReq.price] throws *)
              | Req price =>
                  let coin1Amount :=
                    match setAmount B tp with
                    | Some a => a
                    | None => Num 0 (* [false] in a product *)
                    end in
                  let coin2Amount := mul coin1Amount price in
                  let lifeTime := setLifeTime B position in
                  match type with
                  | None => nothing_done
                  | Some side =>
                      if falsy price || falsy coin1Amount || falsy coin2Amount
                      then nothing_done
                      else if negb (fst (isEnoughCoins E B
                                           (CommandTxs.config_coin1 E)
                                           (CommandTxs.config_coin2 E)
                                           coin1Amount coin2Amount type))
                      then nothing_done
                      else
                        let request := Some (side, price, coin1Amount) in
                        match placeOrder B side price coin1Amount with
                        | Some orderId =>
                            {| sent := request;
                               saved := Some {|
                                 row := {|
                                   Collector._id := orderId;
                                   Collector.purpose := "ob";
                                   Collector.pair := CommandTxs.config_pair E;
                                   Collector.type := side;
                                   Collector.price := price;
                                   Collector.isProcessed := false |};
                                 date := unixTimeStampMs B;
                                 dateTill := unixTimeStampMs B + lifeTime;
                                 coin1Amount := coin1Amount;
                                 coin2Amount := coin2Amount |} |}
                        | None => {| sent := request; saved := None |}
                        end
                  end
              end
          end
      end
  end.

(** The placement function [buildOrderBook] runs in its loop, with the
    builder's surroundings and the draw of [setType] given for each
    attempt. *)
Definition placements (E : CommandTxs.Env) (K : Settings.Consts)
    (tp : Settings.TradeParams) (surroundings : nat -> Builder * Q)
    (attempt count : nat) : bool :=
  let '(B, rnd) := surroundings attempt in
  returned_true (placeOrderBookOrder E K B tp rnd).

(** An order book with a repeated price on either side, a price watcher
    that is switched off, and surroundings in which every draw of
    [randomValue] gives the lower bound and the exchange accepts the
    order. *)
Definition example_book : OrderBook :=
  {| bids := [ {| price := Num 1; amount := Num 10 |};
               {| price := Num (98 # 100); amount := Num 5 |};
               {| price := Num (98 # 100); amount := Num 7 |};
               {| price := Num (95 # 100); amount := Num 3 |} ];
     asks := [ {| price := Num (102 # 100); amount := Num 4 |};
               {| price := Num (105 # 100); amount := Num 6 |};
               {| price := Num (105 # 100); amount := Num 1 |};
               {| price := Num (110 # 100); amount := Num 9 |} ] |}.

Definition quiet_watcher : PriceWatcher :=
  {| getIsPriceWatcherEnabled := false;
     getIsPriceAnomaly := false;
     getIsPriceActual := false;
     getIgnorePriceNotActual := false;
     getLowPrice := NaN;
     getHighPrice := NaN |}.

Definition example_builder : Builder :=
  {| getOrderBookCached := Some example_book;
     randomValue := fun _ low _ _ => low;
     precision := Num (1 # 100);
     pw := quiet_watcher;
     mm_orderBookHeight := Num 25;
     getBalancesCached :=
       Some [ {| code := "ADM"; free := Num 1000; freezed := Num 0 |};
              {| code := "USDT"; free := Num 500; freezed := Num 20 |} ];
     placeOrder := fun _ _ _ => Some "ob-4";
     setLifeTime := fun _ => 15000%Z;
     unixTimeStampMs := 1700000000000%Z |}.

End Placement.

(* ===================================================================== *)
(** * The API clients under the adapters *)
(* ===================================================================== *)

Module ApiClient.

Import Js.
Import Trader.

(** The [data] of the response or error that axios hands to
    [handleResponse]. *)
Inductive Data (O : Type) : Type :=
| DUndefined          (* no response: a timeout or a network failure *)
| DNull
| DPrimitive          (* a string, a number or a boolean *)
| DObject (o : O).
Arguments DUndefined {O}.
Arguments DNull {O}.
Arguments DPrimitive {O}.
Arguments DObject {O} o.

(** What becomes of the promise of a request. *)
Inductive Outcome (R : Type) : Type :=
| Resolves (v : R)
| Rejects
| Pending.            (* neither [resolve] nor [reject] is called *)
Arguments Resolves {R} v.
Arguments Rejects {R}.
Arguments Pending {R}.

(** [axios(httpOptions).then(handleResponse).catch(handleResponse)] inside
    [new Promise]: [handle] is [handleResponse] on the status and the data it
    reads from its first argument, [None] when it throws; [fulfilled] tells
    whether axios fulfilled.  A throw in the [then] callback brings the
    [TypeError] to the [catch] callback, which reads neither a status nor
    data from it. *)
Definition settle {D R : Type}
    (handle : option Z -> Data D -> option (Outcome R))
    (fulfilled : bool) (httpCode : option Z) (data : Data D) : Outcome R :=
  match handle httpCode data with
  | Some outcome => outcome
  | None =>
      if fulfilled then
        match handle None DUndefined with
        | Some outcome => outcome
        | None => Pending
        end
      else Pending
  end.

Definition is_200 (httpCode : option Z) : bool :=
  match httpCode with
  | Some c => (c =? 200)%Z
  | None => false
  end.

(** What the adapter's [await] gives for the value a client resolved with:
    reading a field of [null] throws as it does for [undefined], and every
    field of a primitive is absent. *)
Definition awaited {R : Type} (blank : R) (o : Outcome (Data R))
  : option (ApiResult R) :=
  match o with
  | Resolves DUndefined | Resolves DNull => Some ResolvedNothing
  | Resolves DPrimitive => Some (Resolved blank)
  | Resolves (DObject r) => Some (Resolved r)
  | Rejects => Some Rejected
  | Pending => None
  end.

(** ** Bitqik *)

Module BitqikApi.

(** [handleResponse]: with a status other than 200 the [else] branch ends
    in [reject], also when the assignment to a field of [null] throws. *)
Definition handleResponse (httpCode : option Z) (data : Data Bitqik.Reply)
  : option (Outcome (Data Bitqik.Reply)) :=
  let success := is_200 httpCode in
  if success then Some (Resolves data)
  else
    if is_200 httpCode then Some (Resolves data)
    else Some Rejects.

Definition protectedRequest : bool -> option Z -> Data Bitqik.Reply ->
                              Outcome (Data Bitqik.Reply) :=
  settle handleResponse.

(** A primitive read as a reply: every field is absent. *)
Definition blank : Bitqik.Reply :=
  {| Bitqik.bitqikErrorInfo := None; Bitqik.orderID := None;
     Bitqik.o_price := None; Bitqik.o_side := None;
     Bitqik.o_orderType := None; Bitqik.o_size := None;
     Bitqik.o_orderValue := None; Bitqik.o_filledSize := None;
     Bitqik.o_timestamp := None; Bitqik.o_status := None |}.

(** [getOrderDetails] of the adapter on the answer to the client's
    [getOrder]; the outer [None] when the promise stays pending. *)
Definition getOrderDetails (orderId : string) (fulfilled : bool)
    (httpCode : option Z) (data : Data Bitqik.Reply)
  : option (option OrderDetails) :=
  option_map (Bitqik.getOrderDetails orderId)
    (awaited blank (protectedRequest fulfilled httpCode data)).

End BitqikApi.

(** ** DexTrade *)

Module DexTradeApi.

(** The object at [data.data] of an answer, with the fields read from it:
    its own [dextradeErrorInfo] and [data] when the client resolves with it,
    the fields of an order when the client resolves with the whole body. *)
Record Payload : Type := {
  p_errorInfo : option string;
  p_data : option DexTrade.OrderData;
  p_order : DexTrade.OrderData
}.

(** The body of an answer: [b_error] is the text of [error.code] and
    [error.msg] between which [handleResponse] puts a bracket, and
    [b_dextradeErrorInfo] a [dextradeErrorInfo] the body came with. *)
Record Body : Type := {
  b_code : option number;
  b_error : string;
  b_dextradeErrorInfo : option string;
  b_data : Data Payload
}.

Definition errorInfo (b : Body) : string := ("[" ++ b_error b)%string.

(** The body after [data.dextradeErrorInfo = dextradeErrorInfo], as the
    adapter reads it. *)
Definition marked (b : Body) : DexTrade.Reply :=
  {| DexTrade.dextradeErrorInfo := Some (errorInfo b);
     DexTrade.data :=
       match b_data b with
       | DObject p => Some (p_order p)
       | _ => None
       end |}.

(** [data.data] as the adapter reads it. *)
Definition payload (d : Data Payload) : Data DexTrade.Reply :=
  match d with
  | DUndefined => DUndefined
  | DNull => DNull
  | DPrimitive => DPrimitive
  | DObject p =>
      DObject {| DexTrade.dextradeErrorInfo := p_errorInfo p;
                 DexTrade.data := p_data p |}
  end.

(** [handleResponse]; [None] when reading [data.code] throws. *)
Definition handleResponse (httpCode : option Z) (data : Data Body)
  : option (Outcome (Data DexTrade.Reply)) :=
  if is_200 httpCode then
    match data with
    | DUndefined | DNull => None
    | DPrimitive => Some (Resolves DPrimitive)
    | DObject b =>
        if Js.eq (plus (b_code b)) (Num 0)
        then Some (Resolves (payload (b_data b)))
        else Some (Resolves (DObject (marked b)))
    end
  else Some Rejects.

Definition protectedRequest : bool -> option Z -> Data Body ->
                              Outcome (Data DexTrade.Reply) :=
  settle handleResponse.

Definition blank_order : DexTrade.OrderData :=
  {| DexTrade.id := None; DexTrade.o_volume := None;
     DexTrade.o_volume_done := None; DexTrade.o_rate := None;
     DexTrade.o_price := None; DexTrade.o_price_done := None;
     DexTrade.o_type := None; DexTrade.o_type_trade := None;
     DexTrade.o_time_create := None; DexTrade.o_time_done := None |}.

Definition blank : DexTrade.Reply :=
  {| DexTrade.dextradeErrorInfo := None; DexTrade.data := None |}.

Definition getOrderDetails (orderId : string) (fulfilled : bool)
    (httpCode : option Z) (data : Data Body)
  : option (option OrderDetails) :=
  option_map (DexTrade.getOrderDetails orderId)
    (awaited blank (protectedRequest fulfilled httpCode data)).

(** An answer with status 200 that has no [code]: [{ status: true, data:
    { id: 7, ... } }]. *)
Definition body_without_code : Body :=
  {| b_code := None;
     b_error := "No error code] No error message";
     b_dextradeErrorInfo := None;
     b_data := DObject {|
       p_errorInfo := None;
       p_data := None;
       p_order := {| DexTrade.id := Some "7";
                     DexTrade.o_volume := Some (Num 2);
                     DexTrade.o_volume_done := Some (Num 0);
                     DexTrade.o_rate := Some (Num 100);
                     DexTrade.o_price := Some (Num 200);
                     DexTrade.o_price_done := Some (Num 0);
                     DexTrade.o_type := Some 0%Z;
                     DexTrade.o_type_trade := Some 0%Z;
                     DexTrade.o_time_create := Some (Num 1700000000);
                     DexTrade.o_time_done := None |} |} |}.

(** The older copy of the client in the same file names its mark
    [coinstoreErrorInfo], which the adapter does not read: the adapter sees
    the body with the [dextradeErrorInfo] it came with. *)
Module Older.

Definition unmarked (b : Body) : DexTrade.Reply :=
  {| DexTrade.dextradeErrorInfo := b_dextradeErrorInfo b;
     DexTrade.data :=
       match b_data b with
       | DObject p => Some (p_order p)
       | _ => None
       end |}.

(** [handleResponse]; [None] when reading [data.code] throws. *)
Definition handleResponse (httpCode : option Z) (data : Data Body)
  : option (Outcome (Data DexTrade.Reply)) :=
  if is_200 httpCode then
    match data with
    | DUndefined | DNull => None
    | DPrimitive => Some (Resolves DPrimitive)
    | DObject b =>
        if Js.eq (plus (b_code b)) (Num 0)
        then Some (Resolves (payload (b_data b)))
        else Some (Resolves (DObject (unmarked b)))
    end
  else Some Rejects.

Definition protectedRequest : bool -> option Z -> Data Body ->
                              Outcome (Data DexTrade.Reply) :=
  settle handleResponse.

Definition getOrderDetails (orderId : string) (fulfilled : bool)
    (httpCode : option Z) (data : Data Body)
  : option (option OrderDetails) :=
  option_map (DexTrade.getOrderDetails orderId)
    (awaited blank (protectedRequest fulfilled httpCode data)).

End Older.

End DexTradeApi.

(** ** Bitkub *)

Module BitkubApi.

(** The body of an answer, as [handleResponse] reads and writes it. *)
Record Body : Type := {
  b_error : option number;
  bitkubErrorInfo : option string
}.

Definition mark (info : string) (b : Body) : Body :=
  {| b_error := b_error b; bitkubErrorInfo := Some info |}.

(** [handleResponse]; [info] is the text it builds from [error.code] and
    [error.msg]; [None] when reading [data.error] throws. *)
Definition handleResponse (info : string) (httpCode : option Z)
    (data : Data Body) : option (Outcome (Data Body)) :=
  if is_200 httpCode then
    match data with
    | DUndefined | DNull => None
    | DPrimitive => Some (Resolves DPrimitive)
    | DObject b =>
        if Js.eq (plus (b_error b)) (Num 0)
        then Some (Resolves (DObject b))
        else Some (Resolves (DObject (mark info b)))
    end
  else Some Rejects.

Definition protectedRequest (info : string)
  : bool -> option Z -> Data Body -> Outcome (Data Body) :=
  settle (handleResponse info).

End BitkubApi.

End ApiClient.

(* ===================================================================== *)
(** * Manual orders: [buy] and [sell] *)
(* ===================================================================== *)

Module Manual.

Import Js.
Import OrderBookBuilder.
Import CommandTxs.

(** What [buy] and [sell] take from outside the router besides [Env]: the
    features of the trading API, the message of the result of
    [orderUtils.addGeneralOrder] ([None] when it returns [undefined]), and a
    helper. *)
Record Exchange : Type := {
  placeMarketOrder : bool;
  allowAmountForMarketBuy : bool;
  amountForMarketOrderNecessary : bool;
  isSecondAccount : bool;
  orderMessage : PlaceRequest -> option string;
  numbersDifferencePercentDirectNegative : number -> number -> number
}.

(** The value of [price]: the string ['market'] or a number. *)
Inductive Price : Type :=
| MarketPrice
| LimitPrice (p : number).

(** The variables the loop of [getBuySellParams] assigns; [NaN] is "not
    set". *)
Record Vars : Type := {
  v_amount : number;
  v_quote : number;
  v_price : Price
}.

Definition vars_init : Vars :=
  {| v_amount := NaN; v_quote := NaN; v_price := MarketPrice |}.

(** [param.split('=')[1].trim()]; [None] when [trim] is called on
    [undefined] and throws. *)
Definition value_text (param : string) : option string :=
  match split "="%char param with
  | _ :: v :: _ => Some (trim v)
  | _ => None
  end.

(** One [if] of the callback's [try] block; the flag says an earlier
    statement of the block has thrown. *)
Definition assign_if (param prefix : string) (assign : string -> Vars -> Vars)
    (acc : Vars * bool) : Vars * bool :=
  let '(v, thrown) := acc in
  if thrown then acc
  else if startsWith param prefix then
    match value_text param with
    | Some text => (assign text v, false)
    | None => (v, true)
    end
  else acc.

(** The callback of [params.forEach]: what its [catch] returns is the value
    of the callback, which [forEach] drops. *)
Definition read_param (E : Env) (v : Vars) (param : string) : Vars :=
  let acc := (v, false) in
  let acc := assign_if param "quote"
    (fun text v => {| v_amount := v_amount v; v_quote := toNumber E text;
                      v_price := v_price v |}) acc in
  let acc := assign_if param "amount"
    (fun text v => {| v_amount := toNumber E text; v_quote := v_quote v;
                      v_price := v_price v |}) acc in
  let acc := assign_if param "price"
    (fun text v => {| v_amount := v_amount v; v_quote := v_quote v;
                      v_price := if String.eqb (toLowerCase text) "market"
                                 then MarketPrice
                                 else LimitPrice (toNumber E text) |})
    acc in
  fst acc.

Definition read_params (E : Env) (params : list string) : Vars :=
  fold_left (read_param E) params vars_init.

Definition is_market (p : Price) : bool :=
  match p with MarketPrice => true | LimitPrice _ => false end.

(** [price] in arithmetic: the string ['market'] is [NaN] there. *)
Definition price_number (p : Price) : number :=
  match p with MarketPrice => NaN | LimitPrice x => x end.

Definition price_text (E : Env) (p : Price) : string :=
  match p with MarketPrice => "market" | LimitPrice x => fmt E x end.

Definition type_name (type : side) : string :=
  match type with buy => "buy" | sell => "sell" end.

Definition usage : string :=
  "Command works like this: */sell ADM/BTC amount=200 price=market*.".

(** [!x || x === Infinity || x <= 0] *)
Definition not_positive (x : number) : bool :=
  falsy x || Js.eq x PInf || le x (Num 0).

(** What [getBuySellParams] hands to [buy_sell] when it returns no
    message. *)
Record Ready : Type := {
  amount : number;
  price : Price;
  quote : number;
  pairObj : Market
}.

(** [Math.abs(x)] *)
Definition Math_abs (x : number) : number :=
  match x with
  | Num q => Num (if Qlt_bool q 0 then - q else q)
  | NInf => PInf
  | other => other
  end.

(** [getBuySellParams(params, type)]; [now] is [Date.now()]. *)
Definition getBuySellParams (E : Env) (X : Exchange) (now : Z)
    (params : list string) (type : side) (w : World)
  : (CommandResult + Ready) * World :=
  let isConfirmed :=
    existsb (fun param => String.eqb (toLowerCase param) "-y") params in
  let v := read_params E params in
  let amount := v_amount v in
  let quote := v_quote v in
  let price := v_price v in
  if (List.length params <? 1)%nat then
    (inl (reply ("Wrong arguments. " ++ usage)%string), w)
  else if (truthy quote && truthy amount) || (falsy quote && falsy amount) then
    (inl (reply "You should specify amount _or_ quote, and not both of them."), w)
  else
    let amountOrQuote := if truthy quote then quote else amount in
    if (negb (is_market price) && not_positive (price_number price))
       || not_positive amountOrQuote
    then
      (inl (reply ("Incorrect params: " ++ fmt E amountOrQuote ++ ", "
                   ++ price_text E price ++ ". " ++ usage)%string), w)
    else if is_market price && negb (placeMarketOrder X) then
      (inl (reply ("Placing Market orders on " ++ config_exchangeName E
                   ++ " via API is not supported.")%string), w)
    else if is_market price && negb (allowAmountForMarketBuy X)
            && (match type with
                | buy => falsy quote
                | sell => falsy amount
                end)
    then
      (inl (reply ("When placing Market order, buy should follow with _quote_, sell with _amount_. "
                   ++ usage)%string), w)
    else if is_market price && amountForMarketOrderNecessary X && falsy amount
    then
      (inl (reply ("When placing Market order on " ++ config_exchangeName E
                   ++ ", _amount_ is necessary. " ++ usage)%string), w)
    else
      let pair :=
        match params with
        | p :: _ => if String.eqb p "" || negb (contains_char "/" p)
                    then config_pair E else p
        | [] => config_pair E
        end in
      let pairObj := parseMarket E pair in
      let totalUSD :=
        if truthy amount
        then convertCryptos E (m_coin1 pairObj) "USD" amount
        else convertCryptos E (m_coin2 pairObj) "USD" quote in
      if truthy (amount_to_confirm_usd E) && truthy totalUSD
         && ge totalUSD (amount_to_confirm_usd E) && negb isConfirmed
      then
        let w :=
          setPendingConfirmation now
            ("/" ++ type_name type ++ " " ++ join params)%string w in
        let totalUSDstring := formatNumber E (toFixed E totalUSD 0) true in
        let amountCalculated :=
          if truthy amount then fmt E amount
          else toFixed E (convertCryptos E (m_coin2 pairObj) (m_coin1 pairObj)
                            quote) (m_coin1Decimals pairObj) in
        let sure :=
          ("Are you sure to " ++ type_name type ++ " ")%string in
        let msgSendBack :=
          match price with
          | MarketPrice =>
              if truthy amount
              then (sure ++ amountCalculated ++ " " ++ m_coin1 pairObj
                    ++ " (worth ~" ++ totalUSDstring
                    ++ " USD) at market price?")%string
              else (sure ++ m_coin1 pairObj ++ " worth ~" ++ totalUSDstring
                    ++ " USD at market price?")%string
          | LimitPrice p =>
              let marketPrice :=
                convertCryptos E (m_coin1 pairObj) (m_coin2 pairObj) (Num 1) in
              let priceDifference :=
                numbersDifferencePercentDirectNegative X marketPrice p in
              let warning :=
                if match type with
                   | buy => lt priceDifference (Num (-30))
                   | sell => gt priceDifference (Num 30)
                   end
                then (" **Warning: " ++ type_name type ++ " price is "
                      ++ toFixed E (Math_abs priceDifference) 0 ++ "% "
                      ++ (if gt marketPrice p then "less" else "greater")
                      ++ " than market**.")%string
                else "" in
              (sure ++ amountCalculated ++ " " ++ m_coin1 pairObj
               ++ " (worth ~" ++ totalUSDstring ++ " USD) at " ++ fmt E p
               ++ " " ++ m_coin2 pairObj ++ "?" ++ warning)%string
          end in
        (inl (reply (msgSendBack
                     ++ " Confirm with **/y** command or ignore.")%string), w)
      else
        (inr {| amount := amount; price := price; quote := quote;
                pairObj := pairObj |}, w).

(** The order [buy_sell] asks for; the [null] price of a market order is
    [NaN].  The amount it computes from the other amount and the price is
    the exact quotient or product here, which the engine rounds. *)
Definition request (type : side) (r : Ready) : PlaceRequest :=
  let p := price_number (price r) in
  let isMarketOrder := is_market (price r) in
  {| r_type := type_name type;
     r_pair := m_pair (pairObj r);
     r_price := if isMarketOrder then NaN else p;
     r_coin1Amount := if falsy (amount r) then div (quote r) p else amount r;
     r_limit := if isMarketOrder then 0 else 1;
     r_coin2Amount :=
       Some (if falsy (amount r) then quote r else mul (amount r) p);
     r_purpose := "man" |}.

Definition double_quote : string := String "034" "".

(** [buy_sell(params, type)] *)
Definition buy_sell (E : Env) (X : Exchange)
    (params : (CommandResult + Ready) * World) (type : side)
  : CommandResult * World :=
  match params with
  | (inl message, w) => (message, w)
  | (inr r, w) =>
      let req := request type r in
      let w := add_placement req w in
      match orderMessage X req with
      | Some message =>
          ({| msgNotify :=
                if addGeneralOrder E req
                then (config_notifyName E ++ ": " ++ message)%string else "";
              msgSendBack := message;
              notifyType := "log" |}, w)
      | None =>
          let onWhichAccount :=
            if isSecondAccount X then " (on second account)" else "" in
          let paramsInfo :=
            ("type=" ++ type_name type ++ ", amount=" ++ fmt E (r_coin1Amount req)
             ++ ", quote="
             ++ fmt E (match r_coin2Amount req with Some q => q | None => NaN end)
             ++ ", price=" ++ price_text E (price r) ++ ", pair="
             ++ double_quote ++ m_pair (pairObj r) ++ double_quote)%string in
          (reply ("Request to place an order" ++ onWhichAccount
                  ++ " with params [" ++ paramsInfo
                  ++ "] failed. It looks like an API temporary error. Try again.")%string,
           w)
      end
  end.

(** [buy(params)] and [sell(params)] *)
Definition command (E : Env) (X : Exchange) (now : Z) (type : side)
    (params : list string) (w : World) : CommandResult * World :=
  buy_sell E X (getBuySellParams E X now params type w) type.

(** The features of the DexTrade adapter, and an exchange that accepts
    every order. *)
Definition dextrade : Exchange :=
  {| placeMarketOrder := true;
     allowAmountForMarketBuy := false;
     amountForMarketOrderNecessary := false;
     isSecondAccount := false;
     orderMessage := fun _ => Some "Order placed.";
     numbersDifferencePercentDirectNegative := fun _ _ => Num 0 |}.

End Manual.

(* ===================================================================== *)
(** * The command processor of the router *)
(* ===================================================================== *)

Module Router.

Import Js.
Import CommandTxs.

(** [s.replace(/ {2,}/g, ' ')]: every run of spaces becomes one space;
    [seen] tells that the character before was a space. *)
Fixpoint collapse (seen : bool) (s : string) : string :=
  match s with
  | EmptyString => EmptyString
  | String c r =>
      if Ascii.eqb c " " then
        if seen then collapse true r else String c (collapse true r)
      else String c (collapse false r)
  end.

(** [s.replace('/', '')]: the first slash is taken out. *)
Fixpoint remove_first (c : ascii) (s : string) : string :=
  match s with
  | EmptyString => EmptyString
  | String d r => if Ascii.eqb d c then r else String d (remove_first c r)
  end.

(** [commandMsg.trim().replace(/ {2,}/g, ' ').split(' ')] *)
Definition words (commandMsg : string) : list string :=
  split " " (collapse false (trim commandMsg)).

(** [group.shift().trim().toLowerCase().replace('/', '')] and what is left
    of [group] *)
Definition parse (commandMsg : string) : string * list string :=
  let group := words commandMsg in
  (remove_first "/" (toLowerCase (trim (hd "" group))), tl group).

(** [aliases]; a missing first parameter reads [undefined] in the template
    of [rmpa] and [rmp]. *)
Definition remote_enable (option : string) (params : list string) : string :=
  ("/remote enable " ++ option ++ " " ++ join params ++ " {QUOTE_COIN} all")%string.

Definition remote_make_price (params : list string) : string :=
  ("/remote make price " ++ nth 0 params "undefined" ++ " {QUOTE_COIN} "
   ++ join (tl params) ++ " all")%string.

Definition aliases : list (string * (list string -> string)) :=
  [ ("rbalances", fun _ => "/remote balances all");
    ("rba", fun _ => "/remote balances all");
    ("rb", fun _ => "/remote balances all");
    ("roa", fun _ => "/remote orders all");
    ("ro", fun _ => "/remote orders all");
    ("rcua", fun _ => "/remote clear unk all");
    ("rcu", fun _ => "/remote clear unk all");
    ("epwa", remote_enable "pw");
    ("epw", remote_enable "pw");
    ("rmpa", remote_make_price);
    ("rmp", remote_make_price);
    ("rmpas", fun _ => "/remote make price stop all -y");
    ("rmps", fun _ => "/remote make price stop all -y");
    ("rspa", remote_enable "sp");
    ("rsp", remote_enable "sp");
    ("rstopy", fun _ => "/remote stop mm all -y");
    ("rstart", fun _ => "/remote start mm all") ].

(** [table[name]] on the own keys of an object *)
Definition lookup {A : Type} (table : list (string * A)) (name : string)
  : option A :=
  option_map snd (find (fun e => String.eqb (fst e) name) table).

(** The lower-case names every object inherits: [aliases[name]] is truthy
    for them, and calling it, or trimming what it returns, throws. *)
Definition inherited (name : string) : bool :=
  String.eqb name "constructor" || String.eqb name "__proto__".

(** The state the commands act on: the world of the order commands and the
    trade settings.  The configuration file, the notifications and the
    price watcher are outside of it. *)
Record State : Type := {
  world : World;
  tradeParams : Settings.TradeParams
}.

Definition Handler : Type := list string -> State -> CommandResult * State.

Definition on_world (f : World -> CommandResult * World) (st : State)
  : CommandResult * State :=
  let '(r, w) := f (world st) in
  (r, {| world := w; tradeParams := tradeParams st |}).

Definition on_settings
    (f : Settings.TradeParams -> CommandResult * Settings.TradeParams)
    (st : State) : CommandResult * State :=
  let '(r, tp) := f (tradeParams st) in
  (r, {| world := world st; tradeParams := tp |}).

(** What one run of the processor takes from outside: the clock, the draw
    of [Math.random()], the constants, the trading API, and the commands
    that are not embedded, by their key in [commands]. *)
Record Surroundings : Type := {
  now : Z;
  rnd : Q;
  consts : Settings.Consts;
  exchange : Manual.Exchange;
  enable_others :
    list string -> Settings.TradeParams -> CommandResult * Settings.TradeParams;
  others : string -> Handler
}.

(** [y] on the state: the command is run by [self], the processor that
    [y] re-enters. *)
Definition y_handler (X : Surroundings)
    (self : string -> string -> State -> CommandResult * State)
    (tx : string) : Handler :=
  fun _ st =>
    let run (cmd tx : string) (w : World) :=
      self cmd tx {| world := w; tradeParams := tradeParams st |} in
    let '(r, w, calls) :=
      y (fun cmd tx w => let '(r, st') := run cmd tx w in (r, world st'))
        (now X) tx (world st) in
    let tp :=
      match calls with
      | cmd :: _ => tradeParams (snd (run cmd tx (world st)))
      | [] => tradeParams st
      end in
    (r, {| world := w; tradeParams := tp |}).

(** [commands] *)
Definition commands (E : Env) (X : Surroundings)
    (self : string -> string -> State -> CommandResult * State)
    (tx : string) : list (string * Handler) :=
  let K := consts X in
  [ ("help", others X "help");
    ("rates", others X "rates");
    ("stats", others X "stats");
    ("pair", others X "pair");
    ("orders", others X "orders");
    ("calc", others X "calc");
    ("balances", others X "balances");
    ("account", others X "account");
    ("version", others X "version");
    ("start", fun params =>
       on_settings (fun tp => fst (Settings.start E K params tp)));
    ("stop", fun params => on_settings (Settings.stop E params));
    ("buypercent", fun params => on_settings (Settings.buypercent E params));
    ("amount", fun params => on_settings (Settings.amount E K params));
    ("interval", fun params => on_settings (Settings.interval E K params));
    ("clear", fun params => on_world (fun w => fst (clear E params w)));
    ("fill", fun params => on_world (fill E (now X) params));
    ("params", others X "params");
    ("buy", fun params =>
       on_world (Manual.command E (exchange X) (now X) OrderBookBuilder.buy
                   params));
    ("sell", fun params =>
       on_world (Manual.command E (exchange X) (now X) OrderBookBuilder.sell
                   params));
    ("enable", fun params =>
       on_settings (Settings.enable E (enable_others X) params));
    ("disable", fun params =>
       on_settings (fun tp => fst (Settings.disable E params tp)));
    ("deposit", others X "deposit");
    ("make", fun params => on_world (make E (now X) (rnd X) params));
    ("y", y_handler X self tx);
    ("volume", others X "volume");
    ("info", others X "info");
    ("saveConfig", others X "saveConfig") ].

(** [commandResult = {}]: nothing is set. *)
Definition blank_result : CommandResult :=
  {| msgNotify := ""; msgSendBack := ""; notifyType := "" |}.

Definition unknown_command (commandName : string) : CommandResult :=
  {| msgNotify := "";
     msgSendBack :=
       ("I don’t know */" ++ commandName
        ++ "* command. ℹ️ You can start with **/help**.")%string;
     notifyType := "" |}.

(** The exported command processor, [module.exports(commandMsg, tx, itx)];
    [self] is the processor a command re-enters.  When the function throws,
    its [catch] logs the error and the function returns the blank
    result. *)
Definition processCommand (E : Env) (X : Surroundings)
    (self : string -> string -> State -> CommandResult * State)
    (commandMsg tx : string) (st : State) : CommandResult * State :=
  let '(commandName, group) := parse commandMsg in
  if inherited commandName then (blank_result, st)
  else
    let '(commandName, group) :=
      match lookup aliases commandName with
      | Some alias => parse (alias group)
      | None => (commandName, group)
      end in
    match lookup (commands E X self tx) commandName with
    | Some command => command group st
    | None => (unknown_command commandName, st)
    end.

(** The names of the aliases. *)
Definition alias_names : list string := map fst aliases.

(** Balances that cover the pending [/fill] of [pending_fill_world], and
    the state in which that command waits for its confirmation. *)
Definition funded : list Balance :=
  [ {| code := "ADM"; free := Num 1000 |};
    {| code := "USDT"; free := Num 5000 |} ].

Definition pending_fill_state : State :=
  {| world := pending_fill_world; tradeParams := Settings.shipped |}.

(** A parameter as the processor hands it to a command: not empty and
    without a space. *)
Definition word (p : string) : Prop :=
  p <> "" /\ contains_char " " p = false.

(** Surroundings in which no other command does anything. *)
Definition quiet (t : Z) : Surroundings :=
  {| now := t; rnd := 1 # 2; consts := Settings.example_consts;
     exchange := Manual.dextrade;
     enable_others := fun _ tp => (reply "", tp);
     others := fun _ _ st => (reply "", st) |}.

End Router.

(* ===================================================================== *)
(** * DexTrade adapter: pair names *)
(* ===================================================================== *)

Module PairName.

Import Js.

(** [s.replace(c, '/')] with a string pattern: the first occurrence only. *)
Fixpoint replace_first (c : ascii) (s : string) : string :=
  match s with
  | EmptyString => EmptyString
  | String d r =>
      if Ascii.eqb d c then String "/" r else String d (replace_first c r)
  end.

(** A destructured piece inside a template: a missing one reads
    [undefined]. *)
Definition text_of (piece : option string) : string :=
  match piece with
  | Some s => s
  | None => "undefined"
  end.

Record Formatted : Type := {
  coin1 : option string;
  coin2 : option string;
  pair : string;
  pairReadable : string;
  pairPlain : string
}.

(** [formatPairName(pair)] *)
Definition formatPairName (pair : string) : Formatted :=
  let pair := toUpperCase pair in
  let pair :=
    if contains_char "-" pair then toUpperCase (replace_first "-" pair)
    else if contains_char "_" pair then toUpperCase (replace_first "_" pair)
    else pair in
  let pieces := split "/" pair in
  let coin1 := nth_error pieces 0 in
  let coin2 := nth_error pieces 1 in
  {| coin1 := coin1;
     coin2 := coin2;
     pair := (text_of coin1 ++ text_of coin2)%string;
     pairReadable := (text_of coin1 ++ "/" ++ text_of coin2)%string;
     pairPlain := (text_of coin1 ++ text_of coin2)%string |}.

(** The separators [formatPairName] knows. *)
Definition separators : list ascii := ["-"; "_"; "/"]%char.

(** A coin name without any of them. *)
Definition plain (coin : string) : Prop :=
  forall c, In c separators -> contains_char c coin = false.

End PairName.

(* ===================================================================== *)
(** * Theorems *)
(* ===================================================================== *)

Import Js.

Lemma Qlt_bool_iff (x y : Q) : Qlt_bool x y = true <-> x < y.
Proof.
  unfold Qlt_bool. rewrite negb_true_iff.
  split.
  - intros H. apply Qnot_le_lt. intros Hle.
    apply Qle_bool_iff in Hle. congruence.
  - intros H. destruct (Qle_bool y x) eqn:E; [|reflexivity].
    apply Qle_bool_iff in E. exfalso. apply (Qlt_not_le _ _ H E).
Qed.

Lemma lt_Num (x y : Q) : Js.lt (Num x) (Num y) = true <-> x < y.
Proof. apply Qlt_bool_iff. Qed.

Lemma lt_Num_false (x y : Q) : Js.lt (Num x) (Num y) = false <-> y <= x.
Proof.
  split; intros H.
  - apply Qnot_lt_le. intros Hlt. apply lt_Num in Hlt. congruence.
  - destruct (Js.lt (Num x) (Num y)) eqn:E; [|reflexivity].
    apply lt_Num in E. exfalso. apply (Qlt_not_le _ _ E H).
Qed.

Lemma falsy_Num (q : Q) : falsy (Num q) = true <-> q == 0.
Proof. simpl. apply Qeq_bool_iff. Qed.

Lemma falsy_Num_false (q : Q) : ~ q == 0 -> falsy (Num q) = false.
Proof.
  intros H. destruct (falsy (Num q)) eqn:E; [|reflexivity].
  apply falsy_Num in E. contradiction.
Qed.

(* --------------------------------------------------------------------- *)
(** ** Order-book builder: the side of an ob-order *)
(* --------------------------------------------------------------------- *)

Section SetType.

Import OrderBookBuilder.

Variable tp : TradeParams.
Variable p : Q.
Hypothesis buyPercent_set : mm_buyPercent tp = Num p.
Hypothesis buyPercent_range : 0 < p /\ p <= 1.

Lemma setType_buy_iff (rnd : Q) : setType tp rnd = Some buy <-> p < rnd.
Proof.
  unfold setType. rewrite buyPercent_set.
  rewrite falsy_Num_false by (intros E; lra).
  unfold gt. destruct (Js.lt (Num p) (Num rnd)) eqn:E.
  - apply lt_Num in E. tauto.
  - apply lt_Num_false in E. split; [discriminate | lra].
Qed.

Lemma setType_sell_iff (rnd : Q) : setType tp rnd = Some sell <-> rnd <= p.
Proof.
  unfold setType. rewrite buyPercent_set.
  rewrite falsy_Num_false by (intros E; lra).
  unfold gt. destruct (Js.lt (Num p) (Num rnd)) eqn:E.
  - apply lt_Num in E. split; [discriminate | lra].
  - apply lt_Num_false in E. tauto.
Qed.

End SetType.

(** C1 (as the code has it).  With [mm_buyPercent] set to [p] in (0, 1],
    [setType] answers [buy] exactly on the draws above [p], the open
    interval from [p] to 1, whose measure is [1 - p], and [sell] on every
    other draw: an ob-order is a buy with probability [1 - mm_buyPercent]. *)
Theorem setType_buy_region_measure :
  forall (tp : OrderBookBuilder.TradeParams) (p : Q),
    OrderBookBuilder.mm_buyPercent tp = Num p ->
    0 < p /\ p <= 1 ->
    let above := {| OrderBookBuilder.lo := p; OrderBookBuilder.hi := 1;
                    OrderBookBuilder.lo_closed := false;
                    OrderBookBuilder.hi_closed := false |} in
    OrderBookBuilder.buy_region tp above /\
    OrderBookBuilder.measure above == 1 - p /\
    forall rnd : Q, 0 <= rnd -> rnd < 1 ->
      (OrderBookBuilder.setType tp rnd = Some OrderBookBuilder.sell
       <-> ~ OrderBookBuilder.inside above rnd).
Proof.
  intros tp p Hp Hr above.
  assert (Hin : forall rnd, rnd < 1 ->
                  (OrderBookBuilder.inside above rnd <-> p < rnd)).
  { intros rnd H1. unfold OrderBookBuilder.inside. simpl. tauto. }
  split; [|split].
  - unfold OrderBookBuilder.buy_region. simpl.
    split; [lra|]. split; [lra|]. split; [lra|].
    intros rnd _ H1. rewrite (@setType_buy_iff tp p Hp Hr). symmetry. exact (Hin rnd H1).
  - unfold OrderBookBuilder.measure. simpl. lra.
  - intros rnd _ H1. rewrite (@setType_sell_iff tp p Hp Hr), (Hin rnd H1).
    split; intros H; lra.
Qed.

Lemma setType_buy_region_measure_witness :
  OrderBookBuilder.buy_region OrderBookBuilder.default_tradeParams
    {| OrderBookBuilder.lo := 67 # 100; OrderBookBuilder.hi := 1;
       OrderBookBuilder.lo_closed := false;
       OrderBookBuilder.hi_closed := false |}.
Proof.
  refine (proj1 (@setType_buy_region_measure
                   OrderBookBuilder.default_tradeParams (67 # 100) eq_refl _)).
  split; [reflexivity | discriminate].
Defined.

(** C1 (as stated) fails on the shipped settings, [mm_buyPercent = 0.67]: no
    sub-interval of measure 0.67 is the set of draws answered with [buy]. *)
Lemma setType_buy_region_counterexample :
  ~ exists i : OrderBookBuilder.Interval,
      OrderBookBuilder.buy_region OrderBookBuilder.default_tradeParams i /\
      OrderBookBuilder.measure i == 67 # 100.
Proof.
  intros [[l h lc hc] [[H0 [H1 [H2 H]]] Hm]].
  unfold OrderBookBuilder.measure in Hm. simpl in *.
  assert (Hhigh : OrderBookBuilder.inside
                    {| OrderBookBuilder.lo := l; OrderBookBuilder.hi := h;
                       OrderBookBuilder.lo_closed := lc;
                       OrderBookBuilder.hi_closed := hc |} (99 # 100)).
  { apply H; [lra | lra | reflexivity]. }
  assert (Hmid : OrderBookBuilder.setType OrderBookBuilder.default_tradeParams
                   (1 # 2) = Some OrderBookBuilder.buy).
  { apply H; [lra | lra |].
    unfold OrderBookBuilder.inside in *. simpl in *.
    destruct lc, hc; lra. }
  vm_compute in Hmid. discriminate.
Qed.

(* --------------------------------------------------------------------- *)
(** ** Order-book builder: the placement loop *)
(* --------------------------------------------------------------------- *)

Section PlacementLoop.

Import OrderBookBuilder.

Variable tp : TradeParams.
Variable placeOrderBookOrder : nat -> nat -> bool.

Let below (count : nat) : bool :=
  Js.lt (num_of_nat count) (mm_orderBookOrdersCount tp).

Lemma placed_cons (c : nat) (ok : bool) (calls : list (nat * bool)) :
  placed ((c, ok) :: calls) = ((if ok then 1 else 0) + placed calls)%nat.
Proof. unfold placed. simpl. destruct ok; reflexivity. Qed.

Lemma placement_loop_count (ordersToPlace : nat) :
  forall count attempt final calls,
    placement_loop tp placeOrderBookOrder ordersToPlace count attempt
      = (final, calls) ->
    final = (count + placed calls)%nat /\
    (List.length calls <= ordersToPlace)%nat /\
    Forall (fun c => below (fst c) = true) calls /\
    (placed calls = 0%nat \/ below (final - 1) = true) /\
    (below count = false -> calls = []).
Proof.
  induction ordersToPlace as [|k IH]; intros count attempt final calls H;
    cbn [placement_loop] in H.
  - injection H as <- <-. unfold placed. simpl. repeat split; auto with arith.
  - change (Js.lt (num_of_nat count) (mm_orderBookOrdersCount tp))
      with (below count) in H.
    destruct (below count) eqn:Hb.
    + destruct (placement_loop tp placeOrderBookOrder k
                  (if placeOrderBookOrder attempt count then S count else count)
                  (S attempt)) as [final' calls'] eqn:Hloop.
      injection H as <- <-.
      destruct (IH _ _ _ _ Hloop) as (Hf & Hlen & Hall & Hlast & _).
      rewrite placed_cons. repeat split.
      * destruct (placeOrderBookOrder attempt count); lia.
      * simpl. lia.
      * constructor; [exact Hb | exact Hall].
      * destruct (placeOrderBookOrder attempt count).
        -- right. destruct Hlast as [Hnone | Hlast]; [|exact Hlast].
           replace (final' - 1)%nat with count by lia. exact Hb.
        -- destruct Hlast as [Hnone | Hlast]; [left; simpl; exact Hnone | right; exact Hlast].
      * discriminate.
    + injection H as <- <-. unfold placed. simpl.
      repeat split; auto with arith.
Qed.

End PlacementLoop.

Lemma lt_num_of_nat (a b : nat) :
  Js.lt (OrderBookBuilder.num_of_nat a) (OrderBookBuilder.num_of_nat b) = true
  <-> (a < b)%nat.
Proof.
  unfold OrderBookBuilder.num_of_nat. rewrite lt_Num, <- Zlt_Qlt. lia.
Qed.

(** C3 (as the code has it).  A tick ends with the surviving count plus the
    orders it placed; it makes at most [ordersToPlace], hence at most 5,
    placement calls, each of them at a count below
    [mm_orderBookOrdersCount]; so the final count is the surviving count
    itself or exceeds no whole-numbered [mm_orderBookOrdersCount]. *)
Theorem buildOrderBook_count_bound :
  forall (tp : OrderBookBuilder.TradeParams) (now : Z)
         (clearOrderById : OrderBookBuilder.ObOrder -> OrderBookBuilder.Cancellation)
         (placeOrderBookOrder : nat -> nat -> bool)
         (ordersToPlace : nat) (orderBookOrders : list OrderBookBuilder.ObOrder)
         (final : nat) (calls : list (nat * bool)),
    (ordersToPlace <= OrderBookBuilder.MAX_ORDERS_PER_ITERATION)%nat ->
    OrderBookBuilder.buildOrderBook tp now clearOrderById placeOrderBookOrder
      ordersToPlace orderBookOrders = (final, calls) ->
    let surviving :=
      List.length (OrderBookBuilder.closeOrderBookOrders now clearOrderById
                     orderBookOrders) in
    let below (count : nat) :=
      Js.lt (OrderBookBuilder.num_of_nat count)
            (OrderBookBuilder.mm_orderBookOrdersCount tp) in
    final = (surviving + OrderBookBuilder.placed calls)%nat /\
    (OrderBookBuilder.placed calls <= List.length calls)%nat /\
    (List.length calls <= 5)%nat /\
    Forall (fun c => below (fst c) = true) calls /\
    (below surviving = false -> calls = [] /\ final = surviving) /\
    (final = surviving \/ below (final - 1)%nat = true) /\
    (forall m : nat,
        OrderBookBuilder.mm_orderBookOrdersCount tp = OrderBookBuilder.num_of_nat m ->
        (final <= Nat.max surviving m)%nat).
Proof.
  intros tp now clearOrderById place k orders final calls Hk Hrun surviving below.
  unfold OrderBookBuilder.buildOrderBook in Hrun.
  destruct (placement_loop_count tp place k _ _ Hrun)
    as (Hf & Hlen & Hall & Hlast & Hstop).
  fold surviving in Hf, Hstop.
  assert (Hpl : (OrderBookBuilder.placed calls <= List.length calls)%nat).
  { unfold OrderBookBuilder.placed. apply filter_length_le. }
  assert (Hcases : final = surviving \/ below (final - 1)%nat = true).
  { destruct Hlast as [Hnone | Hlast]; [left; lia | right; exact Hlast]. }
  unfold OrderBookBuilder.MAX_ORDERS_PER_ITERATION in Hk.
  repeat split; try assumption.
  - lia.
  - apply Hstop. assumption.
  - rewrite Hf, (Hstop H). unfold OrderBookBuilder.placed. simpl. lia.
  - intros m Hm. destruct Hcases as [-> | Hb]; [lia|].
    unfold below in Hb. rewrite Hm in Hb. apply lt_num_of_nat in Hb. lia.
Qed.

Lemma buildOrderBook_count_bound_witness :
  (5 <= Nat.max 3 20)%nat.
Proof.
  refine (proj2 (proj2 (proj2 (proj2 (proj2 (proj2
    (@buildOrderBook_count_bound OrderBookBuilder.default_tradeParams 0%Z
       (fun _ => OrderBookBuilder.CancelAnswer true) (fun _ _ => true) 2
       OrderBookBuilder.three_open_orders 5%nat [(3%nat, true); (4%nat, true)]
       _ _)))))) 20%nat _).
  - unfold OrderBookBuilder.MAX_ORDERS_PER_ITERATION. lia.
  - vm_compute. reflexivity.
  - vm_compute. reflexivity.
Defined.

(** C3 (as stated) fails when more ob-orders survive than the cap allows:
    after [/enable ob 2] with three ob-orders open and not yet due, the tick
    ends with three open ob-orders. *)
Lemma buildOrderBook_budget_counterexample :
  let final :=
    fst (OrderBookBuilder.buildOrderBook OrderBookBuilder.lowered_tradeParams 0%Z
           (fun _ => OrderBookBuilder.CancelAnswer true) (fun _ _ => true) 1
           OrderBookBuilder.three_open_orders) in
  final = 3%nat /\
  ~ Js.le (OrderBookBuilder.num_of_nat final)
          (OrderBookBuilder.mm_orderBookOrdersCount
             OrderBookBuilder.lowered_tradeParams) = true.
Proof.
  split; [reflexivity | vm_compute; discriminate].
Qed.

(* --------------------------------------------------------------------- *)
(** ** Order-book builder: the re-entrancy guard *)
(* --------------------------------------------------------------------- *)

Section Reentrancy.

Import OrderBookBuilder.

Lemma count_building_app (l r : list chain) :
  count_building (l ++ r) = (count_building l + count_building r)%nat.
Proof.
  unfold count_building. rewrite filter_app, length_app. reflexivity.
Qed.

Lemma count_building_start (l : list chain) :
  forall i, nth_error l i = Some Waiting ->
    count_building (set_chain i Building l) = S (count_building l).
Proof.
  induction l as [|c l IH]; intros [|i] H; simpl in H; try discriminate.
  - injection H as ->. reflexivity.
  - simpl. unfold count_building in *. simpl.
    destruct (is_building c); simpl; rewrite (IH i H); reflexivity.
Qed.

Lemma count_building_finish (l : list chain) :
  forall i, nth_error l i = Some Building ->
    S (count_building (set_chain i Waiting l)) = count_building l.
Proof.
  induction l as [|c l IH]; intros [|i] H; simpl in H; try discriminate.
  - injection H as ->. reflexivity.
  - simpl. unfold count_building in *. simpl.
    destruct (is_building c); simpl; rewrite <- (IH i H); reflexivity.
Qed.

Lemma enter_iteration_guarded (i : nat) (interval : Z) (tp : TradeParams)
    (s : Scheduler) :
  nth_error (chains s) i = Some Waiting ->
  guarded s -> guarded (enter_iteration i interval tp s).
Proof.
  intros Hi Hg. unfold enter_iteration.
  destruct (gate interval tp); [|exact Hg].
  destruct (isPreviousIterationFinished s) eqn:Hflag; [|exact Hg].
  right. split; [reflexivity|].
  destruct Hg as [[_ H0] | [Hf _]]; [|congruence].
  unfold in_flight in *. simpl.
  rewrite (@count_building_start (chains s) i Hi), H0. reflexivity.
Qed.

Lemma step_guarded (s s' : Scheduler) (e : event) :
  guarded s -> step s e = Some s' -> guarded s'.
Proof.
  intros Hg Hstep. destruct e as [interval tp | i interval tp | i]; simpl in Hstep.
  - injection Hstep as <-. apply enter_iteration_guarded.
    + simpl. rewrite nth_error_app2 by lia. rewrite Nat.sub_diag. reflexivity.
    + unfold guarded, in_flight in *. simpl.
      rewrite count_building_app.
      change (count_building [Waiting]) with 0%nat.
      rewrite !Nat.add_0_r. exact Hg.
  - destruct (nth_error (chains s) i) as [[|]|] eqn:Hi; try discriminate.
    injection Hstep as <-. apply enter_iteration_guarded; assumption.
  - destruct (nth_error (chains s) i) as [[|]|] eqn:Hi; try discriminate.
    injection Hstep as <-. left. split; [reflexivity|].
    unfold in_flight. simpl.
    pose proof (@count_building_finish (chains s) i Hi) as Hc.
    destruct Hg as [[_ H0] | [_ H1]]; unfold in_flight in *; lia.
Qed.

Lemma run_events_guarded (es : list event) :
  forall s s', guarded s -> run_events s es = Some s' -> guarded s'.
Proof.
  induction es as [|e es IH]; intros s s' Hg Hrun; simpl in Hrun.
  - injection Hrun as <-. exact Hg.
  - destruct (step s e) as [s1|] eqn:Hstep; [|discriminate].
    apply (IH s1 s'); [|exact Hrun]. exact (@step_guarded s s1 e Hg Hstep).
Qed.

Lemma scheduler_init_guarded : guarded scheduler_init.
Proof. left. split; reflexivity. Qed.

End Reentrancy.

(** C9.  In every state the builder's scheduler reaches, at most one
    [buildOrderBook] run is in flight, and the flag is down exactly while one
    is; a step starts a run only from a state with the flag up and no run in
    flight, and leaves the flag down; a timer firing while a run is in flight
    starts nothing and changes nothing. *)
Theorem iteration_never_overlaps :
  forall (es : list OrderBookBuilder.event) (s : OrderBookBuilder.Scheduler),
    OrderBookBuilder.run_events OrderBookBuilder.scheduler_init es = Some s ->
    (OrderBookBuilder.in_flight s <= 1)%nat /\
    (OrderBookBuilder.in_flight s = 1%nat
       <-> OrderBookBuilder.isPreviousIterationFinished s = false) /\
    (forall (e : OrderBookBuilder.event) (s' : OrderBookBuilder.Scheduler),
        OrderBookBuilder.step s e = Some s' ->
        (OrderBookBuilder.in_flight s < OrderBookBuilder.in_flight s')%nat ->
        OrderBookBuilder.isPreviousIterationFinished s = true /\
        OrderBookBuilder.in_flight s = 0%nat /\
        OrderBookBuilder.isPreviousIterationFinished s' = false /\
        OrderBookBuilder.in_flight s' = 1%nat) /\
    (forall (i : nat) (interval : Z) (tp : OrderBookBuilder.TradeParams)
            (s' : OrderBookBuilder.Scheduler),
        OrderBookBuilder.in_flight s = 1%nat ->
        OrderBookBuilder.step s (OrderBookBuilder.TimerFires i interval tp) = Some s' ->
        s' = s).
Proof.
  intros es s Hrun.
  pose proof (@run_events_guarded es _ s scheduler_init_guarded Hrun) as Hg.
  split; [|split; [|split]].
  - destruct Hg as [[_ H] | [_ H]]; lia.
  - destruct Hg as [[Hf H] | [Hf H]]; split; intros; try congruence; lia.
  - intros e s' Hstep Hlt.
    pose proof (@step_guarded s s' e Hg Hstep) as Hg'.
    destruct Hg as [[Hf H] | [Hf H]]; destruct Hg' as [[Hf' H'] | [Hf' H']];
      try lia; tauto.
  - intros i interval tp s' H1 Hstep. simpl in Hstep.
    destruct (nth_error (OrderBookBuilder.chains s) i) as [[|]|]; try discriminate.
    injection Hstep as <-. unfold OrderBookBuilder.enter_iteration.
    destruct Hg as [[_ H] | [Hf _]]; [lia|]. rewrite Hf.
    destruct (OrderBookBuilder.gate interval tp); reflexivity.
Qed.

Lemma iteration_never_overlaps_witness :
  (OrderBookBuilder.in_flight
     {| OrderBookBuilder.isPreviousIterationFinished := false;
        OrderBookBuilder.chains :=
          [OrderBookBuilder.Waiting; OrderBookBuilder.Building] |} <= 1)%nat.
Proof.
  refine (proj1 (@iteration_never_overlaps
    [ OrderBookBuilder.Run 2000 OrderBookBuilder.lowered_tradeParams;
      OrderBookBuilder.Run 1600 OrderBookBuilder.lowered_tradeParams;
      OrderBookBuilder.BuildFinished 0;
      OrderBookBuilder.TimerFires 1 1700 OrderBookBuilder.lowered_tradeParams ]
    _ _)).
  vm_compute. reflexivity.
Defined.

(** Membership in a list of literals. *)
Ltac in_list := simpl; repeat (first [left; reflexivity | right]).

(* --------------------------------------------------------------------- *)
(** ** Trading-API adapters: the status of an order *)
(* --------------------------------------------------------------------- *)

Section OrderStatus.

Import Trader.

Lemma lookup_table_in (t : list (Z * string)) (k : option Z) (s : string) :
  lookup_table t k = Some s -> In s (map snd t).
Proof.
  destruct k as [z|]; [|discriminate]. unfold lookup_table.
  destruct (find (fun e => (fst e =? z)%Z) t) as [e|] eqn:E; [|discriminate].
  intros H. injection H as <-. apply find_some in E. apply in_map, E.
Qed.

Lemma bitqik_status_known (k : option Z) :
  In (Bitqik.or_cancelled (lookup_table Bitqik.ORDER_STATUS k))
     ["new"; "part_filled"; "filled"; "cancelled"].
Proof.
  destruct (lookup_table Bitqik.ORDER_STATUS k) as [s|] eqn:E; [|in_list].
  apply lookup_table_in in E. simpl in E.
  repeat (destruct E as [<- | E]; [in_list|]). contradiction.
Qed.



End OrderStatus.

Section BitkubStatus.

Import Trader.








End BitkubStatus.

Section ThroughTheClients.

Import Trader.
Import ApiClient.




End ThroughTheClients.




(* --------------------------------------------------------------------- *)
(** ** Command router: confirmation *)
(* --------------------------------------------------------------------- *)

Section Confirmation.

Import CommandTxs.

Variable router : string -> string -> World -> CommandResult * World.

Lemma y_not_pending (now : Z) (tx : string) (w : World) :
  command (pendingConfirmation w) = "" ->
  y router now tx w = (reply no_pending_message, w, []).
Proof. intros H. unfold y. rewrite H. reflexivity. Qed.

Lemma y_expired (now : Z) (tx : string) (w : World) :
  command (pendingConfirmation w) <> "" ->
  (now - timestamp (pendingConfirmation w) > timeToConfirm)%Z ->
  y router now tx w =
    (reply (expired_message (command (pendingConfirmation w))),
     clear_pending_command w, []).
Proof.
  intros Hp Hlate. unfold y.
  destruct (String.eqb_spec (command (pendingConfirmation w)) ""); [contradiction|].
  simpl. destruct (Z.gtb_spec (now - timestamp (pendingConfirmation w)) timeToConfirm);
    [reflexivity | lia].
Qed.

Lemma y_confirms (now : Z) (tx : string) (w : World) :
  command (pendingConfirmation w) <> "" ->
  (now - timestamp (pendingConfirmation w) <= timeToConfirm)%Z ->
  let cmd := (command (pendingConfirmation w) ++ " -y")%string in
  y router now tx w =
    ({| msgNotify := "";
        msgSendBack := msgSendBack (fst (router cmd tx w));
        notifyType := notifyType (fst (router cmd tx w)) |},
     clear_pending_command (snd (router cmd tx w)), [cmd]).
Proof.
  intros Hp Hintime cmd. unfold y.
  destruct (String.eqb_spec (command (pendingConfirmation w)) ""); [contradiction|].
  simpl. destruct (Z.gtb_spec (now - timestamp (pendingConfirmation w)) timeToConfirm);
    [lia|].
  fold cmd. destruct (router cmd tx w) as [res w']. reflexivity.
Qed.

Lemma legacy_y_expired (now : Z) (tx : string) (w : World) :
  command (pendingConfirmation w) <> "" ->
  (now - timestamp (pendingConfirmation w) > timeToConfirm)%Z ->
  CommandTxsLegacy.y router now tx w =
    (reply (expired_message (command (pendingConfirmation w))), w, []).
Proof.
  intros Hp Hlate. unfold CommandTxsLegacy.y.
  destruct (String.eqb_spec (command (pendingConfirmation w)) ""); [contradiction|].
  simpl. destruct (Z.gtb_spec (now - timestamp (pendingConfirmation w)) timeToConfirm);
    [reflexivity | lia].
Qed.

Lemma legacy_y_confirms (now : Z) (tx : string) (w : World) :
  command (pendingConfirmation w) <> "" ->
  (now - timestamp (pendingConfirmation w) <= timeToConfirm)%Z ->
  let cmd := (command (pendingConfirmation w) ++ " -y")%string in
  CommandTxsLegacy.y router now tx w = (reply "", snd (router cmd tx w), [cmd]).
Proof.
  intros Hp Hintime cmd. unfold CommandTxsLegacy.y.
  destruct (String.eqb_spec (command (pendingConfirmation w)) ""); [contradiction|].
  simpl. destruct (Z.gtb_spec (now - timestamp (pendingConfirmation w)) timeToConfirm);
    [lia|].
  fold cmd. destruct (router cmd tx w) as [res w']. reflexivity.
Qed.

Lemma y_clears (now : Z) (tx : string) (w : World) :
  command (pendingConfirmation (snd (fst (y router now tx w)))) = "".
Proof.
  destruct (string_dec (command (pendingConfirmation w)) "") as [He | Hp].
  - rewrite (@y_not_pending now tx w He). exact He.
  - destruct (Z_le_gt_dec (now - timestamp (pendingConfirmation w)) timeToConfirm)
      as [H | H].
    + rewrite (@y_confirms now tx w Hp H). reflexivity.
    + rewrite (@y_expired now tx w Hp H). reflexivity.
Qed.

Lemma y_again (now1 now2 : Z) (tx : string) (w : World) :
  y router now2 tx (snd (fst (y router now1 tx w)))
  = (reply no_pending_message, snd (fst (y router now1 tx w)), []).
Proof. apply y_not_pending, y_clears. Qed.

Lemma twice_y (now1 now2 : Z) (tx : string) (w : World) :
  twice (y router) now1 now2 tx w = snd (y router now1 tx w).
Proof.
  unfold twice. pose proof (y_again now1 now2 tx w) as H.
  destruct (y router now1 tx w) as [[r1 w1] calls1]. simpl in H. rewrite H.
  simpl. apply app_nil_r.
Qed.

End Confirmation.

(** C4.  While a confirmation is pending, [y] re-enters the router with the
    pending command and [" -y"] when at most ten minutes have passed since
    the prompt: the world [y] leaves is the one the router made, with the
    pending command emptied, and the answer is the router's without its
    notification.  After more than ten minutes [y] does not enter the
    router: it answers that the command is expired, and the world is as it
    was but for the pending command, which is emptied.  The older router
    draws the line at the same ten minutes; its [y] leaves the world as the
    router made it, or untouched when the command is expired. *)
Theorem y_confirms_within_ten_minutes :
  forall (router : string -> string -> CommandTxs.World
                   -> CommandTxs.CommandResult * CommandTxs.World)
         (now : Z) (tx : string) (w : CommandTxs.World),
    CommandTxs.command (CommandTxs.pendingConfirmation w) <> "" ->
    let cmd := CommandTxs.command (CommandTxs.pendingConfirmation w) in
    let elapsed := (now - CommandTxs.timestamp (CommandTxs.pendingConfirmation w))%Z in
    let ten_minutes := (10 * 60 * 1000)%Z in
    let rerun := router (cmd ++ " -y")%string tx w in
    ((elapsed <= ten_minutes)%Z ->
       CommandTxs.y router now tx w
       = ({| CommandTxs.msgNotify := "";
             CommandTxs.msgSendBack := CommandTxs.msgSendBack (fst rerun);
             CommandTxs.notifyType := CommandTxs.notifyType (fst rerun) |},
          CommandTxs.clear_pending_command (snd rerun),
          [(cmd ++ " -y")%string]) /\
       CommandTxsLegacy.y router now tx w
       = (CommandTxs.reply "", snd rerun, [(cmd ++ " -y")%string])) /\
    ((elapsed > ten_minutes)%Z ->
       CommandTxs.y router now tx w
       = (CommandTxs.reply (CommandTxs.expired_message cmd),
          CommandTxs.clear_pending_command w, []) /\
       CommandTxsLegacy.y router now tx w
       = (CommandTxs.reply (CommandTxs.expired_message cmd), w, [])).
Proof.
  intros router now tx w Hp cmd elapsed ten_minutes rerun. split; intros H.
  - rewrite (@y_confirms router now tx w Hp H).
    rewrite (@legacy_y_confirms router now tx w Hp H). split; reflexivity.
  - rewrite (@y_expired router now tx w Hp H).
    rewrite (@legacy_y_expired router now tx w Hp H). split; reflexivity.
Qed.

Lemma y_confirms_within_ten_minutes_witness :
  CommandTxs.y CommandTxs.tracing_router 5000 "operator"
    CommandTxs.pending_fill_world
  = ({| CommandTxs.msgNotify := "";
        CommandTxs.msgSendBack :=
          "Done: /fill ADM/USDT buy quote=100 low=1 high=2 count=5 -y";
        CommandTxs.notifyType := "log" |},
     {| CommandTxs.pendingConfirmation :=
          {| CommandTxs.command := ""; CommandTxs.timestamp := 0 |};
        CommandTxs.ledger := [];
        CommandTxs.placements :=
          [ CommandTxs.trace
              "/fill ADM/USDT buy quote=100 low=1 high=2 count=5 -y"
              "operator" ] |},
     ["/fill ADM/USDT buy quote=100 low=1 high=2 count=5 -y"]).
Proof.
  refine (proj1 (proj1 (@y_confirms_within_ten_minutes
            CommandTxs.tracing_router 5000%Z "operator"
            CommandTxs.pending_fill_world _) _)).
  - simpl. discriminate.
  - simpl. lia.
Defined.

(** C2 (as the code has it).  Of two [y] in a row on a pending confirmation,
    the first re-enters the router once with the pending command and
    [" -y"] when at most ten minutes have passed since the prompt, and
    leaves the world the router made, with the pending command emptied;
    when more have passed it does not enter the router, answers that the
    command is expired and empties the pending command in the world it
    found.  The second always answers that nothing is pending, does not
    enter the router and leaves the world as the first left it: the command
    has run once or, expired, never. *)
Theorem y_twice_runs_at_most_once :
  forall (router : string -> string -> CommandTxs.World
                   -> CommandTxs.CommandResult * CommandTxs.World)
         (now1 now2 : Z) (tx : string) (w : CommandTxs.World),
    CommandTxs.command (CommandTxs.pendingConfirmation w) <> "" ->
    let cmd := CommandTxs.command (CommandTxs.pendingConfirmation w) in
    let elapsed := (now1 - CommandTxs.timestamp (CommandTxs.pendingConfirmation w))%Z in
    let rerun := router (cmd ++ " -y")%string tx w in
    let first := CommandTxs.y router now1 tx w in
    let second := CommandTxs.y router now2 tx (snd (fst first)) in
    second
    = (CommandTxs.reply CommandTxs.no_pending_message, snd (fst first), []) /\
    ((elapsed <= CommandTxs.timeToConfirm)%Z ->
       first
       = ({| CommandTxs.msgNotify := "";
             CommandTxs.msgSendBack := CommandTxs.msgSendBack (fst rerun);
             CommandTxs.notifyType := CommandTxs.notifyType (fst rerun) |},
          CommandTxs.clear_pending_command (snd rerun),
          [(cmd ++ " -y")%string]) /\
       CommandTxs.twice (CommandTxs.y router) now1 now2 tx w
         = [(cmd ++ " -y")%string]) /\
    ((elapsed > CommandTxs.timeToConfirm)%Z ->
       first
       = (CommandTxs.reply (CommandTxs.expired_message cmd),
          CommandTxs.clear_pending_command w, []) /\
       CommandTxs.twice (CommandTxs.y router) now1 now2 tx w = []).
Proof.
  intros router now1 now2 tx w Hp cmd elapsed rerun first second.
  subst first second. rewrite y_again, twice_y.
  split; [reflexivity|].
  split; intros H.
  - rewrite (@y_confirms router now1 tx w Hp H). split; reflexivity.
  - rewrite (@y_expired router now1 tx w Hp H). split; reflexivity.
Qed.

Lemma y_twice_runs_at_most_once_witness :
  let first :=
    CommandTxs.y CommandTxs.tracing_router 5000 "operator"
      CommandTxs.pending_fill_world in
  let second :=
    CommandTxs.y CommandTxs.tracing_router 6000 "operator" (snd (fst first)) in
  second
  = (CommandTxs.reply CommandTxs.no_pending_message,
     {| CommandTxs.pendingConfirmation :=
          {| CommandTxs.command := ""; CommandTxs.timestamp := 0 |};
        CommandTxs.ledger := [];
        CommandTxs.placements :=
          [ CommandTxs.trace
              "/fill ADM/USDT buy quote=100 low=1 high=2 count=5 -y"
              "operator" ] |},
     []) /\
  CommandTxs.twice (CommandTxs.y CommandTxs.tracing_router) 5000 6000 "operator"
    CommandTxs.pending_fill_world
  = ["/fill ADM/USDT buy quote=100 low=1 high=2 count=5 -y"].
Proof.
  pose proof (@y_twice_runs_at_most_once
                CommandTxs.tracing_router 5000%Z 6000%Z "operator"
                CommandTxs.pending_fill_world) as H.
  cbv zeta in H.
  assert (Hp : CommandTxs.command
                 (CommandTxs.pendingConfirmation CommandTxs.pending_fill_world)
               <> "") by (simpl; discriminate).
  assert (Hin : (5000 - CommandTxs.timestamp
                          (CommandTxs.pendingConfirmation
                             CommandTxs.pending_fill_world)
                 <= CommandTxs.timeToConfirm)%Z)
    by (vm_compute; discriminate).
  destruct (H Hp) as [Hsecond [Hfirst _]].
  destruct (Hfirst Hin) as [H1 Hcalls].
  cbv zeta. split; [|exact Hcalls].
  rewrite Hsecond, H1. reflexivity.
Defined.

(** C2 (as stated) fails on a pending confirmation that is more than ten
    minutes old: of two [y] in a row the first answers that the command is
    expired, and the pending command is handed to the router not once but
    never; the world holds no trace of a run. *)
Lemma y_twice_counterexample :
  CommandTxs.command (CommandTxs.pendingConfirmation CommandTxs.pending_fill_world)
    <> "" /\
  CommandTxs.twice (CommandTxs.y CommandTxs.answering_router) 600001 600002
    "operator" CommandTxs.pending_fill_world
  <> ["/fill ADM/USDT buy quote=100 low=1 high=2 count=5 -y"] /\
  (let first :=
     CommandTxs.y CommandTxs.tracing_router 600001 "operator"
       CommandTxs.pending_fill_world in
   let second :=
     CommandTxs.y CommandTxs.tracing_router 600002 "operator"
       (snd (fst first)) in
   CommandTxs.msgSendBack (fst (fst first))
   = CommandTxs.expired_message
       "/fill ADM/USDT buy quote=100 low=1 high=2 count=5" /\
   CommandTxs.msgSendBack (fst (fst second)) = CommandTxs.no_pending_message /\
   CommandTxs.placements (snd (fst second)) = []).
Proof.
  split; [vm_compute; discriminate|].
  split; [vm_compute; discriminate|].
  vm_compute. repeat split.
Qed.

(** The older router runs the pending command on each of two [y] in a row:
    its [y] returns before it reaches the statement that empties the pending
    command. *)
Lemma legacy_y_twice_runs_twice :
  CommandTxs.twice (CommandTxsLegacy.y CommandTxs.answering_router) 5000 6000
    "operator" CommandTxs.pending_fill_world
  = ["/fill ADM/USDT buy quote=100 low=1 high=2 count=5 -y";
     "/fill ADM/USDT buy quote=100 low=1 high=2 count=5 -y"] /\
  CommandTxs.placements
    (snd (fst (CommandTxsLegacy.y CommandTxs.tracing_router 6000 "operator"
                 (snd (fst (CommandTxsLegacy.y CommandTxs.tracing_router 5000
                              "operator" CommandTxs.pending_fill_world))))))
  = [ CommandTxs.trace
        "/fill ADM/USDT buy quote=100 low=1 high=2 count=5 -y" "operator";
      CommandTxs.trace
        "/fill ADM/USDT buy quote=100 low=1 high=2 count=5 -y" "operator" ].
Proof. split; vm_compute; reflexivity. Qed.

(* --------------------------------------------------------------------- *)
(** ** Order collector: what a sweep touches *)
(* --------------------------------------------------------------------- *)

Section Sweep.

Import Collector.

Variable selected : Order -> bool.
Variable cancelOrder : Order -> CancelOutcome.
Variable doForce : bool.

Lemma sweep_attempted (l : list Order) :
  attempted (fst (sweep selected cancelOrder doForce l))
  = map _id (filter selected l).
Proof.
  induction l as [|o l IH]; [reflexivity|]. simpl.
  destruct (sweep selected cancelOrder doForce l) as [info rest]. simpl in IH.
  destruct (selected o); [|exact IH].
  destruct (cancelOrder o); simpl; rewrite IH; reflexivity.
Qed.

(** Row by row, the ledger after a sweep is the ledger before it, except
    that a selected row may have been marked as processed. *)
Lemma sweep_rows (l : list Order) :
  Forall2 (fun o o' => (selected o = false -> o' = o) /\
                       (o' = o \/ o' = close_row o))
          l (snd (sweep selected cancelOrder doForce l)).
Proof.
  induction l as [|o l IH]; [constructor|]. simpl.
  destruct (sweep selected cancelOrder doForce l) as [info rest]. simpl in IH.
  destruct (selected o) eqn:Hsel.
  - destruct (cancelOrder o); simpl; constructor; try exact IH;
      (split; [intros H; congruence|]); try (right; reflexivity).
    destruct doForce; [right | left]; reflexivity.
  - simpl. constructor; [|exact IH]. split; [reflexivity | left; reflexivity].
Qed.

End Sweep.

(* --------------------------------------------------------------------- *)
(** ** Command router: [clear] *)
(* --------------------------------------------------------------------- *)

Section ClearCommand.

Import Collector.
Import CommandTxs.

Variable E : Env.

Let assign (l : string) (v : ClearVars) (e : string * string) : ClearVars :=
  if String.eqb l (fst e)
  then set_purposes (PurposesList [fst e]) (Some (toLowerCase (snd e))) v
  else v.

Lemma table_miss (l : string) (t : list (string * string)) :
  forall v, existsb (fun e => String.eqb l (fst e)) t = false ->
            fold_left (assign l) t v = v.
Proof.
  induction t as [|e t IH]; intros v H; [reflexivity|].
  simpl in *. apply orb_false_iff in H. destruct H as [He Ht].
  unfold assign at 2. rewrite He. apply IH, Ht.
Qed.

Lemma table_hit (l : string) (t : list (string * string)) :
  forall v, existsb (fun e => String.eqb l (fst e)) t = true ->
            exists name,
              fold_left (assign l) t v
              = set_purposes (PurposesList [l]) (Some name) v.
Proof.
  induction t as [|e t IH]; intros v H; [discriminate|].
  simpl in *. unfold assign at 2.
  destruct (String.eqb_spec l (fst e)) as [Heq | Hne].
  - destruct (existsb (fun e0 => String.eqb l (fst e0)) t) eqn:Ht.
    + destruct (IH (set_purposes (PurposesList [fst e])
                      (Some (toLowerCase (snd e))) v) eq_refl) as [name Hn].
      exists name. rewrite Hn. reflexivity.
    + rewrite (table_miss _ _ _ Ht). exists (toLowerCase (snd e)).
      rewrite <- Heq. reflexivity.
  - simpl in H. apply IH, H.
Qed.

Lemma keyword_parts (l : string) :
  is_keyword l = false ->
  String.eqb l "buy" = false /\ String.eqb l "sell" = false /\
  String.eqb l "force" = false /\ String.eqb l "all" = false /\
  String.eqb l "unk" = false.
Proof.
  unfold is_keyword. intros H.
  repeat (apply orb_false_iff in H; destruct H as [H ?]). auto.
Qed.

Lemma clear_keywords_neutral (param : string) (v : ClearVars) :
  is_keyword (toLowerCase param) = false ->
  is_purpose_key E (toLowerCase param) = false ->
  clear_keywords E param v = v.
Proof.
  intros Hk Hp. destruct (keyword_parts _ Hk) as (H1 & H2 & H3 & H4 & H5).
  unfold clear_keywords. rewrite H1, H2, H3, H4, H5.
  apply (table_miss _ _ _ Hp).
Qed.

Lemma clear_keywords_purpose (param : string) (v : ClearVars) :
  is_keyword (toLowerCase param) = false ->
  is_purpose_key E (toLowerCase param) = true ->
  exists name,
    clear_keywords E param v
    = set_purposes (PurposesList [toLowerCase param]) (Some name) v.
Proof.
  intros Hk Hp. destruct (keyword_parts _ Hk) as (H1 & H2 & H3 & H4 & H5).
  unfold clear_keywords. rewrite H1, H2, H3, H4, H5.
  apply (table_hit _ _ _ Hp).
Qed.

Lemma clear_keywords_side (param : string) (s : OrderBookBuilder.side)
    (v : ClearVars) :
  side_of_tag E param = Some s ->
  clear_keywords E param v = set_type s v /\ has_filter_prefix param = false.
Proof.
  unfold side_of_tag. intros H.
  destruct (is_purpose_key E (toLowerCase param)) eqn:Hp; [discriminate|].
  destruct (has_filter_prefix param) eqn:Hf; [discriminate|]. simpl in H.
  split; [|reflexivity]. unfold clear_keywords.
  destruct (String.eqb_spec (toLowerCase param) "buy") as [Hb | Hb].
  - injection H as <-. rewrite Hb in *. simpl. apply (table_miss _ _ _ Hp).
  - destruct (String.eqb_spec (toLowerCase param) "sell") as [Hs | Hs];
      [|discriminate].
    injection H as <-. rewrite Hs in *. simpl. apply (table_miss _ _ _ Hp).
Qed.

Lemma clear_param_neutral (params : list string) (pairObj : Market)
    (param : string) (v : ClearVars) :
  is_keyword (toLowerCase param) = false ->
  is_purpose_key E (toLowerCase param) = false ->
  has_filter_prefix param = false ->
  clear_param E params pairObj v param = inr v.
Proof.
  intros Hk Hp Hf. unfold clear_param.
  rewrite (clear_keywords_neutral _ v Hk Hp).
  unfold has_filter_prefix in Hf. rewrite Hf. reflexivity.
Qed.

Lemma clear_param_filter (params : list string) (pairObj : Market)
    (param coin : string) (f : PriceFilter) (i : nat) (v : ClearVars) :
  filter_of_tag E param = Some f ->
  is_all_or_unk (purposes v) = false ->
  indexOf params param = Some i ->
  nth_error params (S i) = Some coin ->
  toUpperCase coin = m_coin2 pairObj ->
  clear_param E params pairObj v param = inr (set_filter f param v).
Proof.
  unfold filter_of_tag. intros Hf Hall Hi Hc Hcoin.
  destruct (has_filter_prefix param) eqn:Hpre; [|discriminate].
  destruct (is_keyword (toLowerCase param)) eqn:Hk; [discriminate|].
  destruct (is_purpose_key E (toLowerCase param)) eqn:Hp; [discriminate|].
  destruct (isPositiveOrZeroNumber E (toNumber E (substring1 param))) eqn:Hn;
    [|discriminate].
  simpl in Hf. injection Hf as <-.
  unfold clear_param. rewrite (clear_keywords_neutral _ v Hk Hp).
  unfold has_filter_prefix in Hpre. rewrite Hpre, Hall, Hn, Hi, Hc. simpl.
  rewrite Hcoin, String.eqb_refl. reflexivity.
Qed.

End ClearCommand.

Section ClearDocumented.

Import Collector.
Import CommandTxs.

Variable E : Env.
Variables ptok ftok ctok : string.
Variable f : PriceFilter.

Hypothesis purpose_tag : is_purpose_tag E ptok = true.
Hypothesis price_filter : filter_of_tag E ftok = Some f.
Hypothesis quote_coin : is_quote_coin E ctok = true.

Let pairObj : Market := parseMarket E (config_pair E).

Lemma purpose_tag_parts :
  is_purpose_key E (toLowerCase ptok) = true /\
  is_keyword (toLowerCase ptok) = false /\
  has_filter_prefix ptok = false /\
  contains_char "/" ptok = false.
Proof.
  unfold is_purpose_tag in purpose_tag.
  repeat (apply andb_true_iff in purpose_tag;
          destruct purpose_tag as [purpose_tag ?]).
  repeat match goal with
         | H : negb _ = true |- _ => apply negb_true_iff in H
         end.
  auto.
Qed.

Lemma quote_coin_parts :
  toUpperCase ctok = m_coin2 pairObj /\
  is_keyword (toLowerCase ctok) = false /\
  is_purpose_key E (toLowerCase ctok) = false /\
  has_filter_prefix ctok = false.
Proof.
  unfold is_quote_coin in quote_coin.
  repeat (apply andb_true_iff in quote_coin;
          destruct quote_coin as [quote_coin ?]).
  repeat match goal with
         | H : negb _ = true |- _ => apply negb_true_iff in H
         end.
  apply String.eqb_eq in quote_coin. auto.
Qed.

Lemma filter_has_prefix : has_filter_prefix ftok = true.
Proof.
  unfold filter_of_tag in price_filter.
  destruct (has_filter_prefix ftok); [reflexivity | discriminate].
Qed.

Lemma differs_by_prefix (a : string) :
  has_filter_prefix a = false -> String.eqb a ftok = false.
Proof.
  intros Ha. apply String.eqb_neq. intros ->.
  rewrite filter_has_prefix in Ha. discriminate.
Qed.

Lemma clear_pair_default (rest : list string) :
  clear_pair E (ptok :: rest) = pairObj.
Proof.
  destruct purpose_tag_parts as (_ & _ & _ & Hslash).
  unfold clear_pair. rewrite Hslash. rewrite orb_true_r. reflexivity.
Qed.

Lemma clear_decide_documented (stok : option string)
    (side : option OrderBookBuilder.side) :
  optional_side E stok = Some side ->
  clear_decide E (ptok :: optional stok ++ [ftok; ctok])
  = inr (CallClearLocalOrders [toLowerCase ptok] (m_pair pairObj) false side
           (Some f)).
Proof.
  intros Hside.
  destruct purpose_tag_parts as (Hkey & Hkw & Hpre & _).
  destruct quote_coin_parts as (Hcoin & Hckw & Hckey & Hcpre).
  unfold clear_decide. rewrite clear_pair_default. fold pairObj.
  set (params := ptok :: optional stok ++ [ftok; ctok]).
  destruct (@clear_keywords_purpose E ptok clear_vars_init Hkw Hkey) as [name Hp].
  assert (Hfirst : clear_param E params pairObj clear_vars_init ptok
                   = inr (set_purposes (PurposesList [toLowerCase ptok])
                            (Some name) clear_vars_init)).
  { unfold clear_param. rewrite Hp.
    unfold has_filter_prefix in Hpre. rewrite Hpre. reflexivity. }
  destruct stok as [s|]; simpl in Hside.
  - destruct (side_of_tag E s) as [sd|] eqn:Hs; [|discriminate].
    injection Hside as <-.
    assert (Hidx : indexOf params ftok = Some 2%nat).
    { unfold params. simpl.
      rewrite (@differs_by_prefix ptok Hpre).
      rewrite (@differs_by_prefix s
                 (proj2 (@clear_keywords_side E s sd clear_vars_init Hs))).
      rewrite String.eqb_refl. reflexivity. }
    unfold params at 2. simpl optional. cbn [app clear_loop].
    rewrite Hfirst.
    unfold clear_param at 1.
    destruct (@clear_keywords_side E s sd
                (set_purposes (PurposesList [toLowerCase ptok]) (Some name)
                   clear_vars_init) Hs) as [Hkeys Hspre].
    rewrite Hkeys. unfold has_filter_prefix in Hspre. rewrite Hspre.
    rewrite (@clear_param_filter E params pairObj ftok ctok f 2
               (set_type sd (set_purposes (PurposesList [toLowerCase ptok])
                               (Some name) clear_vars_init))
               price_filter eq_refl Hidx eq_refl Hcoin).
    rewrite (@clear_param_neutral E params pairObj ctok _ Hckw Hckey Hcpre).
    reflexivity.
  - injection Hside as <-.
    assert (Hidx : indexOf params ftok = Some 1%nat).
    { unfold params. simpl. rewrite (@differs_by_prefix ptok Hpre).
      rewrite String.eqb_refl. reflexivity. }
    unfold params at 2. simpl optional. cbn [app clear_loop].
    rewrite Hfirst.
    rewrite (@clear_param_filter E params pairObj ftok ctok f 1
               (set_purposes (PurposesList [toLowerCase ptok])
                  (Some name) clear_vars_init)
               price_filter eq_refl Hidx eq_refl Hcoin).
    rewrite (@clear_param_neutral E params pairObj ctok _ Hckw Hckey Hcpre).
    reflexivity.
Qed.

End ClearDocumented.

(** C6.  A [clear] command made of a purpose tag, an optional side, a price
    filter [>P] or [<P] and the quote coin attempts cancellation for exactly
    the open ledger orders of that purpose, pair and side whose price is
    above [P] (for [>]) or below [P] (for [<]), both strictly; every other
    ledger row is left as it was. *)
Theorem clear_price_filter_selects :
  forall (E : CommandTxs.Env) (ptok : string) (stok : option string)
         (ftok ctok : string) (side : option OrderBookBuilder.side)
         (f : Collector.PriceFilter) (w : CommandTxs.World),
    CommandTxs.is_purpose_tag E ptok = true ->
    CommandTxs.optional_side E stok = Some side ->
    CommandTxs.filter_of_tag E ftok = Some f ->
    CommandTxs.is_quote_coin E ctok = true ->
    let params := ptok :: CommandTxs.optional stok ++ [ftok; ctok] in
    let P := CommandTxs.toNumber E (substring1 ftok) in
    let matching (o : Collector.Order) : bool :=
      negb (Collector.isProcessed o)
      && String.eqb (Collector.purpose o) (toLowerCase ptok)
      && String.eqb (Collector.pair o)
           (CommandTxs.m_pair (CommandTxs.parseMarket E (CommandTxs.config_pair E)))
      && Collector.side_matches side o
      && (if String.eqb (charAt0 ftok) "<"
          then Js.lt (Collector.price o) P
          else Js.gt (Collector.price o) P) in
    snd (CommandTxs.clear E params w)
      = map Collector._id (filter matching (CommandTxs.ledger w)) /\
    Forall2 (fun o o' => (matching o = false -> o' = o) /\
                         (o' = o \/ o' = Collector.close_row o))
      (CommandTxs.ledger w)
      (CommandTxs.ledger (snd (fst (CommandTxs.clear E params w)))) /\
    (forall x p : Q, P = Num p ->
       (Js.gt (Num x) P = true <-> p < x) /\ (Js.lt (Num x) P = true <-> x < p)).
Proof.
  intros E ptok stok ftok ctok side f w Hp Hs Hf Hc params P matching.
  unfold CommandTxs.clear. subst params.
  rewrite (@clear_decide_documented E ptok ftok ctok f Hp Hf Hc stok side Hs).
  unfold CommandTxs.run_collector, Collector.clearLocalOrders.
  set (sel := Collector.local_selector [toLowerCase ptok]
                (CommandTxs.m_pair (CommandTxs.parseMarket E (CommandTxs.config_pair E)))
                side (Some f)).
  assert (Hsel : forall o, sel o = matching o).
  { intros o. unfold sel, matching, Collector.local_selector, Collector.purpose_in.
    simpl existsb. rewrite orb_false_r. f_equal.
    unfold CommandTxs.filter_of_tag in Hf.
    destruct (CommandTxs.has_filter_prefix ftok
              && negb (CommandTxs.is_keyword (toLowerCase ftok))
              && negb (CommandTxs.is_purpose_key E (toLowerCase ftok))
              && CommandTxs.isPositiveOrZeroNumber E
                   (CommandTxs.toNumber E (substring1 ftok))); [|discriminate].
    injection Hf as <-. fold P. destruct (String.eqb (charAt0 ftok) "<"); reflexivity. }
  pose proof (sweep_attempted sel (CommandTxs.cancelOrder E) false
                (CommandTxs.ledger w)) as Hatt.
  pose proof (sweep_rows sel (CommandTxs.cancelOrder E) false
                (CommandTxs.ledger w)) as Hrows.
  destruct (Collector.sweep sel (CommandTxs.cancelOrder E) false
              (CommandTxs.ledger w)) as [info l'].
  simpl in *. split; [|split].
  - rewrite Hatt. f_equal. apply filter_ext. exact Hsel.
  - revert Hrows. apply Forall2_impl. intros o o' [H1 H2]. split; [|exact H2].
    intros Hm. apply H1. rewrite Hsel. exact Hm.
  - intros x p HP. rewrite HP. split; [unfold Js.gt|]; apply lt_Num.
Qed.

Lemma clear_price_filter_selects_witness :
  snd (CommandTxs.clear (CommandTxs.example_env None None)
         ["mm"; "sell"; ">0.5"; "USDT"] CommandTxs.four_sell_orders)
  = ["o3"; "o4"].
Proof.
  refine (eq_trans (proj1 (@clear_price_filter_selects
            (CommandTxs.example_env None None) "mm" (Some "sell") ">0.5" "USDT"
            (Some OrderBookBuilder.sell)
            (Collector.PriceGt (Num (5 # 10)))
            CommandTxs.four_sell_orders _ _ _ _)) _).
  - vm_compute. reflexivity.
  - vm_compute. reflexivity.
  - vm_compute. reflexivity.
  - vm_compute. reflexivity.
  - vm_compute. reflexivity.
Defined.

Section ClearAllOrUnk.

Import Collector.
Import CommandTxs.

Variable E : Env.

Lemma all_is_no_purpose_key : is_purpose_key E "all" = false.
Proof.
  unfold is_purpose_key, purposes_without_all.
  induction (orderPurposes E) as [|e t IH]; [reflexivity|]. cbn [filter].
  destruct (String.eqb_spec (fst e) "all") as [Heq | Hne]; cbn [negb existsb];
    [exact IH|].
  rewrite IH, orb_false_r. apply String.eqb_neq. congruence.
Qed.

Lemma prefix_survives_lowering (a : string) :
  has_filter_prefix a = true -> has_filter_prefix (toLowerCase a) = true.
Proof.
  unfold has_filter_prefix. destruct a as [|c r]; [discriminate|].
  cbn [toLowerCase map_string startsWith]. rewrite !andb_true_r.
  destruct (Ascii.eqb_spec c ">") as [-> | Hgt]; [reflexivity|].
  destruct (Ascii.eqb_spec c "<") as [-> | Hlt]; [reflexivity | discriminate].
Qed.

Lemma clear_keywords_all_or_unk (param : string) (v : ClearVars) :
  all_or_unk_tag E param ->
  is_all_or_unk (purposes (clear_keywords E param v)) = true /\
  has_filter_prefix param = false.
Proof.
  intros Htag. split.
  - unfold clear_keywords. destruct Htag as [-> | [-> Hunk]]; simpl.
    + rewrite (table_miss _ _ _ all_is_no_purpose_key). reflexivity.
    + rewrite (table_miss _ _ _ Hunk). reflexivity.
  - destruct (has_filter_prefix param) eqn:Hpre; [|reflexivity].
    apply prefix_survives_lowering in Hpre.
    destruct Htag as [Hl | [Hl _]]; rewrite Hl in Hpre; discriminate.
Qed.

(** With [all] or [unk] in front of it, a price filter is turned down. *)
Lemma clear_rejects_filter_after_all (atok ftok : string) (rest : list string) :
  all_or_unk_tag E atok ->
  has_filter_prefix ftok = true ->
  is_keyword (toLowerCase ftok) = false ->
  is_purpose_key E (toLowerCase ftok) = false ->
  clear_decide E (atok :: ftok :: rest) = inl (price_filter_rejected E).
Proof.
  intros Htag Hpre Hk Hp. unfold clear_decide.
  set (params := atok :: ftok :: rest).
  set (pairObj := clear_pair E params).
  unfold params at 2. cbn [clear_loop].
  destruct (@clear_keywords_all_or_unk atok clear_vars_init Htag) as [Hall Hapre].
  unfold clear_param at 1. unfold has_filter_prefix in Hapre. rewrite Hapre.
  unfold clear_param at 1.
  rewrite (@clear_keywords_neutral E ftok _ Hk Hp).
  unfold has_filter_prefix in Hpre. rewrite Hpre, Hall. reflexivity.
Qed.

End ClearAllOrUnk.

(** C10 fails on the code when the price filter comes first: [clear] checks
    for [all] and [unk] at the moment it reads the filter, so
    [/clear >0.5 USDT all] is not rejected; it goes to [clearAllOrders], which
    takes no price filter, and cancellation is attempted for all four orders,
    those priced below 0.5 included.  [/clear >0.5 USDT unk] likewise goes to
    [clearUnknownOrders].  With [all] in front, the command is rejected. *)
Theorem clear_price_filter_before_all :
  CommandTxs.clear_decide (CommandTxs.example_env None None) [">0.5"; "USDT"; "all"]
    = inr (CommandTxs.CallClearAllOrders "ADM/USDT" false None) /\
  snd (CommandTxs.clear (CommandTxs.example_env None None)
         [">0.5"; "USDT"; "all"] CommandTxs.four_sell_orders)
    = ["o1"; "o2"; "o3"; "o4"] /\
  CommandTxs.clear_decide (CommandTxs.example_env None None) [">0.5"; "USDT"; "unk"]
    = inr (CommandTxs.CallClearUnknownOrders "ADM/USDT" false None) /\
  CommandTxs.clear_decide (CommandTxs.example_env None None) ["all"; ">0.5"; "USDT"]
    = inl (CommandTxs.price_filter_rejected (CommandTxs.example_env None None)).
Proof.
  repeat split; vm_compute; reflexivity.
Qed.

(* --------------------------------------------------------------------- *)
(** ** Command router: [fill] *)
(* --------------------------------------------------------------------- *)

Lemma lt_not_ge (b a : number) : Js.lt b a = true -> Js.ge b a = false.
Proof.
  unfold Js.ge, Js.le.
  destruct b as [x| | |], a as [y| | |]; simpl; try discriminate; try reflexivity.
  intros H. apply Qlt_bool_iff in H.
  apply orb_false_iff. split.
  - apply lt_Num_false. lra.
  - destruct (Qeq_bool y x) eqn:Heq; [|reflexivity].
    apply Qeq_bool_iff in Heq. lra.
Qed.

Lemma fill_insufficient_current (E : CommandTxs.Env) (now : Z)
    (params : list string) (w : CommandTxs.World)
    (balances : list CommandTxs.Balance) :
  CommandTxs.getBalancesCached E = Some balances ->
  Js.lt (CommandTxs.free_balance balances (fst (CommandTxs.fill_needs E params)))
        (snd (CommandTxs.fill_needs E params)) = true ->
  CommandTxs.fill_checked E now params w
  = (CommandTxs.reply
       (CommandTxs.not_enough_message (fst (CommandTxs.fill_needs E params))), w).
Proof.
  intros Hbal Hlt. unfold CommandTxs.fill_checked.
  unfold CommandTxs.fill_needs in *.
  destruct (CommandTxs.fill_pair_type E params) as [pair type].
  simpl in Hlt. rewrite Hbal. rewrite (lt_not_ge _ _ Hlt). reflexivity.
Qed.

Lemma fill_insufficient_legacy (L : CommandTxsLegacy.LegacyEnv)
    (plan : CommandTxsLegacy.FillPlan) (w : CommandTxs.World)
    (balances : list CommandTxs.Balance) (balance : number) :
  CommandTxsLegacy.getBalances L = Some balances ->
  CommandTxsLegacy.listed_balance balances (CommandTxsLegacy.fill_coin plan)
    = Some balance ->
  Js.lt balance (CommandTxsLegacy.p_amount plan) = true ->
  CommandTxsLegacy.fill_checked L plan w
  = (CommandTxs.reply
       (CommandTxs.not_enough_message (CommandTxsLegacy.fill_coin plan)), w).
Proof.
  intros Hbal Hlisted Hlt. unfold CommandTxsLegacy.fill_checked.
  rewrite Hbal, Hlisted, (lt_not_ge _ _ Hlt). reflexivity.
Qed.

(** C5 (as the code has it).  When the free balance of the coin [fill]
    checks (quote for buy, base for sell) is below the requested amount, the
    command changes nothing: no order is placed and no confirmation is set.
    Its reply is the "Not enough ... to fill orders" message when the
    argument checks that come before the balance check all pass, and the
    message of the first failing check otherwise.  The older router's [fill]
    does the same. *)
Theorem fill_insufficient_balance :
  (forall (E : CommandTxs.Env) (now : Z) (params : list string)
          (w : CommandTxs.World) (balances : list CommandTxs.Balance),
      CommandTxs.getBalancesCached E = Some balances ->
      let coin := fst (CommandTxs.fill_needs E params) in
      let amount := snd (CommandTxs.fill_needs E params) in
      Js.lt (CommandTxs.free_balance balances coin) amount = true ->
      snd (CommandTxs.fill E now params w) = w /\
      (CommandTxs.fill_validate E params = None ->
         fst (CommandTxs.fill E now params w)
           = CommandTxs.reply (CommandTxs.not_enough_message coin)) /\
      (forall rejected : CommandTxs.CommandResult,
         CommandTxs.fill_validate E params = Some rejected ->
         fst (CommandTxs.fill E now params w) = rejected)) /\
  (forall (L : CommandTxsLegacy.LegacyEnv) (params : list string)
          (w : CommandTxs.World),
      (forall rejected : CommandTxs.CommandResult,
         CommandTxsLegacy.fill_validate L params = inl rejected ->
         CommandTxsLegacy.fill L params w = (rejected, w)) /\
      (forall (plan : CommandTxsLegacy.FillPlan)
              (balances : list CommandTxs.Balance) (balance : number),
         CommandTxsLegacy.fill_validate L params = inr plan ->
         CommandTxsLegacy.getBalances L = Some balances ->
         CommandTxsLegacy.listed_balance balances (CommandTxsLegacy.fill_coin plan)
           = Some balance ->
         Js.lt balance (CommandTxsLegacy.p_amount plan) = true ->
         CommandTxsLegacy.fill L params w
           = (CommandTxs.reply
                (CommandTxs.not_enough_message (CommandTxsLegacy.fill_coin plan)),
              w))).
Proof.
  split.
  - intros E now params w balances Hbal coin amount Hlt.
    pose proof (@fill_insufficient_current E now params w balances Hbal Hlt)
      as Hchecked.
    unfold CommandTxs.fill.
    destruct (CommandTxs.fill_validate E params) as [r|].
    + split; [reflexivity|]. split; [discriminate|].
      intros rejected H. injection H as <-. reflexivity.
    + rewrite Hchecked. split; [reflexivity|]. split; [reflexivity | discriminate].
  - intros L params w. unfold CommandTxsLegacy.fill. split.
    + intros rejected H. rewrite H. reflexivity.
    + intros plan balances balance H Hbal Hlisted Hlt. rewrite H.
      exact (@fill_insufficient_legacy L plan w balances balance Hbal Hlisted Hlt).
Qed.

Lemma fill_insufficient_balance_witness :
  CommandTxs.fill (CommandTxs.example_env (Some CommandTxs.poor_balances) None) 0
    ["ADM/USDT"; "buy"; "quote=0.01"; "low=100"; "high=110"; "count=5"]
    CommandTxs.idle_world
  = (CommandTxs.reply "Not enough USDT to fill orders. Check balances.",
     CommandTxs.idle_world).
Proof.
  pose proof (proj1 fill_insufficient_balance
    (CommandTxs.example_env (Some CommandTxs.poor_balances) None) 0%Z
    ["ADM/USDT"; "buy"; "quote=0.01"; "low=100"; "high=110"; "count=5"]
    CommandTxs.idle_world CommandTxs.poor_balances eq_refl eq_refl)
    as [Hw [Hmsg _]].
  specialize (Hmsg eq_refl).
  rewrite (surjective_pairing (CommandTxs.fill _ _ _ _)), Hw, Hmsg.
  reflexivity.
Defined.

(** The older router on the same scenario, asked with [amount=]. *)
Lemma legacy_fill_not_enough :
  CommandTxsLegacy.fill
    (CommandTxsLegacy.example_legacy (Some CommandTxs.poor_balances))
    ["ADM/USDT"; "buy"; "amount=0.01"; "low=100"; "high=110"; "count=5"]
    CommandTxs.idle_world
  = (CommandTxs.reply "Not enough USDT to fill orders. Check balances.",
     CommandTxs.idle_world).
Proof. vm_compute. reflexivity. Qed.

(** C5 (as stated) fails on a command that one of the earlier checks turns
    down: with 0.005 USDT free, [/fill ADM/USDT buy quote=0.01 low=110
    high=100 count=5] is answered with the message about [low] and [high],
    not with "Not enough USDT". *)
Lemma fill_not_enough_counterexample :
  let E := CommandTxs.example_env (Some CommandTxs.poor_balances) None in
  let params := ["ADM/USDT"; "buy"; "quote=0.01"; "low=110"; "high=100"; "count=5"] in
  fst (CommandTxs.fill_needs E params) = "USDT" /\
  Js.lt (CommandTxs.free_balance CommandTxs.poor_balances "USDT")
        (snd (CommandTxs.fill_needs E params)) = true /\
  CommandTxs.msgSendBack (fst (CommandTxs.fill E 0 params CommandTxs.idle_world))
    = "To fill orders _high_ should be greater than _low_." /\
  CommandTxs.msgSendBack (fst (CommandTxs.fill E 0 params CommandTxs.idle_world))
    <> CommandTxs.not_enough_message "USDT".
Proof.
  repeat split; vm_compute; try reflexivity; discriminate.
Qed.

(* --------------------------------------------------------------------- *)
(** ** Command router: [make] *)
(* --------------------------------------------------------------------- *)

Lemma reliabilityKoef_bounds (rnd : Q) :
  0 <= rnd -> rnd < 1 ->
  105 # 100 <= CommandTxs.reliabilityKoef rnd /\
  CommandTxs.reliabilityKoef rnd <= 11 # 10.
Proof.
  intros H0 H1.
  unfold CommandTxs.reliabilityKoef, CommandTxs.reliability_high,
    CommandTxs.reliability_low.
  split; lra.
Qed.

Lemma randomValue_reliability (rnd : Q) :
  CommandTxs.randomValue (Num CommandTxs.reliability_low)
    (Num CommandTxs.reliability_high) rnd
  = Num (CommandTxs.reliabilityKoef rnd).
Proof. reflexivity. Qed.

(** C7.  A confirmed [make price T now] command, with the rates and the
    order book at hand and the target outside the spread, issues exactly one
    placement request: a pm-order of the computed side at the target price,
    whose base amount is the depth to the target times a factor between 1.05
    and 1.1, hence between 1.05 and 1.1 times that depth. *)
Theorem make_places_single_order :
  forall (E : CommandTxs.Env) (now : Z) (rnd : Q)
         (ptok ttok ctok ntok ytok : string) (w : CommandTxs.World)
         (info : CommandTxs.OrderBookInfo) (depth : Q),
    trim ptok = "price" ->
    CommandTxs.isPositiveNumber E (CommandTxs.toNumber E ttok) = true ->
    toUpperCase ctok = CommandTxs.config_coin2 E ->
    CommandTxs.config_coin2 E <> "" ->
    toUpperCase ntok = "NOW" ->
    CommandTxs.is_marker ytok = true ->
    CommandTxs.success
      (CommandTxs.getRatesInfo E
         (CommandTxs.m_pair (CommandTxs.parseMarket E (CommandTxs.config_pair E))))
      = true ->
    CommandTxs.getOrderBookInfo E (CommandTxs.toNumber E ttok) = Some info ->
    CommandTxs.typeTargetPrice info <> "inSpread" ->
    CommandTxs.amountTargetPrice info = Num depth ->
    0 <= depth -> 0 <= rnd -> rnd < 1 ->
    exists (request : CommandTxs.PlaceRequest) (amount : Q),
      CommandTxs.placements
        (snd (CommandTxs.make E now rnd [ptok; ttok; ctok; ntok; ytok] w))
        = CommandTxs.placements w ++ [request] /\
      CommandTxs.r_purpose request = "pm" /\
      CommandTxs.r_type request = CommandTxs.typeTargetPrice info /\
      CommandTxs.r_price request = CommandTxs.toNumber E ttok /\
      CommandTxs.r_coin1Amount request = Num amount /\
      amount == depth * CommandTxs.reliabilityKoef rnd /\
      (105 # 100) * depth <= amount /\ amount <= (11 # 10) * depth.
Proof.
  intros E now rnd ptok ttok ctok ntok ytok w info depth
         Hprice Htarget Hcoin Hcoin2 Hnow Hy Hrates Hinfo Hspread Hdepth
         Hd0 Hr0 Hr1.
  exists (CommandTxs.make_request E (CommandTxs.toNumber E ttok) info
            (Num (CommandTxs.reliabilityKoef rnd))).
  exists (depth * CommandTxs.reliabilityKoef rnd).
  destruct (reliabilityKoef_bounds Hr0 Hr1) as [Hlo Hhi].
  split; [|split; [|split; [|split; [|split; [|split; [|split]]]]]].
  - unfold CommandTxs.make. cbn [nth nth_error].
    rewrite Hprice. cbn [String.eqb Ascii.eqb Bool.eqb negb].
    rewrite Hrates. cbn [negb]. rewrite Htarget. cbn [negb option_map].
    unfold CommandTxs.opt_eqb. rewrite Hcoin, Hnow, String.eqb_refl.
    apply String.eqb_neq in Hcoin2. rewrite Hcoin2.
    change (String.eqb "NOW" "NOW") with true. cbn [negb orb].
    rewrite Hinfo, randomValue_reliability.
    apply String.eqb_neq in Hspread. rewrite Hspread.
    unfold CommandTxs.make_isConfirmed. cbn [map last]. rewrite Hy.
    destruct (CommandTxs.addGeneralOrder E _); reflexivity.
  - reflexivity.
  - reflexivity.
  - reflexivity.
  - simpl. rewrite Hdepth. reflexivity.
  - reflexivity.
  - nra.
  - nra.
Qed.

Lemma make_places_single_order_witness :
  exists (request : CommandTxs.PlaceRequest) (amount : Q),
    CommandTxs.placements
      (snd (CommandTxs.make
              (CommandTxs.example_env None (Some CommandTxs.depth_fifty))
              0 (1 # 2) ["price"; "1.10"; "USDT"; "now"; "-y"]
              CommandTxs.idle_world))
      = CommandTxs.placements CommandTxs.idle_world ++ [request] /\
    CommandTxs.r_purpose request = "pm" /\
    CommandTxs.r_type request = "buy" /\
    CommandTxs.r_price request = decimalToNumber "1.10" /\
    CommandTxs.r_coin1Amount request = Num amount /\
    amount == 50 * CommandTxs.reliabilityKoef (1 # 2) /\
    (105 # 100) * 50 <= amount /\ amount <= (11 # 10) * 50.
Proof.
  apply (@make_places_single_order
           (CommandTxs.example_env None (Some CommandTxs.depth_fifty))
           0%Z (1 # 2) "price" "1.10" "USDT" "now" "-y"
           CommandTxs.idle_world CommandTxs.depth_fifty 50);
    first [ reflexivity | discriminate | lra
          | vm_compute; reflexivity | vm_compute; discriminate ].
Defined.

(** An unconfirmed [make price T now] places nothing and asks for
    confirmation; on a target inside the spread it neither places nor asks. *)
Lemma make_unconfirmed_places_nothing :
  let E := CommandTxs.example_env None (Some CommandTxs.depth_fifty) in
  let w := snd (CommandTxs.make E 7 (1 # 2) ["price"; "1.10"; "USDT"; "now"]
                  CommandTxs.idle_world) in
  CommandTxs.placements w = [] /\
  CommandTxs.pendingConfirmation w
    = {| CommandTxs.command := "/make price 1.10 USDT now";
         CommandTxs.timestamp := 7 |}.
Proof. split; vm_compute; reflexivity. Qed.

Lemma make_in_spread_places_nothing :
  let inSpread := {| CommandTxs.typeTargetPrice := "inSpread";
                     CommandTxs.amountTargetPrice := Num 0;
                     CommandTxs.amountTargetPriceQuote := Num 0 |} in
  snd (CommandTxs.make (CommandTxs.example_env None (Some inSpread)) 7 (1 # 2)
         ["price"; "0.995"; "USDT"; "now"; "-y"] CommandTxs.idle_world)
  = CommandTxs.idle_world.
Proof. vm_compute. reflexivity. Qed.

(* --------------------------------------------------------------------- *)
(** ** The string and number helpers on the inputs used above *)
(* --------------------------------------------------------------------- *)

Example toLowerCase_sell : toLowerCase "SeLL" = "sell".
Proof. reflexivity. Qed.

Example toUpperCase_usdt : toUpperCase "usdt" = "USDT".
Proof. reflexivity. Qed.

Example trim_spaces : trim "  low = 1 " = "low = 1".
Proof. reflexivity. Qed.

Example split_assignment : split "="%char "quote=0.01" = ["quote"; "0.01"].
Proof. reflexivity. Qed.

Example split_no_assignment : split "="%char "count" = ["count"].
Proof. reflexivity. Qed.

Example join_params : join ["price"; "1.10"; "USDT"] = "price 1.10 USDT".
Proof. reflexivity. Qed.

Example indexOf_filter : indexOf ["mm"; "sell"; ">0.5"; "USDT"] ">0.5" = Some 2%nat.
Proof. reflexivity. Qed.

Example decimal_half : decimalToNumber "0.5" = Num (5 # 10).
Proof. reflexivity. Qed.

Example decimal_not_a_number : decimalToNumber "1.1.0" = NaN.
Proof. reflexivity. Qed.

Example setType_unset :
  OrderBookBuilder.setType
    {| OrderBookBuilder.mm_buyPercent := Num 0;
       OrderBookBuilder.mm_isActive := true;
       OrderBookBuilder.mm_isOrderBookActive := true;
       OrderBookBuilder.mm_policyIsRegular := true;
       OrderBookBuilder.mm_orderBookOrdersCount := Num 20 |} (1 # 2) = None.
Proof. reflexivity. Qed.

(* --------------------------------------------------------------------- *)
(** ** The setting commands *)
(* --------------------------------------------------------------------- *)

Lemma gt_Num (x y : Q) : Js.gt (Num x) (Num y) = true <-> y < x.
Proof. unfold Js.gt. apply lt_Num. Qed.

Lemma gt_Num_false (x y : Q) : Js.gt (Num x) (Num y) = false <-> x <= y.
Proof. unfold Js.gt. apply lt_Num_false. Qed.

Section SettingCommands.

Import CommandTxs.
Import Settings.

Variable E : Env.
Variable K : Consts.

(** What the guard of [buypercent] lets through. *)
Lemma buypercent_guard (val : number) :
  falsy val || Js.eq val PInf || lt val (Num 0) || gt val (Num 100) = false ->
  exists q, val = Num q /\ 0 < q /\ q <= 100.
Proof.
  intros H.
  apply orb_false_iff in H. destruct H as [H Hgt].
  apply orb_false_iff in H. destruct H as [H Hlt].
  apply orb_false_iff in H. destruct H as [Hf Hinf].
  destruct val as [q | | |]; try discriminate.
  exists q. split; [reflexivity|].
  apply lt_Num_false in Hlt. apply gt_Num_false in Hgt.
  split; [|exact Hgt].
  destruct (Qeq_dec q 0) as [E0|N0].
  - apply falsy_Num in E0. congruence.
  - lra.
Qed.

End SettingCommands.

(** X1.  [buypercent] either answers that the percentage is invalid and
    leaves the settings as they were, or was given a number in (0, 100] and
    stores a share between 0 and 1, ends included, as [mm_buyPercent],
    leaving the other settings as they were.  (The share is the hundredth
    of the number; a quotient the engine rounds to 0 is within these
    bounds.) *)
Theorem buypercent_stores_share (E : CommandTxs.Env) (param : list string)
    (tp : Settings.TradeParams) :
  Settings.buypercent E param tp
    = (CommandTxs.reply
         "Invalid percentage of buy orders. Example: */buyPercent 85*.", tp)
  \/ exists q s : Q,
       CommandTxs.toNumber E (Settings.trimmed_param param 0) = Num q /\
       0 < q /\ q <= 100 /\
       snd (Settings.buypercent E param tp)
         = Settings.set_buyPercent (Num s) tp /\
       0 <= s /\ s <= 1.
Proof.
  unfold Settings.buypercent.
  destruct (falsy _ || _ || _ || _) eqn:G.
  - left. reflexivity.
  - right. destruct (buypercent_guard _ G) as (q & Hq & H0 & H100).
    exists q, (q / 100). rewrite Hq.
    split; [reflexivity|]. split; [exact H0|]. split; [exact H100|].
    split; [reflexivity|]. split.
    + apply Qle_shift_div_l; lra.
    + apply Qle_shift_div_r; lra.
Qed.

(** *** The pieces of [split] *)

Lemma contains_char_rev (c : ascii) (s acc : string) :
  contains_char c (rev_string s acc) = contains_char c s || contains_char c acc.
Proof.
  revert acc. induction s as [|d r IH]; intros acc; simpl.
  - reflexivity.
  - rewrite IH. simpl. destruct (Ascii.eqb c d), (contains_char c r); reflexivity.
Qed.

Lemma split_on_free (sep : ascii) (s cur : string) :
  contains_char sep cur = false ->
  Forall (fun p => contains_char sep p = false) (split_on sep s cur).
Proof.
  revert cur. induction s as [|c r IH]; intros cur Hcur; simpl.
  - constructor; [|constructor]. rewrite contains_char_rev, Hcur. reflexivity.
  - destruct (Ascii.eqb c sep) eqn:Ec.
    + constructor.
      * rewrite contains_char_rev, Hcur. reflexivity.
      * apply IH. reflexivity.
    + apply IH. simpl. rewrite Hcur, Ascii.eqb_sym, Ec. reflexivity.
Qed.

Lemma split_free (sep : ascii) (s : string) :
  Forall (fun p => contains_char sep p = false) (split sep s).
Proof. apply split_on_free. reflexivity. Qed.

Section Pieces.

Import CommandTxs.
Import Settings.

Variable E : Env.

Hypothesis conversion : unsigned_conversion E.

Lemma piece_not_negative (val : string) (i : nat) :
  lt (piece E (split "-" val) i) (Num 0) = false.
Proof.
  unfold piece. destruct (nth_error (split "-" val) i) as [s|] eqn:Hn.
  - apply conversion.
    pose proof (split_free "-" val) as Hall.
    rewrite Forall_forall in Hall. apply Hall.
    eapply nth_error_In. exact Hn.
  - reflexivity.
Qed.

(** What the guard on a bound of [amount] and [interval] lets through. *)
Lemma bound_guard (val : string) (i : nat) :
  falsy (piece E (split "-" val) i) = false ->
  Js.eq (piece E (split "-" val) i) PInf = false ->
  exists a, piece E (split "-" val) i = Num a /\ 0 < a.
Proof.
  intros Hf Hinf. pose proof (piece_not_negative val i) as Hneg.
  destruct (piece E (split "-" val) i) as [a| | |]; try discriminate.
  exists a. split; [reflexivity|].
  apply lt_Num_false in Hneg.
  destruct (Qeq_dec a 0) as [E0|N0].
  - apply falsy_Num in E0. congruence.
  - lra.
Qed.

Lemma bounds_guard (val : string) :
  let min := piece E (split "-" val) 0 in
  let max := piece E (split "-" val) 1 in
  falsy min || Js.eq min PInf || falsy max || Js.eq max PInf = false ->
  exists a b, min = Num a /\ max = Num b /\ 0 < a /\ 0 < b.
Proof.
  intros min max H.
  apply orb_false_iff in H. destruct H as [H Hinf2].
  apply orb_false_iff in H. destruct H as [H Hf2].
  apply orb_false_iff in H. destruct H as [Hf1 Hinf1].
  destruct (bound_guard val 0 Hf1 Hinf1) as (a & Ha & Ha0).
  destruct (bound_guard val 1 Hf2 Hinf2) as (b & Hb & Hb0).
  exists a, b. auto.
Qed.

End Pieces.

(** *** The decimal reading is an unsigned conversion *)

Lemma read_digits_nonneg (s : string) (acc : Z) (len : nat) :
  (0 <= acc)%Z -> (0 <= fst (fst (read_digits s acc len)))%Z.
Proof.
  revert acc len. induction s as [|c r IH]; intros acc len Hacc;
    cbn [read_digits].
  - exact Hacc.
  - destruct (digit_of c) as [d|] eqn:Hd; [|exact Hacc].
    apply IH. unfold digit_of in Hd.
    destruct ((48 <=? nat_of_ascii c)%nat && (nat_of_ascii c <=? 57)%nat);
      [|discriminate].
    injection Hd as <-. lia.
Qed.

Lemma decimalToNumber_unsigned (s : string) :
  lt (decimalToNumber s) (Num 0) = false.
Proof.
  unfold decimalToNumber. destruct (trim s) as [|c t]; [reflexivity|].
  pose proof (@read_digits_nonneg (String c t) 0 0 (Z.le_refl 0)) as Hip.
  destruct (read_digits (String c t) 0 0) as [[ip ilen] rest].
  cbn [fst] in Hip.
  assert (Hinj : 0 <= inject_Z ip).
  { unfold Qle. simpl. lia. }
  destruct rest as [|d rest]; [apply lt_Num_false; exact Hinj|].
  destruct (Ascii.eqb d ".") eqn:Ed.
  - apply Ascii.eqb_eq in Ed. subst d.
    pose proof (@read_digits_nonneg rest 0 0 (Z.le_refl 0)) as Hfp.
    destruct (read_digits rest 0 0) as [[fp flen] rest'].
    cbn [fst] in Hfp.
    destruct rest'; [|reflexivity].
    destruct ((ilen + flen =? 0)%nat); [reflexivity|].
    apply lt_Num_false.
    assert (0 <= fp # Pos.of_nat (10 ^ flen)) by (unfold Qle; simpl; lia).
    lra.
  - destruct d as [b0 b1 b2 b3 b4 b5 b6 b7].
    destruct b0, b1, b2, b3, b4, b5, b6, b7;
      first [discriminate Ed | reflexivity].
Qed.

Lemma contains_char_nonempty (c : ascii) (s : string) :
  contains_char c s = true -> Settings.nonempty s = true.
Proof. destruct s; [discriminate | reflexivity]. Qed.

(** X3.  [amount] either leaves the settings as they were, or stores two
    positive finite numbers with [mm_minAmount <= mm_maxAmount].  The bounds
    are the pieces of the parameter around its first two minus signs, so
    neither carries a sign. *)
Theorem amount_stores_ordered_bounds (E : CommandTxs.Env) (K : Settings.Consts)
    (param : list string) (tp : Settings.TradeParams) :
  Settings.unsigned_conversion E ->
  snd (Settings.amount E K param tp) = tp \/
  exists a b : Q,
    0 < a /\ a <= b /\
    snd (Settings.amount E K param tp) = Settings.set_amounts (Num a) (Num b) tp.
Proof.
  intros Hconv. unfold Settings.amount.
  destruct (negb _ || negb _); [left; reflexivity|].
  destruct (falsy _ || _ || _ || _) eqn:G; [left; reflexivity|].
  destruct (bounds_guard Hconv _ G) as (a & b & Ha & Hb & Ha0 & Hb0).
  rewrite Ha, Hb.
  destruct (gt (Num a) (Num b)) eqn:Hgt; [left; reflexivity|].
  right. exists a, b. apply gt_Num_false in Hgt. auto.
Qed.

Lemma amount_stores_ordered_bounds_witness :
  snd (Settings.amount (CommandTxs.example_env None None)
         Settings.example_consts ["0.01-20"] Settings.shipped) = Settings.shipped
  \/ exists a b : Q,
       0 < a /\ a <= b /\
       snd (Settings.amount (CommandTxs.example_env None None)
              Settings.example_consts ["0.01-20"] Settings.shipped)
         = Settings.set_amounts (Num a) (Num b) Settings.shipped.
Proof.
  apply (@amount_stores_ordered_bounds (CommandTxs.example_env None None)
           Settings.example_consts ["0.01-20"] Settings.shipped).
  intros s _. apply decimalToNumber_unsigned.
Defined.

(** X4.  A range given the wrong way round, as in [/amount 20-0.01], is
    refused by [amount] of the current router, which leaves the settings as
    they were; the older [amount] has no such check and stores
    [mm_minAmount] above [mm_maxAmount]. *)
Theorem legacy_amount_stores_inverted_range (E : CommandTxs.Env)
    (K : Settings.Consts) (param : list string) (tp : Settings.TradeParams)
    (a b : Q) :
  let val := Settings.trimmed_param param 0 in
  contains_char "-" val = true ->
  Settings.piece E (split "-" val) 0 = Num a ->
  Settings.piece E (split "-" val) 1 = Num b ->
  0 < b -> b < a ->
  snd (Settings.amount E K param tp) = tp /\
  snd (SettingsLegacy.amount E param tp) = Settings.set_amounts (Num a) (Num b) tp.
Proof.
  intros val Hc Ha Hb Hb0 Hab.
  assert (G : falsy (Num a) || Js.eq (Num a) PInf || falsy (Num b)
              || Js.eq (Num b) PInf = false).
  { rewrite !falsy_Num_false by (intros E0; lra). reflexivity. }
  assert (Hgt : gt (Num a) (Num b) = true) by (apply gt_Num; exact Hab).
  unfold Settings.amount, SettingsLegacy.amount. fold val.
  rewrite (contains_char_nonempty _ _ Hc), Hc, Ha, Hb, G, Hgt.
  split; reflexivity.
Qed.

Lemma legacy_amount_stores_inverted_range_witness :
  snd (Settings.amount (CommandTxs.example_env None None)
         Settings.example_consts ["20-0.01"] Settings.shipped) = Settings.shipped
  /\ snd (SettingsLegacy.amount (CommandTxs.example_env None None) ["20-0.01"]
            Settings.shipped)
     = Settings.set_amounts (Num 20) (Num (inject_Z 0 + (1 # 100)))
         Settings.shipped.
Proof.
  apply (@legacy_amount_stores_inverted_range (CommandTxs.example_env None None)
           Settings.example_consts ["20-0.01"] Settings.shipped
           20 (inject_Z 0 + (1 # 100))).
  - reflexivity.
  - reflexivity.
  - reflexivity.
  - reflexivity.
  - reflexivity.
Defined.

Lemma multiplier_of_cases (time : string) (m : number) :
  Settings.multiplier_of time = Some m ->
  In time ["sec"; "min"; "hour"] /\ exists mq, m = Num mq /\ 0 < mq.
Proof.
  unfold Settings.multiplier_of.
  destruct (String.eqb time "sec") eqn:E1.
  { apply String.eqb_eq in E1. intros [= <-]. split; [left; auto|].
    eexists. split; [reflexivity | reflexivity]. }
  destruct (String.eqb time "min") eqn:E2.
  { apply String.eqb_eq in E2. intros [= <-]. split; [right; left; auto|].
    eexists. split; [reflexivity | reflexivity]. }
  destruct (String.eqb time "hour") eqn:E3; [|discriminate].
  apply String.eqb_eq in E3. intros [= <-]. split; [right; right; left; auto|].
  eexists. split; [reflexivity | reflexivity].
Qed.

Lemma Qfloor_nonneg (q : Q) : 0 <= q -> (0 <= Qfloor q)%Z.
Proof. intros H. apply (Qfloor_resp_le 0 q H). Qed.

Lemma le_Num (x y : Q) : Js.le (Num x) (Num y) = true <-> x <= y.
Proof.
  unfold Js.le. rewrite orb_true_iff, lt_Num. cbn [Js.eq].
  rewrite Qeq_bool_iff. split.
  - intros [H | H]; lra.
  - intros H. destruct (Qlt_le_dec x y) as [L | L]; [left; exact L|].
    right. apply Qle_antisym; assumption.
Qed.

(** X5.  [interval] either leaves the settings as they were, or was given
    one of the units [sec], [min] and [hour] and stores two bounds in
    milliseconds with [0 <= mm_minInterval <= mm_maxInterval], each a whole
    number unless it is [Infinity] (which a product beyond the range of the
    engine's numbers rounds to). *)
Theorem interval_stores_ordered_integers (E : CommandTxs.Env)
    (K : Settings.Consts) (param : list string) (tp : Settings.TradeParams) :
  Settings.unsigned_conversion E ->
  snd (Settings.interval E K param tp) = tp \/
  exists lo hi : number,
    In (toLowerCase (Settings.trimmed_param param 1)) ["sec"; "min"; "hour"] /\
    snd (Settings.interval E K param tp) = Settings.set_intervals lo hi tp /\
    Js.le (Num 0) lo = true /\ Js.le lo hi = true /\
    (lo = PInf \/ exists x : Z, lo = Num (inject_Z x)) /\
    (hi = PInf \/ exists y : Z, hi = Num (inject_Z y)).
Proof.
  intros Hconv. unfold Settings.interval.
  destruct (negb _ || negb _); [left; reflexivity|].
  destruct (Settings.multiplier_of _) as [m|] eqn:Hm; [|left; reflexivity].
  destruct (multiplier_of_cases _ Hm) as (Hin & mq & -> & Hmq).
  destruct (falsy _ || _ || _ || _) eqn:G; [left; reflexivity|].
  destruct (bounds_guard Hconv _ G) as (a & b & Ha & Hb & Ha0 & Hb0).
  rewrite Ha, Hb.
  destruct (gt (Num a) (Num b)) eqn:Hgt; [left; reflexivity|].
  apply gt_Num_false in Hgt.
  right.
  exists (Num (inject_Z (Qfloor (a * mq + (1 # 2))))),
         (Num (inject_Z (Qfloor (b * mq + (1 # 2))))).
  split; [exact Hin|]. split; [reflexivity|].
  split.
  { apply le_Num. change 0 with (inject_Z 0). rewrite <- Zle_Qle.
    apply Qfloor_nonneg. nra. }
  split.
  { apply le_Num. rewrite <- Zle_Qle. apply Qfloor_resp_le. nra. }
  split; right; eexists; reflexivity.
Qed.

Lemma interval_stores_ordered_integers_witness :
  snd (Settings.interval (CommandTxs.example_env None None)
         Settings.example_consts ["1-5"; "min"] Settings.shipped)
    = Settings.shipped
  \/ exists lo hi : number,
       In (toLowerCase (Settings.trimmed_param ["1-5"; "min"] 1))
          ["sec"; "min"; "hour"] /\
       snd (Settings.interval (CommandTxs.example_env None None)
              Settings.example_consts ["1-5"; "min"] Settings.shipped)
         = Settings.set_intervals lo hi Settings.shipped /\
       Js.le (Num 0) lo = true /\ Js.le lo hi = true /\
       (lo = PInf \/ exists x : Z, lo = Num (inject_Z x)) /\
       (hi = PInf \/ exists y : Z, hi = Num (inject_Z y)).
Proof.
  apply (@interval_stores_ordered_integers (CommandTxs.example_env None None)
           Settings.example_consts ["1-5"; "min"] Settings.shipped).
  intros s _. apply decimalToNumber_unsigned.
Defined.

Lemma opt_eqb_Some (s : string) : CommandTxs.opt_eqb (Some s) s = true.
Proof. unfold CommandTxs.opt_eqb. apply String.eqb_refl. Qed.

Lemma includes_In (l : list string) (s : string) :
  Settings.includes l s = true <-> In s l.
Proof.
  unfold Settings.includes. rewrite existsb_exists. split.
  - intros (x & Hx & He). apply String.eqb_eq in He. subst. exact Hx.
  - intros H. exists s. split; [exact H | apply String.eqb_refl].
Qed.

(** X6.  [/stop mm] followed by [/start mm] without a policy, with or without
    the confirmation marker, resumes market making under the policy that was
    in force: the settings are again what they were before [/stop mm], and
    the price watcher is not asked to restore anything. *)
Theorem start_after_stop_resumes (E : CommandTxs.Env) (K : Settings.Consts)
    (stopParams startParams : list string) (tp : Settings.TradeParams) :
  Settings.lower_param stopParams 0 = Some "mm" ->
  Settings.lower_param startParams 0 = Some "mm" ->
  (nth_error startParams 1 = None \/
   exists m, nth_error startParams 1 = Some m /\ CommandTxs.is_marker m = true) ->
  Settings.mm_isActive tp = true ->
  Settings.includes (Settings.MM_POLICIES K) (Settings.mm_Policy tp) = true ->
  Settings.nonempty (Settings.mm_Policy tp) = true ->
  toLowerCase (Settings.mm_Policy tp) = Settings.mm_Policy tp ->
  let stopped := snd (Settings.stop E stopParams tp) in
  Settings.mm_isActive stopped = false /\
  snd (fst (Settings.start E K startParams stopped)) = tp /\
  snd (Settings.start E K startParams stopped) = [].
Proof.
  intros Hstop Hstart Hsecond Hact Hin Hne Hlow stopped.
  assert (Hs : stopped = Settings.set_active false (Settings.mm_Policy tp) tp).
  { unfold stopped, Settings.stop. rewrite Hstop, opt_eqb_Some. reflexivity. }
  rewrite Hs. split; [reflexivity|].
  unfold Settings.start. rewrite Hstart, opt_eqb_Some. cbn [negb].
  assert (Hp : match nth_error startParams 1 with
               | Some s => if CommandTxs.is_marker s then "" else s
               | None => ""
               end = "").
  { destruct Hsecond as [-> | (m & -> & ->)]; reflexivity. }
  rewrite Hp. cbn [Settings.nonempty String.eqb negb Settings.mm_Policy
                   Settings.set_active].
  rewrite Hne, Hlow, Hin. cbn [negb].
  cbn [fst snd]. split.
  2:{ destruct (Settings.mm_Policy tp =? "depth")%string;
        [rewrite andb_false_r | rewrite andb_false_r]; reflexivity. }
  destruct tp; cbn in *. subst. reflexivity.
Qed.

Lemma start_after_stop_resumes_witness :
  let tp := Settings.set_active true "spread" Settings.shipped in
  let stopped := snd (Settings.stop (CommandTxs.example_env None None) ["MM"] tp) in
  Settings.mm_isActive stopped = false /\
  snd (fst (Settings.start (CommandTxs.example_env None None)
              Settings.example_consts ["mm"; "-y"] stopped)) = tp /\
  snd (Settings.start (CommandTxs.example_env None None)
         Settings.example_consts ["mm"; "-y"] stopped) = [].
Proof.
  apply (@start_after_stop_resumes (CommandTxs.example_env None None)
           Settings.example_consts ["MM"] ["mm"; "-y"]
           (Settings.set_active true "spread" Settings.shipped)).
  - reflexivity.
  - reflexivity.
  - right. exists "-y". split; reflexivity.
  - reflexivity.
  - reflexivity.
  - reflexivity.
  - reflexivity.
Defined.

(** X7.  After [/stop mm], and after [/disable ob], the condition of
    [iteration] fails whatever the pause drawn: a chain that enters
    [iteration] under the new settings leaves the scheduler as it is and
    starts no [buildOrderBook]. *)
Theorem stop_and_disable_close_the_gate (E : CommandTxs.Env)
    (K : Settings.Consts) (params : list string)
    (tp tp' : Settings.TradeParams) :
  (Settings.lower_param params 0 = Some "mm" /\
   tp' = snd (Settings.stop E params tp)) \/
  (Settings.lower_param params 0 = Some "ob" /\
   tp' = snd (fst (Settings.disable E params tp))) ->
  forall (i : nat) (interval : Z) (s : OrderBookBuilder.Scheduler),
    OrderBookBuilder.gate interval (Settings.builder_view K tp') = false /\
    OrderBookBuilder.enter_iteration i interval (Settings.builder_view K tp') s = s.
Proof.
  intros H i interval s.
  assert (G : OrderBookBuilder.gate interval (Settings.builder_view K tp') = false).
  { unfold OrderBookBuilder.gate.
    destruct H as [[Ht ->] | [Ht ->]].
    - unfold Settings.stop. rewrite Ht, opt_eqb_Some. cbn.
      rewrite andb_false_r. reflexivity.
    - unfold Settings.disable. rewrite Ht. cbn.
      rewrite andb_false_r. reflexivity. }
  split; [exact G|].
  unfold OrderBookBuilder.enter_iteration. rewrite G. reflexivity.
Qed.

Lemma stop_and_disable_close_the_gate_witness :
  let tp := Settings.set_active true "optimal" Settings.shipped in
  OrderBookBuilder.gate 2000
    (Settings.builder_view Settings.example_consts tp) = true /\
  OrderBookBuilder.gate 2000
    (Settings.builder_view Settings.example_consts
       (snd (fst (Settings.disable (CommandTxs.example_env None None) ["ob"] tp))))
  = false.
Proof.
  split; [reflexivity|].
  refine (proj1 (@stop_and_disable_close_the_gate
                   (CommandTxs.example_env None None) Settings.example_consts
                   ["ob"] (Settings.set_active true "optimal" Settings.shipped)
                   _ _ 0%nat 2000%Z OrderBookBuilder.scheduler_init)).
  right. split; reflexivity.
Defined.

(** X8.  [enable] stores the ob-order count before it looks at the percent:
    [/enable ob N P] with a count [N] that passes and a percent [P] that
    does not is answered with the error on the percent, and has nevertheless
    set [mm_orderBookOrdersCount] to [N]; nothing else is changed. *)
Theorem enable_ob_stores_count_of_refused_command (E : CommandTxs.Env)
    (others : list string -> Settings.TradeParams ->
              CommandTxs.CommandResult * Settings.TradeParams)
    (params : list string) (tp : Settings.TradeParams) (count percent : string) :
  Settings.lower_param params 0 = Some "ob" ->
  nth_error params 1 = Some count ->
  CommandTxs.isPositiveNumber E (CommandTxs.toNumber E count) = true ->
  nth_error params 2 = Some percent ->
  Settings.nonempty percent = true ->
  (Settings.last_char percent =? "%")%string = false \/
  CommandTxs.isPositiveNumber E
    (CommandTxs.toNumber E (Settings.but_last percent)) = false ->
  let res := Settings.enable E others params tp in
  CommandTxs.msgNotify (fst res) = "" /\
  startsWith (CommandTxs.msgSendBack (fst res))
    "Set correct max ob-order amount percent" = true /\
  snd res = Settings.set_orderBookOrdersCount (CommandTxs.toNumber E count) tp.
Proof.
  intros Ht Hc Hpos Hp Hne Hbad res.
  assert (Hb : negb (CommandTxs.isPositiveNumber E
                 (CommandTxs.toNumber E (Settings.but_last percent)))
               || negb (Settings.last_char percent =? "%")%string = true).
  { destruct Hbad as [-> | ->]; [apply orb_true_r | reflexivity]. }
  unfold res, Settings.enable. rewrite Ht. cbn [Settings.validateFeature fst].
  change (Settings.includes (map fst Settings.botFeatures) "ob") with true.
  cbn [negb]. rewrite opt_eqb_Some.
  unfold Settings.enable_ob. rewrite Hc, Hp, Hpos, Hne, Hb.
  cbn [negb]. rewrite andb_false_r.
  split; [reflexivity|]. split; reflexivity.
Qed.

Lemma enable_ob_stores_count_of_refused_command_witness :
  let res := Settings.enable (CommandTxs.example_env None None)
               (fun _ tp => (CommandTxs.reply "", tp)) ["ob"; "15"; "20"]
               Settings.shipped in
  Settings.mm_orderBookOrdersCount Settings.shipped = Num 20 /\
  snd res = Settings.set_orderBookOrdersCount (Num 15) Settings.shipped.
Proof.
  split; [reflexivity|].
  refine (proj2 (proj2 (@enable_ob_stores_count_of_refused_command
            (CommandTxs.example_env None None)
            (fun _ tp => (CommandTxs.reply "", tp)) ["ob"; "15"; "20"]
            Settings.shipped "15" "20" _ _ _ _ _ _))).
  - reflexivity.
  - reflexivity.
  - reflexivity.
  - reflexivity.
  - reflexivity.
  - left. reflexivity.
Defined.

Lemma placement_loop_no_cap (tp : OrderBookBuilder.TradeParams)
    (place : nat -> nat -> bool) (ordersToPlace count attempt : nat) :
  falsy (OrderBookBuilder.mm_orderBookOrdersCount tp) = true ->
  OrderBookBuilder.placement_loop tp place ordersToPlace count attempt
  = (count, []).
Proof.
  intros Hf. destruct ordersToPlace as [|n]; [reflexivity|].
  cbn [OrderBookBuilder.placement_loop].
  replace (lt (OrderBookBuilder.num_of_nat count)
              (OrderBookBuilder.mm_orderBookOrdersCount tp)) with false;
    [reflexivity|].
  symmetry. destruct (OrderBookBuilder.mm_orderBookOrdersCount tp) as [q| | |];
    try discriminate; [|reflexivity].
  apply falsy_Num in Hf. unfold OrderBookBuilder.num_of_nat.
  apply lt_Num_false. rewrite Hf.
  unfold Qle. simpl. lia.
Qed.

(** X9.  [/enable ob] without a count only assigns the default count to a
    local variable: when [mm_orderBookOrdersCount] is unset the command
    switches order book building on and leaves the count unset, and under
    these settings [buildOrderBook] places no order. *)
Theorem enable_ob_without_count_sets_no_cap (E : CommandTxs.Env)
    (K : Settings.Consts)
    (others : list string -> Settings.TradeParams ->
              CommandTxs.CommandResult * Settings.TradeParams)
    (params : list string) (tp : Settings.TradeParams) :
  Settings.lower_param params 0 = Some "ob" ->
  nth_error params 1 = None ->
  CommandTxs.isPositiveNumber E NaN = false ->
  falsy (Settings.mm_orderBookOrdersCount tp) = true ->
  let tp' := snd (Settings.enable E others params tp) in
  Settings.mm_isOrderBookActive tp' = true /\
  Settings.mm_orderBookOrdersCount tp' = Settings.mm_orderBookOrdersCount tp /\
  forall now clearOrderById placeOrderBookOrder ordersToPlace orderBookOrders,
    snd (OrderBookBuilder.buildOrderBook (Settings.builder_view K tp') now
           clearOrderById placeOrderBookOrder ordersToPlace orderBookOrders)
    = [].
Proof.
  intros Ht H1 Hnan Hf tp'.
  assert (H2 : nth_error params 2 = None).
  { apply nth_error_None. apply nth_error_None in H1. lia. }
  assert (Htp : tp' = Settings.set_orderBookMaxOrderPercent (Num 100)
                        (Settings.set_orderBookActive true tp)).
  { unfold tp', Settings.enable. rewrite Ht. cbn [Settings.validateFeature fst].
    change (Settings.includes (map fst Settings.botFeatures) "ob") with true.
    cbn [negb]. rewrite opt_eqb_Some.
    unfold Settings.enable_ob. rewrite H1, H2, Hnan. reflexivity. }
  rewrite Htp. split; [reflexivity|]. split; [reflexivity|].
  intros. unfold OrderBookBuilder.buildOrderBook.
  rewrite placement_loop_no_cap; [reflexivity | exact Hf].
Qed.

Lemma enable_ob_without_count_sets_no_cap_witness :
  let tp := Settings.set_orderBookOrdersCount NaN Settings.shipped in
  let tp' := snd (Settings.enable (CommandTxs.example_env None None)
                    (fun _ tp => (CommandTxs.reply "", tp)) ["ob"] tp) in
  Settings.mm_isOrderBookActive tp' = true /\
  Settings.mm_orderBookOrdersCount tp' = NaN.
Proof.
  pose proof (@enable_ob_without_count_sets_no_cap
                (CommandTxs.example_env None None) Settings.example_consts
                (fun _ tp => (CommandTxs.reply "", tp)) ["ob"]
                (Settings.set_orderBookOrdersCount NaN Settings.shipped)
                eq_refl eq_refl eq_refl eq_refl) as H.
  split; [exact (proj1 H) | exact (proj1 (proj2 H))].
Defined.

(* --------------------------------------------------------------------- *)
(** ** Order-book builder: placing one ob-order *)
(* --------------------------------------------------------------------- *)

Lemma eq_self (x : number) : Js.eq x x = true <-> x <> NaN.
Proof.
  destruct x as [q| | |]; simpl; split; try congruence; intros _.
  apply Qeq_bool_iff. reflexivity.
Qed.

Lemma eq_congr (x y z : number) :
  Js.eq x y = true -> Js.eq z x = Js.eq z y.
Proof.
  destruct x as [a| | |], y as [b| | |]; simpl; try discriminate; try reflexivity.
  intros H. apply Qeq_bool_iff in H.
  destruct z as [c| | |]; try reflexivity. simpl.
  destruct (Qeq_bool c a) eqn:E1, (Qeq_bool c b) eqn:E2; try reflexivity.
  - apply Qeq_bool_iff in E1. apply Qeq_bool_neq in E2.
    exfalso. apply E2. rewrite E1. exact H.
  - apply Qeq_bool_iff in E2. apply Qeq_bool_neq in E1.
    exfalso. apply E1. rewrite E2. symmetry. exact H.
Qed.

Section Dedupe.

Import Placement.

Lemma findIndex_Some (f : Entry -> bool) (l : list Entry) (i : nat) :
  findIndex f l = Some i ->
  (exists x, nth_error l i = Some x /\ f x = true) /\
  (forall j y, (j < i)%nat -> nth_error l j = Some y -> f y = false).
Proof.
  revert i. induction l as [|o r IH]; intros i H; [discriminate|].
  cbn [findIndex] in H. destruct (f o) eqn:Fo.
  - injection H as <-. split.
    + exists o. split; [reflexivity | exact Fo].
    + intros j y Hj. lia.
  - destruct (findIndex f r) as [k|] eqn:Hk; [|discriminate].
    injection H as <-. destruct (IH k eq_refl) as [Hx Hmin]. split.
    + exact Hx.
    + intros [|j] y Hj Hy.
      * injection Hy as <-. exact Fo.
      * apply (Hmin j y); [lia | exact Hy].
Qed.

Lemma findIndex_exists (f : Entry -> bool) (l : list Entry) (x : Entry) :
  In x l -> f x = true -> exists i, findIndex f l = Some i.
Proof.
  induction l as [|o r IH]; intros Hin Hf; [contradiction|].
  cbn [findIndex]. destruct (f o) eqn:Fo; [eexists; reflexivity|].
  destruct Hin as [-> | Hin]; [congruence|].
  destruct (IH Hin Hf) as [i ->]. eexists. reflexivity.
Qed.

Lemma findIndex_ext (f g : Entry -> bool) (l : list Entry) :
  (forall x, f x = g x) -> findIndex f l = findIndex g l.
Proof.
  intros H. induction l as [|o r IH]; [reflexivity|].
  cbn [findIndex]. rewrite H, IH. reflexivity.
Qed.

Lemma filter_from_In (keep : nat -> Entry -> bool) (l : list Entry)
    (i : nat) (x : Entry) :
  In x (filter_from keep i l) <->
  exists j, nth_error l j = Some x /\ keep (i + j)%nat x = true.
Proof.
  revert i. induction l as [|o r IH]; intros i; cbn [filter_from].
  - split; [contradiction|]. intros ([|j] & H & _); discriminate.
  - split.
    + intros H.
      assert (Hrest : In x (filter_from keep (S i) r) ->
                      exists j, nth_error (o :: r) j = Some x
                                /\ keep (i + j)%nat x = true).
      { intros Hr. apply IH in Hr. destruct Hr as (j & Hj & Hk).
        exists (S j). split; [exact Hj|].
        replace (i + S j)%nat with (S i + j)%nat by lia. exact Hk. }
      destruct (keep i o) eqn:Ko; [|auto].
      destruct H as [-> | H]; [|auto].
      exists 0%nat. split; [reflexivity|].
      replace (i + 0)%nat with i by lia. exact Ko.
    + intros ([|j] & Hj & Hk).
      * injection Hj as ->. replace (i + 0)%nat with i in Hk by lia.
        rewrite Hk. left. reflexivity.
      * assert (Hr : In x (filter_from keep (S i) r)).
        { apply IH. exists j. split; [exact Hj|].
          replace (S i + j)%nat with (i + S j)%nat by lia. exact Hk. }
        destruct (keep i o); [right|]; exact Hr.
Qed.

Lemma first_with_price_earlier (self : list Entry) (i j : nat) (a b : Entry) :
  first_with_price self j b = true ->
  (i < j)%nat -> nth_error self i = Some a ->
  Js.eq (price a) (price b) = false.
Proof.
  unfold first_with_price. intros H Hij Ha.
  destruct (findIndex _ self) as [k|] eqn:Hk; [|discriminate].
  apply Nat.eqb_eq in H. subst k.
  destruct (findIndex_Some _ _ Hk) as [_ Hmin].
  exact (Hmin i a Hij Ha).
Qed.

Lemma dedupe_suffix (self suf pre : list Entry) :
  self = pre ++ suf ->
  let kept := filter_from (first_with_price self) (List.length pre) suf in
  ForallOrdPairs (fun a b => Js.eq (price a) (price b) = false) kept /\
  Forall (fun b => forall a, In a pre -> Js.eq (price a) (price b) = false) kept.
Proof.
  revert pre. induction suf as [|x r IH]; intros pre Hself kept.
  - split; constructor.
  - assert (Hself' : self = (pre ++ [x]) ++ r)
      by (rewrite <- app_assoc; exact Hself).
    specialize (IH (pre ++ [x]) Hself').
    rewrite length_app, Nat.add_1_r in IH. cbn zeta in IH.
    destruct IH as [Hpairs Hall].
    assert (Hrest : Forall (fun b => forall a, In a pre ->
                                     Js.eq (price a) (price b) = false)
                      (filter_from (first_with_price self)
                         (S (List.length pre)) r)).
    { eapply Forall_impl; [|exact Hall]. intros b Hb a Ha.
      apply Hb. apply in_or_app. left. exact Ha. }
    unfold kept. cbn [filter_from].
    destruct (first_with_price self (List.length pre) x) eqn:Kx.
    + split.
      * constructor; [|exact Hpairs].
        eapply Forall_impl; [|exact Hall]. intros b Hb.
        apply Hb. apply in_or_app. right. left. reflexivity.
      * constructor; [|exact Hrest].
        intros a Ha. apply In_nth_error in Ha. destruct Ha as [i Hi].
        assert (Hlt : (i < List.length pre)%nat).
        { apply nth_error_Some. congruence. }
        apply (@first_with_price_earlier self i (List.length pre) a x Kx Hlt).
        rewrite Hself, nth_error_app1 by exact Hlt. exact Hi.
    + split; assumption.
Qed.

End Dedupe.

(** X10.  The removal of duplicates in [placeOrderBookOrder] leaves a list in
    which no two entries have the same price; what it keeps are entries of
    the book with a price, and every price of the book is still there. *)
Theorem dedupe_keeps_each_price_once (orderList : list Placement.Entry) :
  ForallOrdPairs
    (fun a b => Js.eq (Placement.price a) (Placement.price b) = false)
    (Placement.dedupe orderList) /\
  (forall e, In e (Placement.dedupe orderList) ->
     In e orderList /\ Placement.price e <> NaN) /\
  (forall e, In e orderList -> Placement.price e <> NaN ->
     exists e', In e' (Placement.dedupe orderList) /\
                Js.eq (Placement.price e') (Placement.price e) = true).
Proof.
  split; [|split].
  - exact (proj1 (@dedupe_suffix orderList orderList [] eq_refl)).
  - intros e He. unfold Placement.dedupe in He.
    apply filter_from_In in He. destruct He as (j & Hj & Hk). cbn in Hk.
    split; [eapply nth_error_In; exact Hj|].
    unfold Placement.first_with_price in Hk.
    destruct (Placement.findIndex _ orderList) as [k|] eqn:Hf; [|discriminate].
    apply Nat.eqb_eq in Hk. subst k.
    destruct (findIndex_Some _ _ Hf) as [(x & Hx & Heq) _].
    rewrite Hj in Hx. injection Hx as <-.
    apply eq_self. exact Heq.
  - intros e He Hp. apply eq_self in Hp.
    destruct (@findIndex_exists
                (fun o => Js.eq (Placement.price o) (Placement.price e))
                orderList e He Hp) as [i Hi].
    destruct (findIndex_Some _ _ Hi) as [(e' & He' & Heq) _].
    exists e'. split; [|exact Heq].
    unfold Placement.dedupe. apply filter_from_In.
    exists i. split; [exact He'|]. cbn.
    unfold Placement.first_with_price.
    rewrite (@findIndex_ext _
               (fun o => Js.eq (Placement.price o) (Placement.price e))).
    + rewrite Hi. apply Nat.eqb_refl.
    + intros o. apply eq_congr. exact Heq.
Qed.

Lemma adjust_Num (p a b : Q) :
  0 < p -> a <= b ->
  exists x y, Placement.adjust (Num p) (Num a) (Num b) = (Num x, Num y) /\
              a <= x /\ x <= y /\ y <= b.
Proof.
  intros Hp Hab. unfold Placement.adjust. cbn [add sub neg].
  destruct (lt (Num (a + p)) (Num b)) eqn:H1.
  - apply lt_Num in H1.
    destruct (gt (Num (b + - p)) (Num (a + p))) eqn:H2.
    + apply gt_Num in H2. exists (a + p), (b + - p).
      split; [reflexivity|]. split; [lra|]. split; lra.
    + apply gt_Num_false in H2. exists (a + p), b.
      split; [reflexivity|]. split; [lra|]. split; lra.
  - apply lt_Num_false in H1.
    destruct (gt (Num (b + - p)) (Num a)) eqn:H2.
    + apply gt_Num in H2. exists a, (b + - p).
      split; [reflexivity|]. split; [lra|]. split; lra.
    + apply gt_Num_false in H2. exists a, b.
      split; [reflexivity|]. split; [lra|]. split; lra.
Qed.

(** X11.  With the price watcher switched off, [setPrice] prices an ob-order
    between the prices [a <= b] of its two neighbours in the book, ends
    included: the two steps by the precision move the bounds of the draw
    towards each other and never past a neighbour or past each other.
    [randomValue] is taken to draw between its bounds. *)
Theorem setPrice_between_neighbours (B : Placement.Builder)
    (type : option OrderBookBuilder.side) (position : number)
    (orderList : list Placement.Entry) (a b p : Q) :
  Placement.neighbours type position orderList = Some (Num a, Num b) ->
  Placement.precision B = Num p -> 0 < p -> a <= b ->
  Placement.getIsPriceWatcherEnabled (Placement.pw B) = false ->
  (forall low high : Q, low <= high ->
     exists r, Placement.randomValue B 1 (Num low) (Num high) false = Num r
               /\ low <= r /\ r <= high) ->
  exists r, Placement.setPrice B type position orderList = Placement.Req (Num r)
            /\ a <= r /\ r <= b.
Proof.
  intros Hn Hprec Hp Hab Hpw Hrand.
  destruct (adjust_Num Hp Hab) as (x & y & Hadj & Hax & Hxy & Hyb).
  destruct (Hrand x y Hxy) as (r & Hr & Hxr & Hry).
  exists r. split.
  - unfold Placement.setPrice, Placement.price_bounds.
    rewrite Hn, Hprec, Hadj, Hr, Hpw. cbn.
    destruct type as [[|]|]; reflexivity.
  - split; lra.
Qed.

Lemma setPrice_between_neighbours_witness :
  exists r,
    Placement.setPrice Placement.example_builder (Some OrderBookBuilder.sell)
      (Num 2) (Placement.dedupe (Placement.asks Placement.example_book))
    = Placement.Req (Num r)
    /\ 102 # 100 <= r /\ r <= 105 # 100.
Proof.
  apply (@setPrice_between_neighbours Placement.example_builder
           (Some OrderBookBuilder.sell) (Num 2)
           (Placement.dedupe (Placement.asks Placement.example_book))
           (102 # 100) (105 # 100) (1 # 100)).
  - reflexivity.
  - reflexivity.
  - reflexivity.
  - discriminate.
  - reflexivity.
  - intros low high H. exists low. split; [reflexivity|]. split; lra.
Defined.

(** X12.  With the bounds [0 < a <= b] that [amount] stores, [setAmount]
    never answers [false]: it draws the amount between [a] and an upper
    bound that is never below [a], whatever [mm_orderBookMaxOrderPercent]
    holds, and that is [b] while no percent is set. *)
Theorem setAmount_bounds (B : Placement.Builder) (tp : Settings.TradeParams)
    (a b : Q) :
  Settings.mm_minAmount tp = Num a -> Settings.mm_maxAmount tp = Num b ->
  0 < a -> a <= b ->
  exists max : number,
    Placement.setAmount B tp
      = Some (Placement.randomValue B 3 (Num a) max false) /\
    Js.le (Num a) max = true /\
    (falsy (Settings.mm_orderBookMaxOrderPercent tp) = true -> max = Num b).
Proof.
  intros Hmin Hmax Ha Hab.
  unfold Placement.setAmount, Placement.amount_bounds. rewrite Hmin, Hmax.
  rewrite !falsy_Num_false by (intros E0; lra). cbn [orb].
  unfold truthy.
  destruct (falsy (Settings.mm_orderBookMaxOrderPercent tp)) eqn:Hpc;
    cbn [negb].
  - exists (Num b). split; [reflexivity|].
    split; [apply le_Num; exact Hab | reflexivity].
  - assert (Hraised : Js.le (Num a) (mul (Num a) (Num (11 # 10))) = true).
    { cbn [mul]. apply le_Num. lra. }
    destruct (Js.le (div (mul (Num b) (Settings.mm_orderBookMaxOrderPercent tp))
                       (Num 100)) (Num a)) eqn:Hle.
    + eexists. split; [reflexivity|]. split; [exact Hraised | discriminate].
    + eexists. split; [reflexivity|]. split; [|discriminate].
      destruct (div (mul (Num b) (Settings.mm_orderBookMaxOrderPercent tp))
                  (Num 100)) as [m| | |] eqn:Hm.
      * unfold Js.le in Hle. apply orb_false_iff in Hle.
        destruct Hle as [H1 H2].
        apply lt_Num_false in H1. apply le_Num. exact H1.
      * reflexivity.
      * discriminate Hle.
      * exfalso.
        assert (Hb : Qeq_bool b 0 = false).
        { apply not_true_iff_false. intros E0. apply Qeq_bool_iff in E0. lra. }
        destruct (Settings.mm_orderBookMaxOrderPercent tp) as [c| | |];
          try discriminate Hpc.
        -- cbn [mul div] in Hm. change (Qeq_bool 100 0) with false in Hm.
           discriminate Hm.
        -- cbn [mul] in Hm. rewrite Hb in Hm.
           destruct (sign_pos b); cbn in Hm; discriminate Hm.
        -- cbn [mul] in Hm. rewrite Hb in Hm.
           destruct (sign_pos b); cbn in Hm; discriminate Hm.
Qed.

Lemma setAmount_bounds_witness :
  exists max : number,
    Placement.setAmount Placement.example_builder
      (Settings.set_orderBookMaxOrderPercent (Num 50) Settings.shipped)
    = Some (Placement.randomValue Placement.example_builder 3 (Num 14) max
              false) /\
    Js.le (Num 14) max = true.
Proof.
  destruct (@setAmount_bounds Placement.example_builder
              (Settings.set_orderBookMaxOrderPercent (Num 50) Settings.shipped)
              14 1600 eq_refl eq_refl) as (max & H & Hle & _).
  - reflexivity.
  - discriminate.
  - exists max. split; assumption.
Defined.

Lemma not_lt_ge (b a : number) :
  b <> NaN -> a <> NaN -> Js.lt b a = false -> Js.ge b a = true.
Proof.
  unfold Js.ge, Js.le.
  destruct b as [x| | |], a as [y| | |]; simpl; try congruence; try reflexivity.
  intros _ _ H. apply lt_Num_false in H.
  destruct (Qeq_bool y x) eqn:Heq; [apply orb_true_r|].
  apply Qeq_bool_neq in Heq. rewrite orb_false_r. apply Qlt_bool_iff.
  destruct (Qlt_le_dec y x) as [L|L]; [exact L|].
  exfalso. apply Heq. apply Qle_antisym; assumption.
Qed.

Lemma truthy_not_NaN (x : number) : truthy x = true -> x <> NaN.
Proof. intros H ->. discriminate. Qed.

Lemma funds_of_not_NaN (field : Placement.Funds -> number)
    (balances : list Placement.Funds) (coin : string) :
  Placement.funds_of field balances coin <> NaN.
Proof.
  unfold Placement.funds_of.
  destruct (filter _ balances) as [|b r]; [discriminate|].
  destruct (falsy (field b)) eqn:Hf; [discriminate|].
  intros H. rewrite H in Hf. discriminate.
Qed.

(** What a passed check of [isEnoughCoins] says about the balance of the
    coin the order spends. *)
Lemma isEnoughCoins_covers (E : CommandTxs.Env) (B : Placement.Builder)
    (coin1 coin2 : string) (amount1 amount2 : number)
    (type : OrderBookBuilder.side) :
  fst (Placement.isEnoughCoins E B coin1 coin2 amount1 amount2 (Some type))
    = true ->
  exists balances,
    Placement.getBalancesCached B = Some balances /\
    match type with
    | OrderBookBuilder.sell =>
        Js.lt (Placement.funds_of Placement.free balances coin1) amount1 = false
    | OrderBookBuilder.buy =>
        Js.lt (Placement.funds_of Placement.free balances coin2) amount2 = false
    end.
Proof.
  unfold Placement.isEnoughCoins.
  destruct (Placement.getBalancesCached B) as [balances|]; [|discriminate].
  cbn [fst]. intros H. exists balances. split; [reflexivity|].
  apply negb_true_iff in H. apply orb_false_iff in H. destruct H as [H1 H2].
  destruct type; cbn in H1, H2.
  - rewrite andb_true_r in H2. apply orb_false_iff in H2. tauto.
  - rewrite andb_true_r in H1. apply orb_false_iff in H1. tauto.
Qed.

(** X13.  [placeOrderBookOrder] sends an order to the exchange only with a
    price and an amount that are set and with the cached free balance of the
    coin the order spends covering it: the base coin and the amount for a
    sell order, the quote coin and amount times price for a buy order. *)
Theorem placeOrderBookOrder_sends_covered_orders (E : CommandTxs.Env)
    (K : Settings.Consts) (B : Placement.Builder) (tp : Settings.TradeParams)
    (rnd : Q) (type : OrderBookBuilder.side) (price coin1Amount : number) :
  Placement.sent (Placement.placeOrderBookOrder E K B tp rnd)
    = Some (type, price, coin1Amount) ->
  truthy price = true /\ truthy coin1Amount = true /\
  exists balances,
    Placement.getBalancesCached B = Some balances /\
    match type with
    | OrderBookBuilder.sell =>
        Js.ge (Placement.funds_of Placement.free balances
                 (CommandTxs.config_coin1 E)) coin1Amount = true
    | OrderBookBuilder.buy =>
        Js.ge (Placement.funds_of Placement.free balances
                 (CommandTxs.config_coin2 E)) (mul coin1Amount price) = true
    end.
Proof.
  unfold Placement.placeOrderBookOrder.
  destruct (Placement.getOrderBookCached B) as [orderBook|]; [|discriminate].
  destruct (Placement.asks orderBook) as [|ask0 asks']; [discriminate|].
  destruct (Placement.bids orderBook) as [|bid0 bids']; [discriminate|].
  set (orderList := Placement.dedupe _).
  destruct orderList as [|o0 [|o1 rest]]; [discriminate | discriminate |].
  destruct (Placement.setPrice _ _ _ _) as [|price0]; [discriminate|].
  destruct (OrderBookBuilder.setType _ rnd) as [side|] eqn:Hside;
    [|discriminate].
  set (amount0 := match Placement.setAmount B tp with
                  | Some a => a | None => Num 0 end).
  destruct (falsy price0 || falsy amount0 || falsy (mul amount0 price0))
    eqn:Hset; [discriminate|].
  destruct (negb (fst (Placement.isEnoughCoins _ _ _ _ _ _ _))) eqn:Hfunds;
    [discriminate|].
  intros Hsent.
  assert (Hreq : Some (side, price0, amount0) = Some (type, price, coin1Amount)).
  { destruct (Placement.placeOrder B side price0 amount0); exact Hsent. }
  injection Hreq as -> -> ->.
  apply orb_false_iff in Hset. destruct Hset as [Hset H3].
  apply orb_false_iff in Hset. destruct Hset as [H1 H2].
  assert (T1 : truthy price = true) by (unfold truthy; rewrite H1; reflexivity).
  assert (T2 : truthy coin1Amount = true)
    by (unfold truthy; rewrite H2; reflexivity).
  assert (T3 : truthy (mul coin1Amount price) = true)
    by (unfold truthy; rewrite H3; reflexivity).
  split; [exact T1|]. split; [exact T2|].
  apply negb_false_iff in Hfunds.
  destruct (isEnoughCoins_covers _ _ _ _ _ _ _ Hfunds) as (balances & Hb & Hc).
  exists balances. split; [exact Hb|].
  destruct type; apply not_lt_ge;
    first [apply funds_of_not_NaN | apply truthy_not_NaN; assumption | exact Hc].
Qed.

Lemma placeOrderBookOrder_sends_covered_orders_witness :
  Placement.sent
    (Placement.placeOrderBookOrder (CommandTxs.example_env None None)
       Settings.example_consts Placement.example_builder Settings.shipped
       (9 # 10))
  = Some (OrderBookBuilder.buy, Num ((98 # 100) + (1 # 100)), Num 14)
  /\ Js.ge (Num 500) (mul (Num 14) (Num ((98 # 100) + (1 # 100)))) = true.
Proof.
  split; [reflexivity|].
  destruct (@placeOrderBookOrder_sends_covered_orders
              (CommandTxs.example_env None None) Settings.example_consts
              Placement.example_builder Settings.shipped (9 # 10)
              OrderBookBuilder.buy (Num ((98 # 100) + (1 # 100))) (Num 14) eq_refl)
    as (_ & _ & balances & Hb & Hc).
  injection Hb as <-. exact Hc.
Defined.

(* --------------------------------------------------------------------- *)
(** ** The API clients under [getOrderDetails] *)
(* --------------------------------------------------------------------- *)

(** X14.  The Bitqik client resolves an answer exactly when its status is
    200, and then with the body as it came; it rejects every other answer
    and never leaves the promise pending.  So [getOrderDetails] of the
    Bitqik adapter answers [undefined] for every status but 200, and reports
    the status [unknown] only when the body the exchange sent has a
    [bitqikErrorInfo] of its own: the client never adds one to what it
    resolves with. *)
Theorem bitqik_unknown_only_from_the_body (orderId : string) (fulfilled : bool)
    (httpCode : option Z) (data : ApiClient.Data Trader.Bitqik.Reply) :
  ApiClient.BitqikApi.protectedRequest fulfilled httpCode data
    = (if ApiClient.is_200 httpCode then ApiClient.Resolves data
       else ApiClient.Rejects) /\
  (ApiClient.is_200 httpCode = false ->
   ApiClient.BitqikApi.getOrderDetails orderId fulfilled httpCode data
     = Some None) /\
  (forall d,
     ApiClient.BitqikApi.getOrderDetails orderId fulfilled httpCode data
       = Some (Some d) ->
     Trader.status d = "unknown" ->
     exists o, data = ApiClient.DObject o /\
               Trader.truthy_field (Trader.Bitqik.bitqikErrorInfo o) = true).
Proof.
  assert (Hreq : ApiClient.BitqikApi.protectedRequest fulfilled httpCode data
                 = (if ApiClient.is_200 httpCode then ApiClient.Resolves data
                    else ApiClient.Rejects)).
  { unfold ApiClient.BitqikApi.protectedRequest, ApiClient.settle,
      ApiClient.BitqikApi.handleResponse.
    destruct (ApiClient.is_200 httpCode); reflexivity. }
  split; [exact Hreq|].
  unfold ApiClient.BitqikApi.getOrderDetails. rewrite Hreq.
  split.
  - intros ->. reflexivity.
  - intros d Hd Hs. destruct (ApiClient.is_200 httpCode); [|discriminate].
    destruct data as [| | |o]; cbn in Hd; try discriminate.
    + injection Hd as <-. discriminate Hs.
    + exists o. split; [reflexivity|].
      destruct (Trader.truthy_field (Trader.Bitqik.bitqikErrorInfo o)) eqn:Ht;
        [reflexivity|].
      cbn in Hd. injection Hd as <-. cbn in Hs.
      pose proof (@bitqik_status_known (Trader.Bitqik.o_status o)) as Hk.
      rewrite Hs in Hk. cbn in Hk.
      repeat (destruct Hk as [Hk|Hk]; [discriminate Hk|]). contradiction.
Qed.

(** X15.  The DexTrade client takes an answer with status 200 for a success
    only when the [code] of its body is numerically 0.  Any other body with
    status 200, one without a [code] among them, is resolved with
    [dextradeErrorInfo] attached, and [getOrderDetails] of the adapter then
    reports the status [unknown], whatever order the body holds. *)
Theorem dextrade_unknown_without_code_zero (orderId : string)
    (fulfilled : bool) (httpCode : option Z) (b : ApiClient.DexTradeApi.Body) :
  ApiClient.is_200 httpCode = true ->
  Js.eq (Trader.plus (ApiClient.DexTradeApi.b_code b)) (Num 0) = false ->
  ApiClient.DexTradeApi.getOrderDetails orderId fulfilled httpCode
    (ApiClient.DObject b)
  = Some (Some {| Trader.orderId := Some orderId;
                  Trader.status := "unknown";
                  Trader.fields := None |}).
Proof.
  intros H200 Hcode.
  unfold ApiClient.DexTradeApi.getOrderDetails,
    ApiClient.DexTradeApi.protectedRequest, ApiClient.settle,
    ApiClient.DexTradeApi.handleResponse.
  rewrite H200, Hcode. reflexivity.
Qed.

Lemma dextrade_unknown_without_code_zero_witness :
  ApiClient.DexTradeApi.getOrderDetails "7" true (Some 200%Z)
    (ApiClient.DObject ApiClient.DexTradeApi.body_without_code)
  = Some (Some {| Trader.orderId := Some "7";
                  Trader.status := "unknown";
                  Trader.fields := None |}).
Proof.
  apply (@dextrade_unknown_without_code_zero "7" true (Some 200%Z)
           ApiClient.DexTradeApi.body_without_code).
  - reflexivity.
  - reflexivity.
Defined.

(** X16.  None of the three API clients resolves an answer whose status is
    not 200, and a request is left pending only when axios rejected with the
    status 200 and a body that is [null] or missing. *)
Theorem clients_resolve_only_status_200 (info : string) (fulfilled : bool)
    (httpCode : option Z) :
  (forall data v,
     ApiClient.BitqikApi.protectedRequest fulfilled httpCode data
       = ApiClient.Resolves v -> ApiClient.is_200 httpCode = true) /\
  (forall data v,
     ApiClient.DexTradeApi.protectedRequest fulfilled httpCode data
       = ApiClient.Resolves v -> ApiClient.is_200 httpCode = true) /\
  (forall data v,
     ApiClient.BitkubApi.protectedRequest info fulfilled httpCode data
       = ApiClient.Resolves v -> ApiClient.is_200 httpCode = true) /\
  (forall data,
     ApiClient.BitqikApi.protectedRequest fulfilled httpCode data
       <> ApiClient.Pending) /\
  (forall data,
     ApiClient.DexTradeApi.protectedRequest fulfilled httpCode data
       = ApiClient.Pending ->
     fulfilled = false /\ ApiClient.is_200 httpCode = true /\
     (data = ApiClient.DUndefined \/ data = ApiClient.DNull)) /\
  (forall data,
     ApiClient.BitkubApi.protectedRequest info fulfilled httpCode data
       = ApiClient.Pending ->
     fulfilled = false /\ ApiClient.is_200 httpCode = true /\
     (data = ApiClient.DUndefined \/ data = ApiClient.DNull)).
Proof.
  unfold ApiClient.BitqikApi.protectedRequest,
    ApiClient.DexTradeApi.protectedRequest,
    ApiClient.BitkubApi.protectedRequest, ApiClient.settle,
    ApiClient.BitqikApi.handleResponse, ApiClient.DexTradeApi.handleResponse,
    ApiClient.BitkubApi.handleResponse.
  cbn [ApiClient.is_200].
  destruct (ApiClient.is_200 httpCode) eqn:H200.
  - split; [reflexivity|]. split; [reflexivity|]. split; [reflexivity|].
    split; [discriminate|].
    split.
    + intros [| | |b] H; destruct fulfilled; try discriminate; auto;
        destruct (Js.eq (Trader.plus _) (Num 0)); discriminate H.
    + intros [| | |b] H; destruct fulfilled; try discriminate; auto;
        destruct (Js.eq (Trader.plus _) (Num 0)); discriminate H.
  - split; [discriminate|]. split; [discriminate|]. split; [discriminate|].
    split; [discriminate|]. split; discriminate.
Qed.

(* --------------------------------------------------------------------- *)
(** ** The command processor *)
(* --------------------------------------------------------------------- *)

(** *** Reversal and trimming *)

Lemma rev_string_rev (t a b : string) :
  rev_string (rev_string t a) b = rev_string a (t ++ b)%string.
Proof.
  revert a b. induction t as [|c r IH]; intros a b; simpl.
  - reflexivity.
  - rewrite IH. reflexivity.
Qed.

Lemma rev_string_involutive (t : string) :
  rev_string (rev_string t "") "" = t.
Proof.
  rewrite rev_string_rev. simpl.
  induction t as [|c r IH]; simpl; [reflexivity | rewrite IH; reflexivity].
Qed.

Lemma rev_string_app (a b acc : string) :
  rev_string (a ++ b)%string acc = rev_string b (rev_string a acc).
Proof.
  revert acc. induction a as [|c r IH]; intros acc; simpl;
    [reflexivity | apply IH].
Qed.

Lemma string_app_nil_r (s : string) : (s ++ "")%string = s.
Proof. induction s as [|c r IH]; simpl; [reflexivity | rewrite IH; reflexivity]. Qed.

Lemma string_app_assoc (a b c : string) :
  ((a ++ b) ++ c)%string = (a ++ (b ++ c))%string.
Proof.
  induction a as [|x r IH]; simpl; [reflexivity | rewrite IH; reflexivity].
Qed.

(** [trim_left s] is what is left of [s] after a prefix of white space. *)
Lemma trim_left_suffix (s : string) :
  exists pre, s = (pre ++ trim_left s)%string.
Proof.
  induction s as [|c r IH]; simpl.
  - exists "". reflexivity.
  - destruct (is_space c).
    + destruct IH as [pre Hpre]. exists (String c pre). simpl.
      rewrite <- Hpre. reflexivity.
    + exists "". reflexivity.
Qed.

Lemma trim_left_head (s : string) (c : ascii) (r : string) :
  trim_left s = String c r -> is_space c = false.
Proof.
  induction s as [|d t IH]; simpl; [discriminate|].
  destruct (is_space d) eqn:Hd; [exact IH|].
  intros [= <- <-]. exact Hd.
Qed.

Lemma trim_left_fixed (c : ascii) (r : string) :
  is_space c = false -> trim_left (String c r) = String c r.
Proof. intros H. simpl. rewrite H. reflexivity. Qed.

Lemma last_char_app (a : string) (c : ascii) :
  Settings.last_char (a ++ String c "")%string = String c "".
Proof.
  induction a as [|x r IH]; [reflexivity|].
  simpl. destruct (r ++ String c "")%string eqn:E.
  - destruct r; discriminate.
  - exact IH.
Qed.

Lemma rev_string_cons (s : string) (c : ascii) (acc : string) :
  rev_string s (String c acc) = (rev_string s "" ++ String c acc)%string.
Proof.
  revert c acc. induction s as [|d r IH]; intros c acc; simpl.
  - reflexivity.
  - rewrite (IH d (String c acc)), (IH d "").
    rewrite string_app_assoc. reflexivity.
Qed.

(** What [trim] gives neither begins nor ends with a space. *)
Lemma trim_ends (s : string) :
  charAt0 (trim s) <> " " /\ Settings.last_char (trim s) <> " ".
Proof.
  unfold trim.
  destruct (trim_left s) as [|c u] eqn:Hu.
  - simpl. split; discriminate.
  - pose proof (trim_left_head _ Hu) as Hc.
    (* [rev_string (String c u) ""] ends with [c] *)
    assert (Hrev : rev_string (String c u) "" = (rev_string u "" ++ String c "")%string).
    { simpl. apply rev_string_cons. }
    rewrite Hrev.
    destruct (trim_left_suffix (rev_string u "" ++ String c "")%string)
      as [pre Hpre].
    destruct (trim_left (rev_string u "" ++ String c "")%string)
      as [|d x] eqn:Hx.
    + (* everything trimmed: impossible, [c] is no space *)
      exfalso. clear Hpre.
      revert Hx. generalize (rev_string u ""). intros t.
      induction t as [|e t IH]; simpl.
      * rewrite Hc. discriminate.
      * destruct (is_space e); [exact IH | discriminate].
    + pose proof (trim_left_head _ Hx) as Hd.
      split.
      * (* the first character of the result is the last of [String d x],
           which is [c] *)
        assert (Hlast : exists y, String d x = (y ++ String c "")%string).
        { clear Hrev Hd Hpre. revert Hx.
          generalize (rev_string u ""). intros t.
          induction t as [|e t IH]; intros Hx.
          - simpl in Hx. rewrite Hc in Hx. injection Hx as <- <-.
            exists "". reflexivity.
          - simpl in Hx. destruct (is_space e) eqn:He.
            + exact (IH Hx).
            + injection Hx as <- <-. exists (String e t). reflexivity. }
        destruct Hlast as [y Hy]. rewrite Hy.
        rewrite rev_string_app. simpl.
        intros H. injection H as H. rewrite H in Hc. discriminate.
      * simpl. rewrite rev_string_cons, last_char_app.
        intros H. injection H as H. rewrite H in Hd. discriminate.
Qed.

Lemma last_char_split (s : string) (z : ascii) :
  Settings.last_char s = String z "" -> exists t, s = (t ++ String z "")%string.
Proof.
  induction s as [|c r IH]; [discriminate|].
  simpl. destruct r as [|d r'].
  - intros [= <-]. exists "". reflexivity.
  - intros H. destruct (IH H) as [t Ht]. exists (String c t).
    simpl. rewrite <- Ht. reflexivity.
Qed.

Lemma last_char_app_r (a b : string) :
  b <> "" -> Settings.last_char (a ++ b)%string = Settings.last_char b.
Proof.
  intros Hb. induction a as [|c r IH]; [reflexivity|].
  simpl. destruct (r ++ b)%string eqn:E.
  - destruct r, b; try discriminate. congruence.
  - exact IH.
Qed.

(** A string that neither begins nor ends with white space is its own
    [trim]. *)
Lemma trim_fixed (a z : ascii) (r : string) :
  is_space a = false -> is_space z = false ->
  Settings.last_char (String a r) = String z "" ->
  trim (String a r) = String a r.
Proof.
  intros Ha Hz Hlast. destruct (last_char_split _ Hlast) as [t Ht].
  unfold trim. rewrite (@trim_left_fixed a r Ha), Ht.
  rewrite rev_string_app. simpl. rewrite Hz.
  change (String z (rev_string t "")) with (rev_string (String z "") (rev_string t "")).
  rewrite <- rev_string_app, rev_string_involutive. reflexivity.
Qed.

(** *** Collapsing and splitting *)

Lemma rev_string_nonempty (cur : string) :
  cur <> "" -> rev_string cur "" <> "".
Proof.
  destruct cur as [|c r]; [congruence|]. intros _. simpl.
  rewrite rev_string_cons. destruct (rev_string r ""); discriminate.
Qed.

Lemma last_char_tail (c d : ascii) (r : string) :
  Settings.last_char (String c (String d r)) = Settings.last_char (String d r).
Proof. reflexivity. Qed.

(** The pieces of a collapsed string that neither begins nor ends with a
    space are not empty. *)
Lemma collapse_pieces (t : string) :
  forall (seen : bool) (cur : string),
    Settings.last_char t <> " " ->
    (seen = true -> t <> "") ->
    (seen = false -> cur = "" -> t <> "" /\ charAt0 t <> " ") ->
    Forall (fun p => p <> "") (split_on " " (Router.collapse seen t) cur).
Proof.
  induction t as [|c r IH]; intros seen cur Hlast Hseen Hcur.
  - destruct seen; [exfalso; apply Hseen; reflexivity|].
    cbn. constructor; [|constructor].
    apply rev_string_nonempty. intros ->.
    destruct (Hcur eq_refl eq_refl) as [H _]. apply H. reflexivity.
  - assert (Hr : Ascii.eqb c " " = true -> r <> "" /\ Settings.last_char r <> " ").
    { intros Hc. apply Ascii.eqb_eq in Hc. subst c.
      destruct r as [|d r']; [exfalso; apply Hlast; reflexivity|].
      split; [discriminate|]. exact Hlast. }
    assert (Hr' : Settings.last_char r <> " ").
    { destruct r as [|d r']; [discriminate | exact Hlast]. }
    cbn [Router.collapse].
    destruct (Ascii.eqb c " ") eqn:Hc.
    + destruct (Hr eq_refl) as [Hne _]. destruct seen.
      * apply IH; [exact Hr' | intros _; exact Hne | discriminate].
      * cbn [split_on]. rewrite Hc.
        constructor.
        -- apply rev_string_nonempty. intros ->.
           destruct (Hcur eq_refl eq_refl) as [_ H]. apply H.
           apply Ascii.eqb_eq in Hc. subst c. reflexivity.
        -- apply IH; [exact Hr' | intros _; exact Hne | discriminate].
    + cbn [split_on]. rewrite Hc.
      apply IH; [exact Hr' | discriminate | discriminate].
Qed.

(** The parameters the processor hands to a command are words. *)
Lemma parse_params_are_words (commandMsg : string) :
  Forall Router.word (snd (Router.parse commandMsg)).
Proof.
  unfold Router.parse, Router.words, split. cbn [snd].
  destruct (trim commandMsg) as [|c r] eqn:Ht; [constructor|].
  pose proof (trim_ends commandMsg) as [Hfirst Hlast]. rewrite Ht in *.
  assert (Hall : Forall Router.word
                   (split_on " " (Router.collapse false (String c r)) "")).
  { apply Forall_forall. intros p Hp. split.
    - pose proof (@collapse_pieces (String c r) false "" Hlast) as H.
      rewrite Forall_forall in H. apply H; [discriminate | | exact Hp].
      intros _ _. split; [discriminate | exact Hfirst].
    - pose proof (split_free " " (Router.collapse false (String c r))) as H.
      rewrite Forall_forall in H. apply H. exact Hp. }
  destruct (split_on " " (Router.collapse false (String c r)) "") as [|w ws];
    [constructor|].
  inversion Hall. assumption.
Qed.

Lemma not_space (c : ascii) (r : string) :
  contains_char " " (String c r) = false ->
  Ascii.eqb c " " = false /\ contains_char " " r = false.
Proof.
  simpl. intros H. apply orb_false_iff in H. destruct H as [H1 H2].
  rewrite Ascii.eqb_sym. auto.
Qed.

Lemma collapse_free (w rest : string) :
  contains_char " " w = false ->
  Router.collapse false (w ++ rest) = (w ++ Router.collapse false rest)%string.
Proof.
  induction w as [|c r IH]; intros Hw; [reflexivity|].
  destruct (@not_space _ _ Hw) as [Hc Hr].
  simpl. rewrite Hc, (IH Hr). reflexivity.
Qed.

Lemma collapse_word (seen : bool) (w rest : string) :
  Router.word w ->
  Router.collapse seen (w ++ rest) = (w ++ Router.collapse false rest)%string.
Proof.
  intros [Hne Hw]. destruct w as [|c r]; [congruence|].
  destruct (@not_space _ _ Hw) as [Hc Hr].
  simpl. rewrite Hc, (@collapse_free r rest Hr). destruct seen; reflexivity.
Qed.

Lemma join_cons (w : string) (ws : list string) :
  ws <> [] -> join (w :: ws) = (w ++ " " ++ join ws)%string.
Proof. destruct ws; [congruence | reflexivity]. Qed.

Lemma join_snoc (ws : list string) (x : string) :
  ws <> [] -> join (ws ++ [x]) = (join ws ++ " " ++ x)%string.
Proof.
  induction ws as [|w r IH]; [congruence|]. intros _.
  destruct r as [|w' r'].
  - reflexivity.
  - change ((w :: w' :: r') ++ [x]) with (w :: ((w' :: r') ++ [x])).
    rewrite join_cons by (destruct r'; discriminate).
    rewrite IH by discriminate.
    rewrite (@join_cons w (w' :: r')) by discriminate.
    rewrite !string_app_assoc. reflexivity.
Qed.

(** A line of words with single spaces between them is left as it is. *)
Lemma collapse_join (ws : list string) :
  forall seen, ws <> [] -> Forall Router.word ws ->
  Router.collapse seen (join ws) = join ws.
Proof.
  induction ws as [|w r IH]; intros seen Hne Hall; [congruence|].
  inversion Hall as [|? ? Hw Hr]; subst.
  destruct r as [|w' r'].
  - change (join [w]) with w.
    rewrite <- (string_app_nil_r w) at 1.
    rewrite (@collapse_word seen w "" Hw). apply string_app_nil_r.
  - rewrite join_cons by discriminate.
    rewrite (@collapse_word seen w _ Hw).
    change (Router.collapse false (" " ++ join (w' :: r')))
      with (String " " (Router.collapse true (join (w' :: r')))).
    rewrite IH by (discriminate || assumption). reflexivity.
Qed.

Lemma split_on_free_prefix (sep : ascii) (w rest cur : string) :
  contains_char sep w = false ->
  split_on sep (w ++ rest) cur = split_on sep rest (rev_string w cur).
Proof.
  revert cur. induction w as [|c r IH]; intros cur Hw; [reflexivity|].
  simpl in Hw. apply orb_false_iff in Hw. destruct Hw as [Hc Hr].
  simpl. rewrite Ascii.eqb_sym, Hc. apply IH. exact Hr.
Qed.

(** ... and splits into these words. *)
Lemma split_join (ws : list string) :
  ws <> [] -> Forall Router.word ws -> split " " (join ws) = ws.
Proof.
  unfold split.
  induction ws as [|w r IH]; intros Hne Hall; [congruence|].
  inversion Hall as [|? ? [_ Hw] Hr]; subst.
  destruct r as [|w' r'].
  - change (join [w]) with w.
    rewrite <- (string_app_nil_r w) at 1.
    rewrite (@split_on_free_prefix " " w "" "" Hw). simpl.
    rewrite rev_string_involutive. reflexivity.
  - rewrite join_cons by discriminate.
    rewrite (@split_on_free_prefix " " w _ "" Hw).
    change (split_on " " (" " ++ join (w' :: r')) (rev_string w ""))
      with (rev_string (rev_string w "") ""
            :: split_on " " (join (w' :: r')) "").
    rewrite rev_string_involutive, IH by (discriminate || assumption).
    reflexivity.
Qed.

Lemma words_of_line (ws : list string) (a z : ascii) (r : string) :
  ws <> [] -> Forall Router.word ws ->
  join ws = String a r -> is_space a = false -> is_space z = false ->
  Settings.last_char (join ws) = String z "" ->
  Router.words (join ws) = ws.
Proof.
  intros Hne Hall Hj Ha Hz Hlast. unfold Router.words.
  rewrite Hj in Hlast |- *. rewrite (@trim_fixed a z r Ha Hz Hlast), <- Hj.
  rewrite collapse_join by assumption. apply split_join; assumption.
Qed.

Lemma Forall_word_app (l : list string) (x : string) :
  Forall Router.word l -> Router.word x -> Forall Router.word (l ++ [x]).
Proof.
  intros Hl Hx. apply Forall_app. split; [exact Hl|].
  constructor; [exact Hx | constructor].
Qed.

Lemma marker_is_word : Router.word "-y".
Proof. split; [discriminate | reflexivity]. Qed.

(** What [y] hands to the processor: the stored command, which a command
    built from its name and its parameters, with the marker. *)
Lemma words_confirmed (c : ascii) (name : string) (params : list string) :
  is_space c = false -> Router.word (String c name) ->
  Forall Router.word params ->
  Router.words (String c name ++ " " ++ join params ++ " -y")
  = String c name :: params ++ ["-y"].
Proof.
  intros Hc Hw Hall.
  destruct params as [|p ps].
  - (* two spaces in a row: the collapse makes them one *)
    unfold Router.words.
    assert (Hlast : Settings.last_char (String c name ++ " " ++ join [] ++ " -y")
                    = "y").
    { rewrite last_char_app_r by discriminate. reflexivity. }
    change (String c name ++ " " ++ join [] ++ " -y")%string
      with (String c (name ++ "  -y")) in *.
    rewrite (@trim_fixed c "y" (name ++ "  -y") Hc eq_refl Hlast).
    change (String c (name ++ "  -y")) with (String c name ++ "  -y")%string.
    rewrite (@collapse_word false (String c name) "  -y" Hw).
    change (Router.collapse false "  -y") with " -y".
    unfold split. rewrite (@split_on_free_prefix " " (String c name) " -y" "" (proj2 Hw)).
    cbn [split_on Ascii.eqb Bool.eqb].
    rewrite rev_string_involutive. reflexivity.
  - assert (Hline : (String c name ++ " " ++ join (p :: ps) ++ " -y")%string
                    = join (String c name :: (p :: ps) ++ ["-y"])).
    { rewrite (@join_cons (String c name) ((p :: ps) ++ ["-y"]))
        by (cbn; discriminate).
      rewrite (@join_snoc (p :: ps) "-y") by discriminate. reflexivity. }
    rewrite Hline.
    apply (@words_of_line (String c name :: (p :: ps) ++ ["-y"]) c "y"
             (name ++ " " ++ join ((p :: ps) ++ ["-y"]))%string).
    + discriminate.
    + constructor; [exact Hw|]. apply Forall_word_app;
        [exact Hall | exact marker_is_word].
    + rewrite (@join_cons (String c name) ((p :: ps) ++ ["-y"]))
        by (cbn; discriminate).
      reflexivity.
    + exact Hc.
    + reflexivity.
    + rewrite <- Hline.
      transitivity (Settings.last_char
                      ((String c name ++ " " ++ join (p :: ps)) ++ " -y")%string).
      * f_equal. rewrite !string_app_assoc. reflexivity.
      * rewrite last_char_app_r by discriminate. reflexivity.
Qed.

Lemma parse_confirmed (name : string) (params : list string) :
  In name ["enable"; "fill"; "buy"; "sell"; "make"] ->
  Forall Router.word params ->
  Router.parse ("/" ++ name ++ " " ++ join params ++ " -y")
  = (name, params ++ ["-y"]).
Proof.
  intros Hin Hall. unfold Router.parse.
  assert (Hw : Router.word (String "/" name)).
  { simpl in Hin.
    repeat (destruct Hin as [<- | Hin]; [split; [discriminate | reflexivity]|]).
    contradiction. }
  change ("/" ++ name ++ " " ++ join params ++ " -y")%string
    with (String "/" name ++ " " ++ join params ++ " -y")%string.
  rewrite (@words_confirmed "/" name params eq_refl Hw Hall).
  cbn [hd tl]. f_equal.
  simpl in Hin.
  repeat (destruct Hin as [<- | Hin]; [reflexivity|]). contradiction.
Qed.

(** X17.  The parameters the processor hands to a command are never empty
    and contain no space, and a command stored for confirmation from its
    name and these parameters is parsed back into them when [y] hands it to
    the processor with the marker: the command is run again with the
    parameters it was given, followed by [-y]. *)
Theorem confirmed_command_parses_back (name commandMsg : string) :
  In name ["enable"; "fill"; "buy"; "sell"; "make"] ->
  let params := snd (Router.parse commandMsg) in
  Forall Router.word params /\
  Router.parse ("/" ++ name ++ " " ++ join params ++ " -y")
  = (name, params ++ ["-y"]).
Proof.
  intros Hin params.
  pose proof (parse_params_are_words commandMsg) as Hall.
  split; [exact Hall|]. apply parse_confirmed; assumption.
Qed.

Lemma confirmed_command_parses_back_witness :
  Router.parse "  /Fill   ADM/USDT buy  quote=100 low=1 high=2 count=5 "
  = ("fill", ["ADM/USDT"; "buy"; "quote=100"; "low=1"; "high=2"; "count=5"])
  /\ Router.parse "/fill ADM/USDT buy quote=100 low=1 high=2 count=5 -y"
     = ("fill", ["ADM/USDT"; "buy"; "quote=100"; "low=1"; "high=2"; "count=5";
                 "-y"]).
Proof.
  split; [reflexivity|].
  exact (proj2 (@confirmed_command_parses_back "fill"
                  "  /Fill   ADM/USDT buy  quote=100 low=1 high=2 count=5 "
                  (or_intror (or_introl eq_refl)))).
Defined.

(** A command line that begins with [/remote] and a space, and does not end
    with white space, is a [remote] command. *)
Lemma parse_remote (rest : string) (z : ascii) :
  Settings.last_char ("/remote " ++ rest) = String z "" ->
  is_space z = false ->
  fst (Router.parse ("/remote " ++ rest)) = "remote".
Proof.
  intros Hlast Hz. unfold Router.parse, Router.words. cbn [fst].
  change ("/remote " ++ rest)%string with (String "/" ("remote " ++ rest)) in *.
  rewrite (@trim_fixed "/" z ("remote " ++ rest) eq_refl Hz Hlast).
  change (String "/" ("remote " ++ rest)) with ("/remote" ++ String " " rest)%string.
  assert (Hw : Router.word "/remote") by (split; [discriminate | reflexivity]).
  rewrite (@collapse_word false "/remote" (String " " rest) Hw).
  unfold split.
  rewrite (@split_on_free_prefix " " "/remote" _ "" (proj2 Hw)).
  reflexivity.
Qed.

Lemma last_char_all (s : string) :
  Settings.last_char (s ++ " all") = "l".
Proof. rewrite last_char_app_r by discriminate. reflexivity. Qed.

Ltac remote_line rest body :=
  apply (@parse_remote rest "l"); [|reflexivity];
  transitivity (Settings.last_char (body ++ " all")%string);
  [f_equal; rewrite !string_app_assoc; reflexivity | apply last_char_all].

Lemma alias_expands_to_remote (name : string) (alias : list string -> string)
    (group : list string) :
  Router.lookup Router.aliases name = Some alias ->
  fst (Router.parse (alias group)) = "remote".
Proof.
  unfold Router.lookup, Router.aliases.
  cbn [find fst snd option_map].
  repeat match goal with
  | |- context [String.eqb ?a name] =>
      destruct (String.eqb a name);
      [intros [= <-]; try reflexivity |]
  end; try discriminate.
  all: unfold Router.remote_enable, Router.remote_make_price.
  - remote_line ("enable pw " ++ join group ++ " {QUOTE_COIN} all")%string
                ("/remote enable pw " ++ join group ++ " {QUOTE_COIN}")%string.
  - remote_line ("enable pw " ++ join group ++ " {QUOTE_COIN} all")%string
                ("/remote enable pw " ++ join group ++ " {QUOTE_COIN}")%string.
  - remote_line ("make price " ++ nth 0 group "undefined" ++ " {QUOTE_COIN} "
                 ++ join (tl group) ++ " all")%string
                ("/remote make price " ++ nth 0 group "undefined"
                 ++ " {QUOTE_COIN} " ++ join (tl group))%string.
  - remote_line ("make price " ++ nth 0 group "undefined" ++ " {QUOTE_COIN} "
                 ++ join (tl group) ++ " all")%string
                ("/remote make price " ++ nth 0 group "undefined"
                 ++ " {QUOTE_COIN} " ++ join (tl group))%string.
  - remote_line ("enable sp " ++ join group ++ " {QUOTE_COIN} all")%string
                ("/remote enable sp " ++ join group ++ " {QUOTE_COIN}")%string.
  - remote_line ("enable sp " ++ join group ++ " {QUOTE_COIN} all")%string
                ("/remote enable sp " ++ join group ++ " {QUOTE_COIN}")%string.
Qed.

Lemma alias_found (name : string) :
  In name Router.alias_names ->
  Router.inherited name = false /\
  exists alias, Router.lookup Router.aliases name = Some alias.
Proof.
  unfold Router.alias_names, Router.aliases. cbn [map fst]. intros Hin.
  repeat (destruct Hin as [<- | Hin];
          [split; [reflexivity | eexists; reflexivity]|]).
  contradiction.
Qed.

(** X18.  Every alias expands to a [/remote ...] command line, and [remote]
    is not a key of [commands]: whatever follows an alias, the processor
    answers that it does not know the command [remote], and changes
    nothing. *)
Theorem aliases_lead_to_unknown_command (E : CommandTxs.Env)
    (X : Router.Surroundings)
    (self : string -> string -> Router.State ->
            CommandTxs.CommandResult * Router.State)
    (commandMsg tx : string) (st : Router.State) :
  In (fst (Router.parse commandMsg)) Router.alias_names ->
  Router.processCommand E X self commandMsg tx st
  = (Router.unknown_command "remote", st).
Proof.
  intros Hin. unfold Router.processCommand.
  destruct (Router.parse commandMsg) as [name group]. cbn [fst] in Hin.
  destruct (@alias_found name Hin) as [Hinh [alias Halias]].
  rewrite Hinh, Halias.
  pose proof (@alias_expands_to_remote name alias group Halias) as Hremote.
  destruct (Router.parse (alias group)) as [name' group'].
  cbn [fst] in Hremote. subst name'. reflexivity.
Qed.

Lemma aliases_lead_to_unknown_command_witness :
  Router.processCommand (CommandTxs.example_env None None) (Router.quiet 0)
    (fun _ _ st => (Router.blank_result, st)) "/rstopy" "tx"
    {| Router.world := CommandTxs.idle_world;
       Router.tradeParams := Settings.set_active true "optimal" Settings.shipped |}
  = (Router.unknown_command "remote",
     {| Router.world := CommandTxs.idle_world;
        Router.tradeParams := Settings.set_active true "optimal" Settings.shipped |}).
Proof.
  apply (@aliases_lead_to_unknown_command (CommandTxs.example_env None None)
           (Router.quiet 0) (fun _ _ st => (Router.blank_result, st))
           "/rstopy" "tx").
  unfold Router.alias_names. cbn. tauto.
Defined.

(** X19.  When the pending command is a [/fill] that the processor stored
    with the parameters of a command line, [/y] within the ten minutes runs
    [fill] once more on these parameters followed by [-y], answers with its
    message and no notification, and leaves no pending command; the trade
    settings are not touched. *)
Theorem y_reruns_fill_with_marker (E : CommandTxs.Env)
    (X : Router.Surroundings)
    (self : string -> string -> Router.State ->
            CommandTxs.CommandResult * Router.State)
    (tx commandMsg : string) (st : Router.State) (t0 : Z) :
  CommandTxs.pendingConfirmation (Router.world st)
    = {| CommandTxs.command :=
           ("/fill " ++ join (snd (Router.parse commandMsg)))%string;
         CommandTxs.timestamp := t0 |} ->
  (Router.now X - t0 <= CommandTxs.timeToConfirm)%Z ->
  Router.processCommand E X (Router.processCommand E X self) "/y" tx st
  = let params := snd (Router.parse commandMsg) ++ ["-y"] in
    let '(r, w) := CommandTxs.fill E (Router.now X) params (Router.world st) in
    ({| CommandTxs.msgNotify := "";
        CommandTxs.msgSendBack := CommandTxs.msgSendBack r;
        CommandTxs.notifyType := CommandTxs.notifyType r |},
     {| Router.world := CommandTxs.clear_pending_command w;
        Router.tradeParams := Router.tradeParams st |}).
Proof.
  intros Hpending Hdue.
  pose proof (parse_params_are_words commandMsg) as Hall.
  set (params := snd (Router.parse commandMsg)) in *.
  assert (Hparse : Router.parse (("/fill " ++ join params) ++ " -y")
                   = ("fill", params ++ ["-y"])).
  { change (("/fill " ++ join params) ++ " -y")%string
      with ("/" ++ "fill" ++ " " ++ join params ++ " -y")%string.
    apply parse_confirmed; [cbn; tauto | exact Hall]. }
  assert (Hrun : forall w,
    Router.processCommand E X self (("/fill " ++ join params) ++ " -y") tx
      {| Router.world := w; Router.tradeParams := Router.tradeParams st |}
    = Router.on_world (CommandTxs.fill E (Router.now X) (params ++ ["-y"]))
        {| Router.world := w; Router.tradeParams := Router.tradeParams st |}).
  { intros w. unfold Router.processCommand. rewrite Hparse. reflexivity. }
  unfold Router.processCommand at 1.
  change (Router.parse "/y") with ("y", @nil string).
  cbn [Router.inherited String.eqb Ascii.eqb Bool.eqb orb].
  change (Router.lookup Router.aliases "y") with (@None (list string -> string)).
  cbv iota beta.
  change (Router.lookup
            (Router.commands E X (Router.processCommand E X self) tx) "y")
    with (Some (Router.y_handler X (Router.processCommand E X self) tx)).
  cbv iota beta.
  unfold Router.y_handler, CommandTxs.y. rewrite Hpending.
  cbn [CommandTxs.command CommandTxs.timestamp].
  change (negb (("/fill " ++ join params) =? "")%string) with true.
  cbv iota.
  replace (Router.now X - t0 >? CommandTxs.timeToConfirm)%Z with false
    by (symmetry; rewrite Z.gtb_ltb; apply Z.ltb_ge; exact Hdue).
  rewrite !Hrun. unfold Router.on_world. cbn [Router.world Router.tradeParams].
  destruct (CommandTxs.fill E (Router.now X) (params ++ ["-y"]) (Router.world st))
    as [r w] eqn:Hfill.
  cbn [Router.world]. rewrite Hrun. unfold Router.on_world.
  cbn [Router.world Router.tradeParams]. rewrite Hfill. reflexivity.
Qed.

Lemma y_reruns_fill_with_marker_witness :
  let E := CommandTxs.example_env (Some Router.funded) None in
  let X := Router.quiet 1000 in
  let res := Router.processCommand E X
               (Router.processCommand E X (fun _ _ st => (Router.blank_result, st)))
               "/y" "tx" Router.pending_fill_state in
  List.length (CommandTxs.placements (Router.world (snd res))) = 5%nat /\
  CommandTxs.command (CommandTxs.pendingConfirmation (Router.world (snd res))) = "".
Proof.
  intros E X res. unfold res.
  rewrite (@y_reruns_fill_with_marker E X
             (fun _ _ st => (Router.blank_result, st)) "tx"
             "/fill ADM/USDT buy quote=100 low=1 high=2 count=5"
             Router.pending_fill_state 0%Z).
  - vm_compute. split; reflexivity.
  - reflexivity.
  - vm_compute. discriminate.
Defined.

(* --------------------------------------------------------------------- *)
(** ** [fill]: the order list *)
(* --------------------------------------------------------------------- *)

Section FillOrderList.

Import CommandTxs.
Import FillBudget.

Variable E : Env.
Variable isBuy : bool.
Variables n a h : Q.
Variables step orderAmount : Q.

Hypothesis draws_finite :
  forall k x d, exists q, randomDeviation E k (Num x) d = Num q.

Lemma fill_order_list_length (count amount high st oa : number)
    (turns i : nat) (price total : number) :
  (List.length (fill_order_list E isBuy count amount high st oa turns i
                  price total) <= turns)%nat.
Proof.
  revert i price total. induction turns as [|t IH]; intros i price total;
    cbn [fill_order_list]; [cbn; lia|].
  destruct (lt _ count); [|cbn; lia].
  destruct (gt _ amount && _); [cbn; lia|].
  destruct (gt _ high && _); [cbn; lia|].
  cbn [List.length]. specialize (IH (S i)). apply le_n_S. apply IH.
Qed.

(** The loop for a count other than 1: an order is added only while the
    total stays within the amount and the price within [high]. *)
Lemma fill_order_list_many (turns i : nat) (p t : Q) :
  Js.eq (Num n) (Num 1) = false -> t <= a ->
  let l := fill_order_list E isBuy (Num n) (Num a) (Num h) (Num step)
             (Num orderAmount) turns i (Num p) (Num t) in
  Forall (fun o => exists q, fo_price o = Num q /\ q <= h) l /\
  exists s, spent_total isBuy l = Num s /\ t + s <= a.
Proof.
  intros Hmany. revert i p t.
  induction turns as [|k IH]; intros i p t Ht; cbn [fill_order_list].
  - split; [constructor|]. exists 0. split; [reflexivity | lra].
  - destruct (lt (OrderBookBuilder.num_of_nat i) (Num n)).
    2:{ split; [constructor|]. exists 0. split; [reflexivity | lra]. }
    destruct (draws_finite (2 * i) step (Num (9 # 10))) as [dp ->].
    destruct (draws_finite (2 * i + 1) orderAmount (Num (9 # 10))) as [c ->].
    rewrite Hmany. cbn [negb add]. rewrite !andb_true_r.
    destruct (gt (Num (t + c)) (Num a)) eqn:Htot.
    { split; [constructor|]. exists 0. split; [reflexivity | lra]. }
    apply gt_Num_false in Htot.
    destruct (gt (Num (p + dp)) (Num h)) eqn:Hpr.
    { split; [constructor|]. exists 0. split; [reflexivity | lra]. }
    apply gt_Num_false in Hpr.
    destruct (IH (S i) (p + dp) (t + c) Htot) as [Hall (s & Hs & Hsum)].
    split.
    + constructor; [|exact Hall].
      exists (p + dp). split; [destruct isBuy; reflexivity | exact Hpr].
    + exists (c + s). split.
      * cbn [spent_total]. rewrite Hs.
        destruct isBuy; reflexivity.
      * lra.
Qed.

End FillOrderList.

Lemma div_Num (x y : Q) : ~ y == 0 -> div (Num x) (Num y) = Num (x / y).
Proof.
  intros Hy. unfold div.
  destruct (Qeq_bool y 0) eqn:E0; [|reflexivity].
  apply Qeq_bool_iff in E0. contradiction.
Qed.

(** X20.  The order list of [fill] for a count of at least 1, a positive
    amount and prices [low] and [high] has no more orders than the count
    rounded up, no order priced above [high], and takes no more than the
    amount from the budget in total: the quote amounts of buy orders, or the
    base amounts of sell orders, add up to at most the amount of the
    command.  [utils.randomDeviation] is taken to give finite numbers. *)
Theorem fill_orders_within_budget (E : CommandTxs.Env) (isBuy : bool)
    (n a l h : Q) :
  (forall k x d, exists q, CommandTxs.randomDeviation E k (Num x) d = Num q) ->
  1 <= n -> 0 < a ->
  let orderList := FillBudget.orderList E isBuy (Num n) (Num a) (Num l) (Num h) in
  (List.length orderList <= CommandTxs.turns_of (Num n))%nat /\
  Forall (fun o => exists q, CommandTxs.fo_price o = Num q /\ q <= h) orderList /\
  exists s, FillBudget.spent_total isBuy orderList = Num s /\ s <= a.
Proof.
  intros Hdraws Hn Ha orderList. unfold orderList, FillBudget.orderList.
  split; [apply fill_order_list_length|].
  cbn [sub neg add].
  rewrite !div_Num by (intros E0; lra).
  destruct (Js.eq (Num n) (Num 1)) eqn:Hsingle.
  - (* a single order: what exceeds is cut to the amount and to [high] *)
    assert (Hn1 : n == 1) by (apply Qeq_bool_iff; exact Hsingle).
    assert (Hturns : CommandTxs.turns_of (Num n) = 1%nat).
    { unfold CommandTxs.turns_of. rewrite Hn1. reflexivity. }
    rewrite Hturns. cbn [CommandTxs.fill_order_list].
    destruct (lt (OrderBookBuilder.num_of_nat 0) (Num n)).
    2:{ split; [constructor|]. exists 0. split; [reflexivity | lra]. }
    destruct (Hdraws (2 * 0)%nat ((h + - l) / n) (Num (9 # 10))) as [dp ->].
    destruct (Hdraws (2 * 0 + 1)%nat (a / n) (Num (9 # 10))) as [c ->].
    rewrite Hsingle. cbn [negb add]. rewrite !andb_false_r.
    destruct (gt (Num (0 + c)) (Num a)) eqn:Htot;
      destruct (gt (Num (l + dp)) (Num h)) eqn:Hpr;
      try apply gt_Num_false in Htot; try apply gt_Num_false in Hpr.
    all: split;
      [ constructor; [|constructor]; eexists;
        split; [destruct isBuy; reflexivity | lra]
      | eexists; split;
        [ cbn [FillBudget.spent_total FillBudget.spent]; destruct isBuy;
          cbn [CommandTxs.fo_altAmount CommandTxs.fo_amount add]; reflexivity
        | lra ] ].
  - destruct (@fill_order_list_many E isBuy n a h ((h + - l) / n) (a / n)
                Hdraws (CommandTxs.turns_of (Num n)) 0 l 0 Hsingle
                (Qlt_le_weak _ _ Ha)) as [Hall (s & Hs & Hsum)].
    split; [exact Hall|]. exists s. split; [exact Hs | lra].
Qed.

Lemma fill_orders_within_budget_witness :
  let orderList :=
    FillBudget.orderList (CommandTxs.example_env None None) true
      (Num 5) (Num 100) (Num 1) (Num 2) in
  (List.length orderList <= 5)%nat /\
  Forall (fun o => exists q, CommandTxs.fo_price o = Num q /\ q <= 2) orderList /\
  exists s, FillBudget.spent_total true orderList = Num s /\ s <= 100.
Proof.
  apply (@fill_orders_within_budget (CommandTxs.example_env None None) true
           5 100 1 2).
  - intros k x d. exists x. reflexivity.
  - discriminate.
  - reflexivity.
Defined.

(* --------------------------------------------------------------------- *)
(** ** Manual orders *)
(* --------------------------------------------------------------------- *)

Lemma not_positive_false (x : number) :
  Manual.not_positive x = false -> exists q, x = Num q /\ 0 < q.
Proof.
  unfold Manual.not_positive. intros H.
  apply orb_false_iff in H. destruct H as [H Hle].
  apply orb_false_iff in H. destruct H as [Hf Hinf].
  destruct x as [q| | |]; try discriminate.
  exists q. split; [reflexivity|].
  unfold Js.le in Hle. apply orb_false_iff in Hle. destruct Hle as [Hlt _].
  apply lt_Num_false in Hlt.
  destruct (Qeq_dec q 0) as [E0|N0].
  - apply falsy_Num in E0. congruence.
  - lra.
Qed.

Lemma truthy_falsy (x : number) : truthy x = negb (falsy x).
Proof. reflexivity. Qed.

(** What [getBuySellParams] has checked when it hands its result to
    [buy_sell]. *)
Lemma getBuySellParams_ready (E : CommandTxs.Env) (X : Manual.Exchange)
    (now : Z) (params : list string) (type : OrderBookBuilder.side)
    (w w' : CommandTxs.World) (r : Manual.Ready) :
  Manual.getBuySellParams E X now params type w = (inr r, w') ->
  w' = w /\
  Manual.amount r = Manual.v_amount (Manual.read_params E params) /\
  Manual.quote r = Manual.v_quote (Manual.read_params E params) /\
  Manual.price r = Manual.v_price (Manual.read_params E params) /\
  falsy (Manual.amount r) = negb (falsy (Manual.quote r)) /\
  Manual.not_positive
    (if falsy (Manual.amount r) then Manual.quote r else Manual.amount r)
  = false /\
  (Manual.is_market (Manual.price r) = false ->
   Manual.not_positive (Manual.price_number (Manual.price r)) = false) /\
  (Manual.is_market (Manual.price r) = true ->
   Manual.allowAmountForMarketBuy X = false ->
   falsy (match type with
          | OrderBookBuilder.buy => Manual.quote r
          | OrderBookBuilder.sell => Manual.amount r
          end) = false).
Proof.
  unfold Manual.getBuySellParams.
  set (v := Manual.read_params E params).
  destruct (List.length params <? 1)%nat; [discriminate|].
  rewrite !truthy_falsy.
  destruct (falsy (Manual.v_quote v)) eqn:Hq;
    destruct (falsy (Manual.v_amount v)) eqn:Ha; cbn [negb andb orb];
    try discriminate.
  - (* the amount is given *)
    destruct (negb (Manual.is_market (Manual.v_price v))
              && Manual.not_positive (Manual.price_number (Manual.v_price v))
              || Manual.not_positive (Manual.v_amount v)) eqn:Hpos;
      [discriminate|].
    destruct (Manual.is_market (Manual.v_price v)
              && negb (Manual.placeMarketOrder X)); [discriminate|].
    destruct (Manual.is_market (Manual.v_price v)
              && negb (Manual.allowAmountForMarketBuy X)
              && match type with
                 | OrderBookBuilder.buy => true
                 | OrderBookBuilder.sell => false
                 end) eqn:Hside; [discriminate|].
    destruct (Manual.is_market (Manual.v_price v)
              && Manual.amountForMarketOrderNecessary X && false);
      [discriminate|].
    destruct (_ && _ && _ && _); [discriminate|].
    intros [= <- <-]. cbn [Manual.amount Manual.quote Manual.price].
    rewrite Ha, Hq. cbn [negb].
    apply orb_false_iff in Hpos. destruct Hpos as [Hp Hamt].
    repeat split; try reflexivity; try exact Hamt.
    + intros Hm. rewrite Hm in Hp. exact Hp.
    + intros Hm Hallow. rewrite Hm, Hallow in Hside. cbn in Hside.
      destruct type; [discriminate | exact Ha].
  - (* the quote is given *)
    destruct (negb (Manual.is_market (Manual.v_price v))
              && Manual.not_positive (Manual.price_number (Manual.v_price v))
              || Manual.not_positive (Manual.v_quote v)) eqn:Hpos;
      [discriminate|].
    destruct (Manual.is_market (Manual.v_price v)
              && negb (Manual.placeMarketOrder X)); [discriminate|].
    destruct (Manual.is_market (Manual.v_price v)
              && negb (Manual.allowAmountForMarketBuy X)
              && match type with
                 | OrderBookBuilder.buy => false
                 | OrderBookBuilder.sell => true
                 end) eqn:Hside; [discriminate|].
    destruct (Manual.is_market (Manual.v_price v)
              && Manual.amountForMarketOrderNecessary X && true);
      [discriminate|].
    destruct (_ && _ && _ && _); [discriminate|].
    intros [= <- <-]. cbn [Manual.amount Manual.quote Manual.price].
    rewrite Ha, Hq. cbn [negb].
    apply orb_false_iff in Hpos. destruct Hpos as [Hp Hamt].
    repeat split; try reflexivity; try exact Hamt.
    + intros Hm. rewrite Hm in Hp. exact Hp.
    + intros Hm Hallow. rewrite Hm, Hallow in Hside. cbn in Hside.
      destruct type; [exact Hq | discriminate].
Qed.

Lemma mul_NaN_r (x : number) : mul x NaN = NaN.
Proof. destruct x; reflexivity. Qed.

Lemma div_NaN_r (x : number) : div x NaN = NaN.
Proof. destruct x; reflexivity. Qed.

(** X21.  A [buy] or [sell] with a number for the price that gets past the
    checks asks [orderUtils.addGeneralOrder] for one limit order of purpose
    [man]: it carries the price of the command, and the one of the base
    amount and the quote amount that the command gave, as they were given,
    both positive and finite; the other amount is the one [buy_sell]
    computes from the two. *)
Theorem manual_limit_order_carries_price_and_amount (E : CommandTxs.Env)
    (X : Manual.Exchange) (now : Z) (params : list string)
    (type : OrderBookBuilder.side) (w w' : CommandTxs.World)
    (r : Manual.Ready) (x : number) :
  Manual.getBuySellParams E X now params type w = (inr r, w') ->
  Manual.price r = Manual.LimitPrice x ->
  exists (p given : Q) (coin1Amount coin2Amount : number),
    x = Num p /\ 0 < p /\ 0 < given /\
    ((Manual.amount r = Num given /\ coin1Amount = Num given) \/
     (Manual.quote r = Num given /\ coin2Amount = Num given)) /\
    CommandTxs.placements (snd (Manual.command E X now type params w))
    = CommandTxs.placements w
      ++ [ {| CommandTxs.r_type := Manual.type_name type;
              CommandTxs.r_pair := CommandTxs.m_pair (Manual.pairObj r);
              CommandTxs.r_price := Num p;
              CommandTxs.r_coin1Amount := coin1Amount;
              CommandTxs.r_limit := 1;
              CommandTxs.r_coin2Amount := Some coin2Amount;
              CommandTxs.r_purpose := "man" |} ].
Proof.
  intros Hready Hprice.
  destruct (getBuySellParams_ready _ _ _ _ _ _ Hready)
    as (-> & _ & _ & _ & Hxor & Hgiven & Hlimit & _).
  rewrite Hprice in Hlimit. cbn in Hlimit.
  destruct (not_positive_false _ (Hlimit eq_refl)) as (p & -> & Hp).
  assert (Hplaced :
    CommandTxs.placements (snd (Manual.command E X now type params w))
    = CommandTxs.placements w ++ [Manual.request type r]).
  { unfold Manual.command. rewrite Hready. cbn [Manual.buy_sell].
    destruct (Manual.orderMessage X (Manual.request type r)); reflexivity. }
  rewrite Hplaced. unfold Manual.request. rewrite Hprice.
  cbn [Manual.is_market Manual.price_number].
  destruct (falsy (Manual.amount r)) eqn:Ha.
  - (* the quote is given *)
    destruct (not_positive_false _ Hgiven) as (q & Hq & Hq0).
    exists p, q, (div (Manual.quote r) (Num p)), (Manual.quote r).
    split; [reflexivity|]. split; [exact Hp|]. split; [exact Hq0|].
    split; [right; split; exact Hq | reflexivity].
  - destruct (not_positive_false _ Hgiven) as (a & Hq & Ha0).
    exists p, a, (Manual.amount r), (mul (Manual.amount r) (Num p)).
    split; [reflexivity|]. split; [exact Hp|]. split; [exact Ha0|].
    split; [left; split; exact Hq | reflexivity].
Qed.

Lemma manual_limit_order_carries_price_and_amount_witness :
  exists (p given : Q) (coin1Amount coin2Amount : number),
    Num (inject_Z 0 + (5 # 10)) = Num p /\ 0 < p /\ 0 < given /\
    ((Num 200 = Num given /\ coin1Amount = Num given) \/
     (NaN = Num given /\ coin2Amount = Num given)) /\
    CommandTxs.placements
      (snd (Manual.command (CommandTxs.example_env None None) Manual.dextrade 0
              OrderBookBuilder.sell ["ADM/USDT"; "amount=200"; "price=0.5"]
              CommandTxs.idle_world))
    = [ {| CommandTxs.r_type := "sell";
           CommandTxs.r_pair := "ADM/USDT";
           CommandTxs.r_price := Num p;
           CommandTxs.r_coin1Amount := coin1Amount;
           CommandTxs.r_limit := 1;
           CommandTxs.r_coin2Amount := Some coin2Amount;
           CommandTxs.r_purpose := "man" |} ].
Proof.
  apply (@manual_limit_order_carries_price_and_amount
           (CommandTxs.example_env None None)
           Manual.dextrade 0 ["ADM/USDT"; "amount=200"; "price=0.5"]
           OrderBookBuilder.sell CommandTxs.idle_world CommandTxs.idle_world
           {| Manual.amount := Num 200;
              Manual.price := Manual.LimitPrice (Num (inject_Z 0 + (5 # 10)));
              Manual.quote := NaN;
              Manual.pairObj := CommandTxs.adm_usdt |}
           (Num (inject_Z 0 + (5 # 10)))).
  - reflexivity.
  - reflexivity.
Defined.

(** X22.  A [buy] or [sell] at the market price that gets past the checks,
    on an exchange that does not take a base amount for a market buy, asks
    for one market order with no price, in which a buy carries the quote
    amount only and a sell the base amount only: the other amount, which
    [buy_sell] computes with the string [market], is [NaN].  The amount it
    carries is positive and finite. *)
Theorem manual_market_order_carries_one_amount (E : CommandTxs.Env)
    (X : Manual.Exchange) (now : Z) (params : list string)
    (type : OrderBookBuilder.side) (w w' : CommandTxs.World)
    (r : Manual.Ready) :
  Manual.getBuySellParams E X now params type w = (inr r, w') ->
  Manual.price r = Manual.MarketPrice ->
  Manual.allowAmountForMarketBuy X = false ->
  exists given : Q,
    0 < given /\
    CommandTxs.placements (snd (Manual.command E X now type params w))
    = CommandTxs.placements w
      ++ [ {| CommandTxs.r_type := Manual.type_name type;
              CommandTxs.r_pair := CommandTxs.m_pair (Manual.pairObj r);
              CommandTxs.r_price := NaN;
              CommandTxs.r_coin1Amount :=
                match type with
                | OrderBookBuilder.buy => NaN
                | OrderBookBuilder.sell => Num given
                end;
              CommandTxs.r_limit := 0;
              CommandTxs.r_coin2Amount :=
                Some match type with
                     | OrderBookBuilder.buy => Num given
                     | OrderBookBuilder.sell => NaN
                     end;
              CommandTxs.r_purpose := "man" |} ].
Proof.
  intros Hready Hprice Hallow.
  destruct (getBuySellParams_ready _ _ _ _ _ _ Hready)
    as (-> & _ & _ & _ & Hxor & Hgiven & _ & Hmarket).
  rewrite Hprice in Hmarket. specialize (Hmarket eq_refl Hallow).
  assert (Hplaced :
    CommandTxs.placements (snd (Manual.command E X now type params w))
    = CommandTxs.placements w ++ [Manual.request type r]).
  { unfold Manual.command. rewrite Hready. cbn [Manual.buy_sell].
    destruct (Manual.orderMessage X (Manual.request type r)); reflexivity. }
  rewrite Hplaced. unfold Manual.request. rewrite Hprice.
  cbn [Manual.is_market Manual.price_number].
  rewrite mul_NaN_r, div_NaN_r.
  destruct type.
  - (* buy: the quote is set, so the amount is not *)
    rewrite Hmarket in Hxor. cbn in Hxor. rewrite Hxor in Hgiven |- *.
    destruct (not_positive_false _ Hgiven) as (q & -> & Hq).
    exists q. split; [exact Hq | reflexivity].
  - rewrite Hmarket in Hgiven |- *.
    destruct (not_positive_false _ Hgiven) as (a & -> & Ha).
    exists a. split; [exact Ha | reflexivity].
Qed.

Lemma manual_market_order_carries_one_amount_witness :
  exists given : Q,
    0 < given /\
    CommandTxs.placements
      (snd (Manual.command (CommandTxs.example_env None None) Manual.dextrade 0
              OrderBookBuilder.buy ["quote=20"] CommandTxs.idle_world))
    = [ {| CommandTxs.r_type := "buy";
           CommandTxs.r_pair := "ADM/USDT";
           CommandTxs.r_price := NaN;
           CommandTxs.r_coin1Amount := NaN;
           CommandTxs.r_limit := 0;
           CommandTxs.r_coin2Amount := Some (Num given);
           CommandTxs.r_purpose := "man" |} ].
Proof.
  apply (@manual_market_order_carries_one_amount
           (CommandTxs.example_env None None) Manual.dextrade 0 ["quote=20"]
           OrderBookBuilder.buy CommandTxs.idle_world CommandTxs.idle_world
           {| Manual.amount := NaN;
              Manual.price := Manual.MarketPrice;
              Manual.quote := Num 20;
              Manual.pairObj := CommandTxs.adm_usdt |}).
  - reflexivity.
  - reflexivity.
  - reflexivity.
Defined.

Lemma read_params_confirmed (E : CommandTxs.Env) (params : list string) :
  Manual.read_params E (params ++ ["-y"]) = Manual.read_params E params.
Proof.
  unfold Manual.read_params. rewrite fold_left_app. reflexivity.
Qed.

(** [getBuySellParams] touches the pending command only when it asks for a
    confirmation, and then the same parameters followed by [-y] pass. *)
Lemma getBuySellParams_prompted (E : CommandTxs.Env) (X : Manual.Exchange)
    (now : Z) (params : list string) (type : OrderBookBuilder.side)
    (w : CommandTxs.World) :
  CommandTxs.pendingConfirmation
    (snd (Manual.getBuySellParams E X now params type w))
  <> CommandTxs.pendingConfirmation w ->
  (exists message,
     Manual.getBuySellParams E X now params type w
     = (inl message,
        CommandTxs.setPendingConfirmation now
          ("/" ++ Manual.type_name type ++ " " ++ join params)%string w)) /\
  exists r,
    Manual.amount r = Manual.v_amount (Manual.read_params E params) /\
    Manual.quote r = Manual.v_quote (Manual.read_params E params) /\
    Manual.price r = Manual.v_price (Manual.read_params E params) /\
    forall now' w',
      Manual.getBuySellParams E X now' (params ++ ["-y"]) type w' = (inr r, w').
Proof.
  unfold Manual.getBuySellParams. rewrite read_params_confirmed.
  rewrite existsb_app.
  change (existsb (fun param => (toLowerCase param =? "-y")%string) ["-y"])
    with true.
  rewrite orb_true_r, !andb_false_r.
  set (v := Manual.read_params E params).
  destruct params as [|p ps]; [intros H; exfalso; apply H; reflexivity|].
  change ((p :: ps) ++ ["-y"]) with (p :: (ps ++ ["-y"])).
  change (List.length (p :: ps) <? 1)%nat with false.
  change (List.length (p :: ps ++ ["-y"]) <? 1)%nat with false.
  cbv iota.
  destruct (truthy (Manual.v_quote v) && truthy (Manual.v_amount v)
            || falsy (Manual.v_quote v) && falsy (Manual.v_amount v));
    [intros H; exfalso; apply H; reflexivity|].
  destruct (negb (Manual.is_market (Manual.v_price v))
            && Manual.not_positive (Manual.price_number (Manual.v_price v))
            || Manual.not_positive
                 (if truthy (Manual.v_quote v) then Manual.v_quote v
                  else Manual.v_amount v));
    [intros H; exfalso; apply H; reflexivity|].
  destruct (Manual.is_market (Manual.v_price v)
            && negb (Manual.placeMarketOrder X));
    [intros H; exfalso; apply H; reflexivity|].
  destruct (Manual.is_market (Manual.v_price v)
            && negb (Manual.allowAmountForMarketBuy X)
            && match type with
               | OrderBookBuilder.buy => falsy (Manual.v_quote v)
               | OrderBookBuilder.sell => falsy (Manual.v_amount v)
               end);
    [intros H; exfalso; apply H; reflexivity|].
  destruct (Manual.is_market (Manual.v_price v)
            && Manual.amountForMarketOrderNecessary X
            && falsy (Manual.v_amount v));
    [intros H; exfalso; apply H; reflexivity|].
  destruct (_ && _ && _ && _);
    [|intros H; exfalso; apply H; reflexivity].
  intros _. split.
  - eexists. reflexivity.
  - eexists. split; [|split; [|split]]; [| | |intros now' w'; reflexivity];
      reflexivity.
Qed.

Lemma command_prompted (E : CommandTxs.Env) (X : Manual.Exchange)
    (now : Z) (params : list string) (type : OrderBookBuilder.side)
    (w : CommandTxs.World) :
  CommandTxs.pendingConfirmation (snd (Manual.command E X now type params w))
  <> CommandTxs.pendingConfirmation w ->
  snd (Manual.command E X now type params w)
  = CommandTxs.setPendingConfirmation now
      ("/" ++ Manual.type_name type ++ " " ++ join params)%string w /\
  exists r,
    Manual.amount r = Manual.v_amount (Manual.read_params E params) /\
    Manual.quote r = Manual.v_quote (Manual.read_params E params) /\
    Manual.price r = Manual.v_price (Manual.read_params E params) /\
    forall now' w',
      Manual.getBuySellParams E X now' (params ++ ["-y"]) type w' = (inr r, w').
Proof.
  intros H.
  assert (Hparams :
    CommandTxs.pendingConfirmation
      (snd (Manual.getBuySellParams E X now params type w))
    <> CommandTxs.pendingConfirmation w).
  { intros Hsame. apply H. unfold Manual.command.
    destruct (Manual.getBuySellParams E X now params type w)
      as [[message | r] w1]; cbn [snd] in Hsame |- *.
    - exact Hsame.
    - cbn [Manual.buy_sell].
      destruct (Manual.orderMessage X (Manual.request type r)); exact Hsame. }
  destruct (getBuySellParams_prompted _ _ _ _ _ _ Hparams)
    as [[message Hprompt] Hagain].
  split; [|exact Hagain].
  unfold Manual.command. rewrite Hprompt. reflexivity.
Qed.

Lemma command_confirmed (E : CommandTxs.Env) (X : Manual.Exchange)
    (now : Z) (params : list string) (type : OrderBookBuilder.side)
    (w : CommandTxs.World) (r : Manual.Ready) :
  Manual.getBuySellParams E X now params type w = (inr r, w) ->
  snd (Manual.command E X now type params w)
  = CommandTxs.add_placement (Manual.request type r) w.
Proof.
  intros H. unfold Manual.command. rewrite H. cbn [Manual.buy_sell].
  destruct (Manual.orderMessage X (Manual.request type r)); reflexivity.
Qed.

Lemma processCommand_manual (E : CommandTxs.Env) (X : Router.Surroundings)
    (self : string -> string -> Router.State ->
            CommandTxs.CommandResult * Router.State)
    (commandMsg tx : string) (type : OrderBookBuilder.side)
    (params : list string) (st : Router.State) :
  Router.parse commandMsg = (Manual.type_name type, params) ->
  Router.processCommand E X self commandMsg tx st
  = Router.on_world
      (Manual.command E (Router.exchange X) (Router.now X) type params) st.
Proof.
  intros Hparse. unfold Router.processCommand. rewrite Hparse.
  destruct type; reflexivity.
Qed.

(** X23.  When [buy] or [sell] has asked for a confirmation, [/y] within the
    ten minutes, on the same trading API, places the order of that command
    line: the prompt itself asks for no order, and after [/y] one request is
    added, built from the amount, the quote and the price of the command
    line; no pending command is left, and the trade settings are as
    before. *)
Theorem y_places_the_prompted_order (E : CommandTxs.Env)
    (X1 X2 : Router.Surroundings)
    (self1 self2 : string -> string -> Router.State ->
                   CommandTxs.CommandResult * Router.State)
    (commandMsg tx1 tx2 : string) (type : OrderBookBuilder.side)
    (st : Router.State) :
  fst (Router.parse commandMsg) = Manual.type_name type ->
  let st1 := snd (Router.processCommand E X1 self1 commandMsg tx1 st) in
  CommandTxs.pendingConfirmation (Router.world st1)
  <> CommandTxs.pendingConfirmation (Router.world st) ->
  Router.exchange X2 = Router.exchange X1 ->
  (Router.now X2 - Router.now X1 <= CommandTxs.timeToConfirm)%Z ->
  let st2 :=
    snd (Router.processCommand E X2 (Router.processCommand E X2 self2)
           "/y" tx2 st1) in
  let v := Manual.read_params E (snd (Router.parse commandMsg)) in
  CommandTxs.placements (Router.world st1)
  = CommandTxs.placements (Router.world st) /\
  (exists r,
     Manual.amount r = Manual.v_amount v /\
     Manual.quote r = Manual.v_quote v /\
     Manual.price r = Manual.v_price v /\
     CommandTxs.placements (Router.world st2)
     = CommandTxs.placements (Router.world st) ++ [Manual.request type r]) /\
  CommandTxs.command (CommandTxs.pendingConfirmation (Router.world st2)) = "" /\
  Router.tradeParams st2 = Router.tradeParams st.
Proof.
  intros Hname st1 Hasked Hsame Hdue st2 v.
  pose proof (parse_params_are_words commandMsg) as Hall.
  destruct (Router.parse commandMsg) as [name params] eqn:Hparse.
  cbn [fst snd] in *. subst name.
  assert (Hst1 : st1
    = snd (Router.on_world
             (Manual.command E (Router.exchange X1) (Router.now X1) type params)
             st)).
  { unfold st1. rewrite (@processCommand_manual E X1 self1 commandMsg tx1 type
                           params st Hparse). reflexivity. }
  unfold Router.on_world in Hst1.
  destruct (Manual.command E (Router.exchange X1) (Router.now X1) type params
              (Router.world st)) as [res1 w1] eqn:Hcmd.
  cbn [snd] in Hst1.
  assert (Hw1 : w1 = snd (Manual.command E (Router.exchange X1) (Router.now X1)
                            type params (Router.world st)))
    by (rewrite Hcmd; reflexivity).
  assert (Hasked' :
    CommandTxs.pendingConfirmation
      (snd (Manual.command E (Router.exchange X1) (Router.now X1) type params
              (Router.world st)))
    <> CommandTxs.pendingConfirmation (Router.world st)).
  { rewrite <- Hw1. rewrite Hst1 in Hasked. exact Hasked. }
  destruct (command_prompted _ _ _ _ _ _ Hasked')
    as [Hprompt (r & Ha & Hq & Hp & Hagain)].
  rewrite <- Hw1 in Hprompt. clear Hasked' Hw1 Hcmd.
  set (line := ("/" ++ Manual.type_name type ++ " " ++ join params)%string)
    in *.
  assert (Hparse2 : Router.parse (line ++ " -y")
                    = (Manual.type_name type, params ++ ["-y"])).
  { unfold line.
    replace (("/" ++ Manual.type_name type ++ " " ++ join params) ++ " -y")%string
      with ("/" ++ Manual.type_name type ++ " " ++ join params ++ " -y")%string
      by (rewrite !string_app_assoc; reflexivity).
    apply parse_confirmed; [destruct type; cbn; tauto | exact Hall]. }
  assert (Hrun : forall w,
    Router.processCommand E X2 self2 (line ++ " -y") tx2
      {| Router.world := w; Router.tradeParams := Router.tradeParams st |}
    = Router.on_world
        (Manual.command E (Router.exchange X2) (Router.now X2) type
           (params ++ ["-y"]))
        {| Router.world := w; Router.tradeParams := Router.tradeParams st |}).
  { intros w. apply processCommand_manual. exact Hparse2. }
  assert (Hplaced : forall w,
    snd (Manual.command E (Router.exchange X2) (Router.now X2) type
           (params ++ ["-y"]) w)
    = CommandTxs.add_placement (Manual.request type r) w).
  { intros w. apply command_confirmed. rewrite Hsame. apply Hagain. }
  assert (Hst2 : st2
    = {| Router.world :=
           CommandTxs.clear_pending_command
             (CommandTxs.add_placement (Manual.request type r) w1);
         Router.tradeParams := Router.tradeParams st |}).
  { unfold st2. rewrite Hst1.
    unfold Router.processCommand at 1.
    change (Router.parse "/y") with ("y", @nil string).
    cbn [Router.inherited String.eqb Ascii.eqb Bool.eqb orb].
    change (Router.lookup Router.aliases "y")
      with (@None (list string -> string)).
    cbv iota beta.
    change (Router.lookup
              (Router.commands E X2 (Router.processCommand E X2 self2) tx2) "y")
      with (Some (Router.y_handler X2 (Router.processCommand E X2 self2) tx2)).
    cbv iota beta.
    unfold Router.y_handler, CommandTxs.y.
    cbn [Router.world Router.tradeParams]. rewrite Hprompt.
    cbn [CommandTxs.setPendingConfirmation CommandTxs.set_pending
         CommandTxs.pendingConfirmation CommandTxs.command CommandTxs.timestamp].
    replace (negb (line =? "")%string) with true
      by (unfold line; destruct type; reflexivity).
    cbv iota.
    replace (Router.now X2 - Router.now X1 >? CommandTxs.timeToConfirm)%Z
      with false
      by (symmetry; rewrite Z.gtb_ltb; apply Z.ltb_ge; exact Hdue).
    rewrite !Hrun. unfold Router.on_world.
    cbn [Router.world Router.tradeParams].
    match goal with
    | |- context [Manual.command ?e ?x ?t ?ty ?ps ?w] =>
        pose proof (Hplaced w) as Hw2;
        destruct (Manual.command e x t ty ps w) as [res2 w2] eqn:Hcmd2
    end.
    cbn [snd] in Hw2. subst w2.
    cbn [Router.world]. rewrite Hrun. unfold Router.on_world.
    cbn [Router.world Router.tradeParams]. rewrite Hcmd2. reflexivity. }
  rewrite Hst2, Hst1, Hprompt. cbn.
  repeat split.
  exists r. repeat split; assumption.
Qed.

Lemma y_places_the_prompted_order_witness :
  let E := CommandTxs.example_env None None in
  let idle := fun (_ _ : string) (st : Router.State) => (Router.blank_result, st) in
  let st := {| Router.world := CommandTxs.idle_world;
               Router.tradeParams := Settings.shipped |} in
  let st1 :=
    snd (Router.processCommand E (Router.quiet 0) idle "/buy quote=2000" "tx" st) in
  let st2 :=
    snd (Router.processCommand E (Router.quiet 1000)
           (Router.processCommand E (Router.quiet 1000) idle) "/y" "tx" st1) in
  let v := Manual.read_params E (snd (Router.parse "/buy quote=2000")) in
  CommandTxs.placements (Router.world st1)
  = CommandTxs.placements (Router.world st) /\
  (exists r,
     Manual.amount r = Manual.v_amount v /\
     Manual.quote r = Manual.v_quote v /\
     Manual.price r = Manual.v_price v /\
     CommandTxs.placements (Router.world st2)
     = CommandTxs.placements (Router.world st)
       ++ [Manual.request OrderBookBuilder.buy r]) /\
  CommandTxs.command (CommandTxs.pendingConfirmation (Router.world st2)) = "" /\
  Router.tradeParams st2 = Router.tradeParams st.
Proof.
  intros E idle st.
  apply (@y_places_the_prompted_order E (Router.quiet 0) (Router.quiet 1000)
           idle idle "/buy quote=2000" "tx" "tx" OrderBookBuilder.buy st).
  - reflexivity.
  - vm_compute. discriminate.
  - reflexivity.
  - vm_compute. discriminate.
Defined.

(* --------------------------------------------------------------------- *)
(** ** Order-book builder: the orders [closeOrderBookOrders] keeps *)
(* --------------------------------------------------------------------- *)

(** X24.  [closeOrderBookOrders] keeps exactly the orders of the list that
    are neither expired nor out of the price watcher's range, or whose cancel
    request came back as not processed: an order whose cancellation was
    processed, or threw, is not in the list the builder counts. *)
Theorem closeOrderBookOrders_keeps (now : Z)
    (clearOrderById : OrderBookBuilder.ObOrder -> OrderBookBuilder.Cancellation)
    (orderBookOrders : list OrderBookBuilder.ObOrder)
    (order : OrderBookBuilder.ObOrder) :
  In order
    (OrderBookBuilder.closeOrderBookOrders now clearOrderById orderBookOrders)
  <-> In order orderBookOrders /\
      ((OrderBookBuilder.ob_dateTill order <? now)%Z
       || OrderBookBuilder.ob_outOfPwRange order = false
       \/ clearOrderById order = OrderBookBuilder.CancelAnswer false).
Proof.
  induction orderBookOrders as [|o rest IH];
    cbn [OrderBookBuilder.closeOrderBookOrders In].
  - tauto.
  - destruct ((OrderBookBuilder.ob_dateTill o <? now)%Z
              || OrderBookBuilder.ob_outOfPwRange o) eqn:Hdue.
    + destruct (clearOrderById o) as [[|]|] eqn:Hclear; cbn [In];
        rewrite IH; split.
      * tauto.
      * intros [[<- | Hin] Hkeep]; [|tauto].
        rewrite Hdue, Hclear in Hkeep.
        destruct Hkeep; discriminate.
      * intros [<- | H]; [|tauto]. tauto.
      * tauto.
      * tauto.
      * intros [[<- | Hin] Hkeep]; [|tauto].
        rewrite Hdue, Hclear in Hkeep.
        destruct Hkeep; discriminate.
    + cbn [In]. rewrite IH. split.
      * intros [<- | H]; [|tauto]. tauto.
      * tauto.
Qed.

(* --------------------------------------------------------------------- *)
(** ** DexTrade adapter: pair names *)
(* --------------------------------------------------------------------- *)

Lemma upper_ascii_idempotent (c : ascii) :
  upper_ascii (upper_ascii c) = upper_ascii c.
Proof.
  destruct c as [[|] [|] [|] [|] [|] [|] [|] [|]]; reflexivity.
Qed.

Lemma separator_upper (c d : ascii) :
  In c PairName.separators ->
  Ascii.eqb c (upper_ascii d) = Ascii.eqb c d.
Proof.
  intros [<- | [<- | [<- | []]]];
    destruct d as [[|] [|] [|] [|] [|] [|] [|] [|]]; reflexivity.
Qed.

Lemma map_string_app (f : ascii -> ascii) (a b : string) :
  map_string f (a ++ b) = (map_string f a ++ map_string f b)%string.
Proof.
  induction a as [|c r IH]; [reflexivity|].
  cbn [map_string String.append]. rewrite IH. reflexivity.
Qed.

Lemma toUpperCase_idempotent (s : string) :
  toUpperCase (toUpperCase s) = toUpperCase s.
Proof.
  unfold toUpperCase. induction s as [|c r IH]; [reflexivity|].
  cbn [map_string]. rewrite upper_ascii_idempotent, IH. reflexivity.
Qed.

Lemma contains_char_upper (c : ascii) (s : string) :
  In c PairName.separators ->
  contains_char c (toUpperCase s) = contains_char c s.
Proof.
  intros Hc. unfold toUpperCase. induction s as [|d r IH]; [reflexivity|].
  cbn [map_string contains_char]. rewrite (@separator_upper c d Hc), IH.
  reflexivity.
Qed.

Lemma contains_char_app (c : ascii) (a b : string) :
  contains_char c (a ++ b) = contains_char c a || contains_char c b.
Proof.
  induction a as [|d r IH]; [reflexivity|].
  cbn [contains_char String.append]. rewrite IH. apply orb_assoc.
Qed.

Lemma replace_first_free (c : ascii) (a b : string) :
  contains_char c a = false ->
  PairName.replace_first c (a ++ String c b) = (a ++ String "/" b)%string.
Proof.
  induction a as [|d r IH]; intros Ha.
  - cbn [String.append PairName.replace_first]. rewrite Ascii.eqb_refl.
    reflexivity.
  - cbn [contains_char] in Ha. apply orb_false_iff in Ha.
    destruct Ha as [Hd Hr].
    cbn [String.append PairName.replace_first].
    rewrite Ascii.eqb_sym, Hd, (IH Hr). reflexivity.
Qed.

Lemma split_two (sep : ascii) (a b : string) :
  contains_char sep a = false -> contains_char sep b = false ->
  split sep (a ++ String sep b) = [a; b].
Proof.
  intros Ha Hb. unfold split.
  rewrite (@split_on_free_prefix sep a (String sep b) "" Ha).
  cbn [split_on]. rewrite Ascii.eqb_refl, rev_string_involutive.
  rewrite <- (string_app_nil_r b) at 1.
  rewrite (@split_on_free_prefix sep b "" "" Hb).
  cbn [split_on]. rewrite rev_string_involutive. reflexivity.
Qed.

Lemma split_one (sep : ascii) (a : string) :
  contains_char sep a = false -> split sep a = [a].
Proof.
  intros Ha. unfold split.
  rewrite <- (string_app_nil_r a) at 1.
  rewrite (@split_on_free_prefix sep a "" "" Ha).
  cbn [split_on]. rewrite rev_string_involutive. reflexivity.
Qed.

Lemma plain_upper (coin : string) (c : ascii) :
  PairName.plain coin -> In c PairName.separators ->
  contains_char c (toUpperCase coin) = false.
Proof.
  intros Hplain Hc. rewrite (@contains_char_upper c coin Hc). apply Hplain, Hc.
Qed.

(** X25.  [formatPairName] reads the three notations of a pair alike: for
    two coin names without [-], [_] and [/], joined by any one of these
    characters, it gives the upper-case names, their concatenation and the
    readable form with a slash.  A single such name has no second coin, and
    the text [undefined] stands for it in the pair. *)
Theorem formatPairName_reads_each_separator (a b : string) (sep : ascii) :
  PairName.plain a -> PairName.plain b -> In sep PairName.separators ->
  PairName.formatPairName (a ++ String sep b)
  = {| PairName.coin1 := Some (toUpperCase a);
       PairName.coin2 := Some (toUpperCase b);
       PairName.pair := (toUpperCase a ++ toUpperCase b)%string;
       PairName.pairReadable := (toUpperCase a ++ "/" ++ toUpperCase b)%string;
       PairName.pairPlain := (toUpperCase a ++ toUpperCase b)%string |}
  /\ PairName.formatPairName a
     = {| PairName.coin1 := Some (toUpperCase a);
          PairName.coin2 := None;
          PairName.pair := (toUpperCase a ++ "undefined")%string;
          PairName.pairReadable := (toUpperCase a ++ "/undefined")%string;
          PairName.pairPlain := (toUpperCase a ++ "undefined")%string |}.
Proof.
  intros Ha Hb Hsep.
  assert (Hfree : forall c, In c PairName.separators ->
            contains_char c (toUpperCase a) = false
            /\ contains_char c (toUpperCase b) = false).
  { intros c Hc. split; apply plain_upper; assumption. }
  assert (Hdash : In "-"%char PairName.separators) by (left; reflexivity).
  assert (Hunder : In "_"%char PairName.separators)
    by (right; left; reflexivity).
  assert (Hslash : In "/"%char PairName.separators)
    by (right; right; left; reflexivity).
  destruct (Hfree _ Hdash) as [Hda Hdb].
  destruct (Hfree _ Hunder) as [Hua Hub].
  destruct (Hfree _ Hslash) as [Hsa Hsb].
  assert (Hjoined :
    toUpperCase (toUpperCase a ++ String "/" (toUpperCase b))
    = (toUpperCase a ++ String "/" (toUpperCase b))%string).
  { unfold toUpperCase at 1. rewrite map_string_app. cbn [map_string].
    fold toUpperCase. rewrite !toUpperCase_idempotent. reflexivity. }
  split.
  - unfold PairName.formatPairName.
    assert (Hupper : toUpperCase (a ++ String sep b)
                     = (toUpperCase a ++ String sep (toUpperCase b))%string).
    { unfold toUpperCase. rewrite map_string_app. cbn [map_string].
      destruct Hsep as [<- | [<- | [<- | []]]]; reflexivity. }
    rewrite Hupper.
    destruct Hsep as [<- | [<- | [<- | []]]].
    + rewrite contains_char_app. cbn [contains_char]. rewrite Hda.
      cbn [Ascii.eqb Bool.eqb orb].
      rewrite (@replace_first_free "-" (toUpperCase a) (toUpperCase b) Hda), Hjoined.
      rewrite (@split_two "/" (toUpperCase a) (toUpperCase b) Hsa Hsb). reflexivity.
    + rewrite !contains_char_app. cbn [contains_char].
      rewrite Hda, Hdb, Hua. cbn [Ascii.eqb Bool.eqb orb].
      rewrite (@replace_first_free "_" (toUpperCase a) (toUpperCase b) Hua), Hjoined.
      rewrite (@split_two "/" (toUpperCase a) (toUpperCase b) Hsa Hsb). reflexivity.
    + rewrite !contains_char_app. cbn [contains_char].
      rewrite Hda, Hdb, Hua, Hub. cbn [Ascii.eqb Bool.eqb orb].
      rewrite (@split_two "/" (toUpperCase a) (toUpperCase b) Hsa Hsb). reflexivity.
  - unfold PairName.formatPairName. rewrite Hda, Hua.
    rewrite (@split_one "/" (toUpperCase a) Hsa). reflexivity.
Qed.

Lemma formatPairName_reads_each_separator_witness :
  PairName.formatPairName "adm_usdt"
  = {| PairName.coin1 := Some "ADM";
       PairName.coin2 := Some "USDT";
       PairName.pair := "ADMUSDT";
       PairName.pairReadable := "ADM/USDT";
       PairName.pairPlain := "ADMUSDT" |}
  /\ PairName.formatPairName "adm"
     = {| PairName.coin1 := Some "ADM";
          PairName.coin2 := None;
          PairName.pair := "ADMundefined";
          PairName.pairReadable := "ADM/undefined";
          PairName.pairPlain := "ADMundefined" |}.
Proof.
  apply (@formatPairName_reads_each_separator "adm" "usdt" "_").
  - intros c [<- | [<- | [<- | []]]]; reflexivity.
  - intros c [<- | [<- | [<- | []]]]; reflexivity.
  - right; left; reflexivity.
Defined.
